(** * Legal-AI-Analyzer: clause segmentation, classification and risk scoring

    A shallow embedding of [backened/AI_analyzer.py] (class [AIAnalyzer]) and
    [backened/risk_analyzer.py] (class [RiskAnalyzer]), and the properties of
    the specification stated over it.  The queries that [backened/main.py]
    runs on a stored document (questions, comparison, jurisdiction check)
    are in [AIQueries]; the cleaning of extracted entities of
    [backened/entity_extractor.py] is in [EntityExtractor].

    Text is a [string] whose characters are read as the code points 0..255
    (ASCII and Latin-1).  On those code points [Str.lower], [Str.isspace],
    [Str.isdecimal] and [Str.isword] agree with Python 3's [str.lower],
    [str.isspace], and the [\d] and [\w] classes of [re] on [str] patterns.
    Every keyword, phrase and pattern that the two classes match against
    text is ASCII; the messages they emit are kept byte for byte as the
    source file has them.

    The Python code wraps most bodies in [try]/[except].  On [str] arguments
    none of the operations inside those bodies raises, so the handlers are not
    reachable and the functions below are the [try] bodies; the one handler
    with behaviour of its own that the specification talks about (the
    blank-line fallback of the segmenter) is embedded as a function of its
    own. *)

From Stdlib Require Import Bool List ZArith NArith QArith Qabs Lia Ascii String DecimalString.
From Stdlib Require Import Sorted Permutation ListSet.
Import ListNotations.
Local Open Scope string_scope.
Local Open Scope Z_scope.

(* ------------------------------------------------------------------ *)
(** ** Python [str] primitives *)

Module Str.

Definition code (c : ascii) : N := N_of_ascii c.

Definition between (lo hi : N) (c : ascii) : bool :=
  ((lo <=? code c) && (code c <=? hi))%N.

Definition is_code (n : N) (c : ascii) : bool := (code c =? n)%N.

(** [str.isspace] / [\s]: TAB..CR, FS..US, SPACE, NEL, NBSP. *)
Definition isspace (c : ascii) : bool :=
  between 9 13 c || between 28 32 c || is_code 133 c || is_code 160 c.

(** [\d]: the decimal digits. *)
Definition isdecimal (c : ascii) : bool := between 48 57 c.

(** [str.isalnum] on Latin-1: digits, letters, the ordinal indicators, the
    micro sign, the superscripts and the vulgar fractions. *)
Definition isalnum (c : ascii) : bool :=
  between 48 57 c || between 65 90 c || between 97 122 c
  || is_code 170 c || is_code 178 c || is_code 179 c || is_code 181 c || is_code 185 c || is_code 186 c
  || between 188 190 c
  || between 192 214 c || between 216 246 c || between 248 255 c.

(** [\w]: alphanumeric or underscore. *)
Definition isword (c : ascii) : bool := isalnum c || is_code 95 c.

Definition isupper (c : ascii) : bool :=
  between 65 90 c || (between 192 222 c && negb (is_code 215 c)).

Definition lower_char (c : ascii) : ascii :=
  if isupper c then ascii_of_N (code c + 32) else c.

(** Upper-casing is exact for every character whose upper case is again a
    Latin-1 character; the three others (sharp s, micro sign, y with
    diaeresis) are left as they are. *)
Definition upper_char (c : ascii) : ascii :=
  if between 97 122 c || (between 224 254 c && negb (is_code 247 c))
  then ascii_of_N (code c - 32) else c.

Definition iscased (c : ascii) : bool :=
  between 65 90 c || between 97 122 c || is_code 170 c || is_code 181 c || is_code 186 c
  || between 192 214 c || between 216 246 c || between 248 255 c.

(** [s.lower()] *)
Fixpoint lower (s : string) : string :=
  match s with
  | EmptyString => EmptyString
  | String c r => String (lower_char c) (lower r)
  end.

(** [s.title()] *)
Fixpoint title_from (prev_cased : bool) (s : string) : string :=
  match s with
  | EmptyString => EmptyString
  | String c r =>
      String (if prev_cased then lower_char c else upper_char c)
             (title_from (iscased c) r)
  end.

Definition title (s : string) : string := title_from false s.

(** [s.replace(old, new)] for one-character [old] and [new]. *)
Fixpoint replace_char (old new : ascii) (s : string) : string :=
  match s with
  | EmptyString => EmptyString
  | String c r =>
      String (if Ascii.eqb c old then new else c) (replace_char old new r)
  end.

(** [s.startswith(p)] *)
Fixpoint startswith (p s : string) : bool :=
  match p, s with
  | EmptyString, _ => true
  | String a p', String b s' => Ascii.eqb a b && startswith p' s'
  | String _ _, EmptyString => false
  end.

(** [sub in s] *)
Fixpoint contains (sub s : string) : bool :=
  startswith sub s ||
  match s with
  | EmptyString => false
  | String _ r => contains sub r
  end.

(** [s[:n]] and [s[n:]] for [n >= 0] *)
Fixpoint take (n : nat) (s : string) : string :=
  match n, s with
  | S k, String c r => String c (take k r)
  | _, _ => EmptyString
  end.

Fixpoint drop (n : nat) (s : string) : string :=
  match n, s with
  | S k, String _ r => drop k r
  | _, _ => s
  end.

Definition is_empty (s : string) : bool :=
  match s with EmptyString => true | String _ _ => false end.

(** [s.strip()] *)
Fixpoint lstrip (s : string) : string :=
  match s with
  | EmptyString => EmptyString
  | String c r => if isspace c then lstrip r else s
  end.

Fixpoint rstrip (s : string) : string :=
  match s with
  | EmptyString => EmptyString
  | String c r =>
      let r' := rstrip r in
      if isspace c && is_empty r' then EmptyString else String c r'
  end.

Definition strip (s : string) : string := rstrip (lstrip s).

(** The pieces of a split are built front to back: [cons_head c l] puts [c]
    in front of the piece under construction. *)
Definition cons_head (c : ascii) (l : list string) : list string :=
  match l with
  | [] => [String c EmptyString]
  | p :: ps => String c p :: ps
  end.

(** [s.split(sep)] for a non-empty [sep].  [skip] counts the characters of
    the separator occurrence that are still to be passed over. *)
Fixpoint split_go (sep : string) (skip : nat) (s : string) : list string :=
  match s with
  | EmptyString => [EmptyString]
  | String c r =>
      match skip with
      | S k => split_go sep k r
      | O =>
          if startswith sep s
          then EmptyString :: split_go sep (Nat.pred (String.length sep)) r
          else cons_head c (split_go sep 0 r)
      end
  end.

Definition split (sep s : string) : list string := split_go sep 0 s.

(** [s.split()]: the maximal runs of non-space characters.  [words_go]
    returns the word that starts at the head of [s] and the words after it. *)
Fixpoint words_go (s : string) : string * list string :=
  match s with
  | EmptyString => (EmptyString, [])
  | String c r =>
      let '(w, ws) := words_go r in
      if isspace c
      then (EmptyString, if is_empty w then ws else w :: ws)
      else (String c w, ws)
  end.

Definition split_ws (s : string) : list string :=
  let '(w, ws) := words_go s in if is_empty w then ws else w :: ws.

(** [sep.join(l)] *)
Fixpoint join (sep : string) (l : list string) : string :=
  match l with
  | [] => EmptyString
  | [x] => x
  | x :: rest => x ++ sep ++ join sep rest
  end.

(** [str(n)] for a non-negative integer. *)
Definition of_nat (n : nat) : string := NilEmpty.string_of_uint (Nat.to_uint n).

(** [any(c in text for c in chars)] over the characters of [chars]. *)
Fixpoint any_char_in (chars text : string) : bool :=
  match chars with
  | EmptyString => false
  | String c r => contains (String c EmptyString) text || any_char_in r text
  end.

Definition len (s : string) : Z := Z.of_nat (String.length s).

End Str.

(* ------------------------------------------------------------------ *)
(** ** The fragment of Python's [re] that the patterns of the source use

    A backtracking matcher with the priorities of [re]: quantifiers are
    greedy, alternatives are tried left to right, and the first success in
    that order is the match.  The one capturing group of the source is group
    1 of the notice pattern. *)

Module Re.

Inductive regex : Type :=
| Lit (s : string)                        (* literal text *)
| Cls (p : ascii -> bool)                 (* one character of a class *)
| Many (p : ascii -> bool) (lo : nat)     (* class{lo,}, greedy *)
| Opt (r : regex)                         (* (?:r)?, greedy *)
| Alt (r1 r2 : regex)                     (* r1|r2 *)
| Seq (r1 r2 : regex)                     (* r1r2 *)
| Grp (r : regex).                        (* (r), capturing group 1 *)

(** A match in progress: the text that is left and the capture of group 1. *)
Definition cont (A : Type) : Type := string -> option string -> option A.

Fixpoint many {A : Type} (p : ascii -> bool) (lo : nat) (s : string)
         (k : string -> option A) : option A :=
  let stop := match lo with O => k s | S _ => None end in
  match s with
  | EmptyString => stop
  | String c r =>
      if p c then
        match many p (Nat.pred lo) r k with
        | Some x => Some x
        | None => stop
        end
      else stop
  end.

Fixpoint run {A : Type} (r : regex) (s : string) (cap : option string)
         (k : cont A) : option A :=
  match r with
  | Lit l =>
      if Str.startswith l s then k (Str.drop (String.length l) s) cap else None
  | Cls p =>
      match s with
      | String c s' => if p c then k s' cap else None
      | EmptyString => None
      end
  | Many p lo => many p lo s (fun s' => k s' cap)
  | Opt r1 =>
      match run r1 s cap k with
      | Some x => Some x
      | None => k s cap
      end
  | Alt r1 r2 =>
      match run r1 s cap k with
      | Some x => Some x
      | None => run r2 s cap k
      end
  | Seq r1 r2 => run r1 s cap (fun s' cap' => run r2 s' cap' k)
  | Grp r1 =>
      run r1 s cap
          (fun s' _ => k s' (Some (Str.take (String.length s - String.length s') s)))
  end.

(** The result of a match: [group()] and [group(1)]. *)
Record match_obj : Type := { group0 : string; group1 : option string }.

(** [re.match(r, s)]: a match that starts at the head of [s]. *)
Definition match_at (r : regex) (s : string) : option match_obj :=
  run r s None
      (fun s' cap =>
         Some {| group0 := Str.take (String.length s - String.length s') s;
                 group1 := cap |}).

(** [re.search(r, s)]: the leftmost match. *)
Fixpoint search (r : regex) (s : string) : option match_obj :=
  match match_at r s with
  | Some m => Some m
  | None =>
      match s with
      | EmptyString => None
      | String _ s' => search r s'
      end
  end.

Definition found (r : regex) (s : string) : bool :=
  match search r s with Some _ => true | None => false end.

(** [re.split(r, s)] for a pattern without groups whose matches are never
    empty (every separator of the source starts with a newline): the text
    between the successive leftmost matches. *)
Fixpoint split_go (r : regex) (skip : nat) (s : string) : list string :=
  match s with
  | EmptyString => [EmptyString]
  | String c s' =>
      match skip with
      | S k => split_go r k s'
      | O =>
          match option_map (fun m => String.length (group0 m)) (match_at r s) with
          | Some (S n) => EmptyString :: split_go r n s'
          | _ => Str.cons_head c (split_go r 0 s')
          end
      end
  end.

Definition split (r : regex) (s : string) : list string := split_go r 0 s.

Fixpoint cat (rs : list regex) : regex :=
  match rs with
  | [] => Lit EmptyString
  | [r] => r
  | r :: rest => Seq r (cat rest)
  end.

(** Pattern atoms. *)
Definition w_star : regex := Many Str.isword 0.          (* \w* *)
Definition s_star : regex := Many Str.isspace 0.         (* \s* *)
Definition s_plus : regex := Many Str.isspace 1.         (* \s+ *)
Definition d_plus : regex := Many Str.isdecimal 1.       (* \d+ *)
Definition nl : regex := Cls (Str.is_code 10).                (* \n *)
Definition dot (c : ascii) : bool := negb (Str.is_code 10 c). (* . *)

End Re.

(* ------------------------------------------------------------------ *)
(** ** Records shared by the two classes *)

(** The dictionary built by [AIAnalyzer._analyze_clause]; [clause_id] is its
    key ['id']. *)
Module Clause.
Record clause : Type := {
  clause_id : string;
  title : string;
  content : string;
  simplified : string;
  risk_level : string;
  risk_score : Z;
  risk_factors : list string;
  clause_type : string
}.
End Clause.

(** The dictionary [{'score', 'level', 'factors'}] that both clause scorers
    return. *)
Record risk : Type := {
  score : Z;
  level : string;
  factors : list string
}.

(** A pattern of a pattern table: the text of the pattern as the source
    writes it, and the expression it denotes. *)
Record pattern : Type := { src : string; rx : Re.regex }.

(** [any(term in text for term in terms)] *)
Definition any_in (terms : list string) (text : string) : bool :=
  existsb (fun term => Str.contains term text) terms.

(** [for term in terms: if term.lower() in text: score += weight;
    factors.append(label + term + "'")] *)
Definition scan_terms (label : string) (weight : Z) (text : string)
           (terms : list string) (acc : Z * list string) : Z * list string :=
  fold_left
    (fun (a : Z * list string) (term : string) =>
       if Str.contains (Str.lower term) text
       then (fst a + weight, (snd a ++ [(label ++ term ++ "'")%string])%list)
       else a)
    terms acc.

(** [d.get(key, default)] *)
Fixpoint get {V : Type} (d : list (string * V)) (key : string) (default : V) : V :=
  match d with
  | [] => default
  | (k, v) :: rest => if String.eqb k key then v else get rest key default
  end.

(** [max(1, min(10, risk_score))] *)
Definition clamp (risk_score : Z) : Z := Z.max 1 (Z.min 10 risk_score).

Definition NL : string := String (ascii_of_N 10) EmptyString.

(* ------------------------------------------------------------------ *)
(** ** [class AIAnalyzer] *)

Module AIAnalyzer.

Import Re.
Import Clause.

Definition clause_patterns : list (string * list pattern) :=
  [ ("termination",
     [ {| src := "terminat\w*"; rx := cat [Lit "terminat"; w_star] |};
       {| src := "end\s+(?:of\s+)?(?:this\s+)?(?:agreement|contract)";
          rx := cat [Lit "end"; s_plus; Opt (cat [Lit "of"; s_plus]);
                     Opt (cat [Lit "this"; s_plus]);
                     Alt (Lit "agreement") (Lit "contract")] |};
       {| src := "expire\w*"; rx := cat [Lit "expire"; w_star] |};
       {| src := "dissolution"; rx := Lit "dissolution" |};
       {| src := "cancell\w*"; rx := cat [Lit "cancell"; w_star] |} ]);
    ("liability",
     [ {| src := "liabilit\w*"; rx := cat [Lit "liabilit"; w_star] |};
       {| src := "responsible\w*"; rx := cat [Lit "responsible"; w_star] |};
       {| src := "damages?"; rx := cat [Lit "damage"; Opt (Lit "s")] |};
       {| src := "loss\w*"; rx := cat [Lit "loss"; w_star] |};
       {| src := "indemnif\w*"; rx := cat [Lit "indemnif"; w_star] |};
       {| src := "hold\s+harmless"; rx := cat [Lit "hold"; s_plus; Lit "harmless"] |} ]);
    ("payment",
     [ {| src := "payment\w*"; rx := cat [Lit "payment"; w_star] |};
       {| src := "pay\w*"; rx := cat [Lit "pay"; w_star] |};
       {| src := "fee\w*"; rx := cat [Lit "fee"; w_star] |};
       {| src := "cost\w*"; rx := cat [Lit "cost"; w_star] |};
       {| src := "price\w*"; rx := cat [Lit "price"; w_star] |};
       {| src := "invoice\w*"; rx := cat [Lit "invoice"; w_star] |};
       {| src := "billing"; rx := Lit "billing" |};
       {| src := "charge\w*"; rx := cat [Lit "charge"; w_star] |} ]);
    ("confidentiality",
     [ {| src := "confidential\w*"; rx := cat [Lit "confidential"; w_star] |};
       {| src := "non.?disclosure";
          rx := cat [Lit "non"; Opt (Cls dot); Lit "disclosure"] |};
       {| src := "proprietary"; rx := Lit "proprietary" |};
       {| src := "trade\s+secret\w*"; rx := cat [Lit "trade"; s_plus; Lit "secret"; w_star] |};
       {| src := "private\w*"; rx := cat [Lit "private"; w_star] |} ]);
    ("intellectual_property",
     [ {| src := "intellectual\s+property";
          rx := cat [Lit "intellectual"; s_plus; Lit "property"] |};
       {| src := "copyright\w*"; rx := cat [Lit "copyright"; w_star] |};
       {| src := "trademark\w*"; rx := cat [Lit "trademark"; w_star] |};
       {| src := "patent\w*"; rx := cat [Lit "patent"; w_star] |};
       {| src := "ownership"; rx := Lit "ownership" |} ]);
    ("dispute_resolution",
     [ {| src := "dispute\w*"; rx := cat [Lit "dispute"; w_star] |};
       {| src := "arbitration"; rx := Lit "arbitration" |};
       {| src := "mediation"; rx := Lit "mediation" |};
       {| src := "court\w*"; rx := cat [Lit "court"; w_star] |};
       {| src := "jurisdiction"; rx := Lit "jurisdiction" |};
       {| src := "governing\s+law"; rx := cat [Lit "governing"; s_plus; Lit "law"] |} ]) ].

Definition high_risk_keywords : list string :=
  [ "unlimited liability"; "personal guarantee"; "no refund";
    "immediate termination"; "sole discretion"; "without cause";
    "liquidated damages"; "penalty"; "forfeiture" ].

Definition medium_risk_keywords : list string :=
  [ "limited liability"; "reasonable notice"; "material breach";
    "cure period"; "mutual agreement"; "standard terms" ].

(** [self.clause_patterns[key]]; every key the source looks up is present. *)
Fixpoint patterns_of (key : string) (tbl : list (string * list pattern)) : list pattern :=
  match tbl with
  | [] => []
  | (k, ps) :: rest => if String.eqb k key then ps else patterns_of key rest
  end.

(** *** [_split_into_clauses] *)

Definition clause_separators : list regex :=
  [ cat [nl; s_star; d_plus; Lit "."; s_plus];                     (* \n\s*\d+\.\s+ *)
    cat [nl; s_star; Lit "("; Cls (Str.between 97 122); Lit ")"; s_plus];
                                                                    (* \n\s*\([a-z]\)\s+ *)
    cat [nl; s_star;
         Many (fun c => Str.between 65 90 c || Str.isspace c) 3;
         Lit ":"; s_star; nl];                                      (* \n\s*[A-Z\s]{3,}:\s*\n *)
    cat [nl; s_star; Lit "SECTION"; s_plus; d_plus];                (* \n\s*SECTION\s+\d+ *)
    cat [nl; s_star; Lit "ARTICLE"; s_plus; d_plus] ].              (* \n\s*ARTICLE\s+\d+ *)

(** [[p.strip() for p in parts if p.strip()]] *)
Definition stripped_parts (parts : list string) : list string :=
  flat_map (fun p => if Str.is_empty (Str.strip p) then [] else [Str.strip p]) parts.

(** One turn of the loop over the separators. *)
Definition split_pass (sections : list string) (pattern : regex) : list string :=
  flat_map (fun section => stripped_parts (Re.split pattern section)) sections.

Definition _split_into_clauses (text : string) : list string :=
  let sections := fold_left split_pass clause_separators [text] in
  let meaningful_sections := filter (fun s => 100 <? Str.len s) sections in
  firstn 20 meaningful_sections.

(** The [except] branch of [_split_into_clauses]: paragraphs between blank
    lines. *)
Definition split_fallback (text : string) : list string :=
  firstn 10
    (flat_map (fun p => if 100 <? Str.len (Str.strip p) then [Str.strip p] else [])
              (Str.split (NL ++ NL) text)).

(** *** [_identify_clause_type] *)

Definition pattern_found (text_lower : string) (p : pattern) : bool :=
  Re.found (rx p) text_lower.

(** The two nested loops over [self.clause_patterns.items()]: the type of
    the first table entry one of whose patterns is found. *)
Fixpoint first_matching_type (tbl : list (string * list pattern)) (text_lower : string)
  : option string :=
  match tbl with
  | [] => None
  | (clause_type, patterns) :: rest =>
      if existsb (pattern_found text_lower) patterns
      then Some clause_type
      else first_matching_type rest text_lower
  end.

Definition _identify_clause_type (text : string) : string :=
  let text_lower := Str.lower text in
  match first_matching_type clause_patterns text_lower with
  | Some clause_type => clause_type
  | None =>
      if any_in ["shall"; "will"; "must"; "required"] text_lower then "obligation"
      else if any_in ["may"; "can"; "permitted"; "allowed"] text_lower then "right"
      else "general"
  end.

(** *** [_simplify_clause] *)

Definition simplification_templates : list (string * string) :=
  [ ("termination", "This explains how either party can end the contract.");
    ("liability", "This describes who is responsible if something goes wrong.");
    ("payment", "This covers how much you pay and when payments are due.");
    ("confidentiality", "This requires keeping shared information private.");
    ("intellectual_property", "This defines who owns ideas and creative work.");
    ("dispute_resolution", "This explains how to resolve disagreements.");
    ("obligation", "This describes what you must do under the contract.");
    ("right", "This explains what you're allowed to do.") ].

(** [(\d+)\s+days?\s+notice] *)
Definition notice_re : regex :=
  cat [Grp d_plus; s_plus; Lit "day"; Opt (Lit "s"); s_plus; Lit "notice"].

(** [\$[\d,]+] *)
Definition amount_re : regex :=
  cat [Lit "$"; Many (fun c => Str.isdecimal c || Str.is_code 44 c) 1].

Definition _simplify_clause (clause_text clause_type : string) : string :=
  let base_explanation :=
    get simplification_templates clause_type "This is a standard contract provision." in
  let text_lower := Str.lower clause_text in
  if Str.contains "termination" text_lower then
    let base_explanation :=
      if Str.contains "notice" text_lower then
        match Re.search notice_re text_lower with
        | Some notice_match =>
            match group1 notice_match with
            | Some days => base_explanation ++ " You need to give " ++ days ++ " days notice."
            | None => base_explanation
            end
        | None => base_explanation
        end
      else base_explanation in
    if Str.contains "cause" text_lower && Str.contains "without" text_lower
    then base_explanation ++ " Either party can terminate without giving a specific reason."
    else base_explanation
  else if Str.contains "payment" text_lower then
    let base_explanation :=
      match Re.search amount_re clause_text with
      | Some amount_match =>
          base_explanation ++ " The amount involved is " ++ group0 amount_match ++ "."
      | None => base_explanation
      end in
    if Str.contains "late" text_lower && Str.contains "fee" text_lower
    then base_explanation ++ " There are penalties for late payment."
    else base_explanation
  else base_explanation.

(** *** [_assess_clause_risk] *)

(** The clause-specific adjustment, an [if]/[elif] chain over the type. *)
Definition type_adjustment (clause_type text_lower : string)
           (acc : Z * list string) : Z * list string :=
  if String.eqb clause_type "termination" then
    if Str.contains "immediate" text_lower || Str.contains "without notice" text_lower
    then (fst acc + 2, (snd acc ++ ["Allows immediate termination"])%list)
    else acc
  else if String.eqb clause_type "liability" then
    if Str.contains "unlimited" text_lower
    then (fst acc + 3, (snd acc ++ ["Unlimited liability exposure"])%list)
    else if Str.contains "limited" text_lower
    then (fst acc - 1, (snd acc ++ ["Liability is limited"])%list)
    else acc
  else if String.eqb clause_type "payment" then
    if Str.contains "penalty" text_lower || Str.contains "liquidated damages" text_lower
    then (fst acc + 2, (snd acc ++ ["Contains payment penalties"])%list)
    else acc
  else acc.

(** The score before it is normalised, with the factors collected so far. *)
Definition raw_risk (clause_text clause_type : string) : Z * list string :=
  let text_lower := Str.lower clause_text in
  let acc := (5, []) in
  let acc := scan_terms "Contains high-risk term: '" 2 text_lower high_risk_keywords acc in
  let acc := scan_terms "Contains medium-risk term: '" 1 text_lower medium_risk_keywords acc in
  type_adjustment clause_type text_lower acc.

Definition level_of_score (risk_score : Z) : string :=
  if risk_score <=? 3 then "low"
  else if risk_score <=? 7 then "medium"
  else "high".

Definition _assess_clause_risk (clause_text clause_type : string) : risk :=
  let '(risk_score, risk_factors) := raw_risk clause_text clause_type in
  let risk_score := clamp risk_score in
  let risk_level := level_of_score risk_score in
  let risk_factors :=
    match risk_factors with
    | [] => ["Standard clause with typical terms"]
    | _ => risk_factors
    end in
  {| score := risk_score; level := risk_level; factors := risk_factors |}.

(** *** [_analyze_clause] *)

Definition _analyze_clause (clause_text : string) (clause_index : nat) : clause :=
  let clause_type := _identify_clause_type clause_text in
  let simplified := _simplify_clause clause_text clause_type in
  let risk_assessment := _assess_clause_risk clause_text clause_type in
  {| clause_id := "clause_" ++ Str.of_nat clause_index;
     title := Str.title (Str.replace_char "_" " " clause_type);
     content := if 500 <? Str.len clause_text
                then Str.take 500 clause_text ++ "..."
                else clause_text;
     simplified := simplified;
     risk_level := level risk_assessment;
     risk_score := score risk_assessment;
     risk_factors := factors risk_assessment;
     clause_type := clause_type |}.

(** *** [_detect_document_type] *)

Definition _detect_document_type (text : string) : string :=
  let text_lower := Str.lower text in
  if Str.contains "service agreement" text_lower
     || Str.contains "services agreement" text_lower then "Service Agreement"
  else if Str.contains "employment" text_lower && Str.contains "agreement" text_lower
  then "Employment Agreement"
  else if Str.contains "lease" text_lower || Str.contains "rental" text_lower
  then "Lease Agreement"
  else if Str.contains "non-disclosure" text_lower || Str.contains "nda" text_lower
  then "Non-Disclosure Agreement"
  else if Str.contains "license" text_lower && Str.contains "agreement" text_lower
  then "License Agreement"
  else if Str.contains "purchase" text_lower || Str.contains "sale" text_lower
  then "Purchase Agreement"
  else if Str.contains "partnership" text_lower then "Partnership Agreement"
  else if Str.contains "contract" text_lower then "Contract"
  else "Legal Document".

(** *** [_generate_summary] *)

(** [any(pattern in text_lower for patterns in self.clause_patterns[key]
    for pattern in patterns)]: the outer variable ranges over the pattern
    texts and the inner one over the characters of each. *)
Definition theme_present (key text_lower : string) : bool :=
  existsb (fun patterns => Str.any_char_in (src patterns) text_lower)
          (patterns_of key clause_patterns).

Definition _generate_summary (text filename : string) : string :=
  let doc_type := _detect_document_type text in
  let word_count := List.length (Str.split_ws text) in
  let summary :=
    "This " ++ doc_type ++ " document (" ++ filename ++ ") contains approximately "
    ++ Str.of_nat word_count ++ " words. " in
  let clause_count := List.length (_split_into_clauses text) in
  let summary :=
    summary ++ "The document has been analyzed and contains "
    ++ Str.of_nat clause_count ++ " major clauses or sections. " in
  let text_lower := Str.lower text in
  let themes :=
    ((if theme_present "termination" text_lower then ["contract termination"] else [])
     ++ (if theme_present "payment" text_lower then ["payment terms"] else [])
     ++ (if theme_present "liability" text_lower then ["liability provisions"] else [])
     ++ (if theme_present "confidentiality" text_lower
         then ["confidentiality requirements"] else []))%list in
  match themes with
  | [] => summary
  | _ => summary ++ "Key areas covered include: " ++ Str.join ", " themes ++ "."
  end.

(** *** [analyze_document] *)

Record analysis : Type := {
  summary : string;
  clauses : list clause;
  analysis_timestamp : string;
  document_type : string
}.

(** [for i, section in enumerate(sections): if len(section.strip()) > 50: ...] *)
Fixpoint analyze_sections (i : nat) (sections : list string) : list clause :=
  match sections with
  | [] => []
  | section :: rest =>
      if 50 <? Str.len (Str.strip section)
      then _analyze_clause section i :: analyze_sections (S i) rest
      else analyze_sections (S i) rest
  end.

(** [now] is the value of [datetime.now().isoformat()] at the call: the one
    input of the function besides its arguments. *)
Definition analyze_document (now : string) (text filename : string) : analysis :=
  let sections := _split_into_clauses text in
  let analyzed_clauses := analyze_sections 0 sections in
  let summary := _generate_summary text filename in
  {| summary := summary;
     clauses := analyzed_clauses;
     analysis_timestamp := now;
     document_type := _detect_document_type text |}.

End AIAnalyzer.

(* ------------------------------------------------------------------ *)
(** ** Python floats

    [RiskAnalyzer.assess_risk] averages scores, rounds the averages to one
    decimal and prints a percentage.  The embedding takes the float
    operations it needs as an interface, so that what is proved of
    [assess_risk] holds for every implementation of them.  [binary64]
    implements the interface as Python does: a float is the rational value
    of an IEEE 754 double, every operation computes the exact result and
    rounds it to the nearest double, ties to even.  It covers the normal
    range (no overflow, no subnormal numbers, no negative zero), which
    contains every value the two classes compute. *)

Class FloatOps : Type := {
  float : Type;
  truediv : Z -> Z -> float;        (* a / b on integers, b <> 0 *)
  times100 : float -> float;        (* x * 100 *)
  ge_int : float -> Z -> bool;      (* x >= n for an integer n *)
  flt : float -> float -> bool;     (* x < y *)
  round1 : float -> float;          (* round(x, 1) *)
  format_1f : float -> string       (* f"{x:.1f}" *)
}.

(** The nearest integer to [q], ties to even. *)
Definition Qround (q : Q) : Z :=
  let n := Qnum q in
  let d := Zpos (Qden q) in
  let f := n / d in
  let r := 2 * (n mod d) in
  if r <? d then f
  else if d <? r then f + 1
  else if Z.even f then f else f + 1.

(** [q / 2^e] *)
Definition scale2 (q : Q) (e : Z) : Q :=
  if e <? 0 then Qmult q (2 ^ (- e) # 1) else Qmult q (1 # Z.to_pos (2 ^ e)).

(** The double nearest to [q], ties to even: [m * 2^e] for the exponent [e]
    that puts [|q| / 2^e] between [2^52] and [2^53], and [m] the nearest
    integer to [q / 2^e]. *)
Definition nearest_double (q : Q) : Q :=
  if Qnum q =? 0 then 0%Q
  else
    let e0 := Z.log2 (Z.abs (Qnum q)) - Z.log2 (Zpos (Qden q)) - 52 in
    let e := if Qle_bool (2 ^ 52 # 1) (Qabs (scale2 q e0)) then e0 else e0 - 1 in
    Qred (scale2 (Qround (scale2 q e) # 1) (- e)).

(** The number of tenths nearest to [q], ties to even: the digits that
    [round(x, 1)] and the format [.1f] both take from the exact value of the
    double. *)
Definition tenths (q : Q) : Z := Qround (Qmult q (10 # 1)).

Definition Z_to_string (z : Z) : string :=
  NilEmpty.string_of_int (Z.to_int z).

Definition binary64 : FloatOps := {|
  float := Q;
  truediv := fun a b => nearest_double (Qmake a (Z.to_pos b));
  times100 := fun x => nearest_double (Qmult x (100 # 1));
  ge_int := fun x n => Qle_bool (n # 1) x;
  flt := fun x y => negb (Qle_bool y x);
  round1 := fun x => nearest_double (Qmake (tenths x) 10);
  format_1f := fun x =>
    let t := tenths x in
    (if Qle_bool 0 x then "" else "-")
    ++ Z_to_string (Z.abs t / 10) ++ "." ++ Z_to_string (Z.abs t mod 10)
|}.

(* ------------------------------------------------------------------ *)
(** ** [class RiskAnalyzer] *)

Module RiskAnalyzer.

Definition high_risk_terms : list (string * list string) :=
  [ ("liability",
     [ "unlimited liability"; "personal liability"; "joint and several liability";
       "full liability"; "complete liability"; "absolute liability" ]);
    ("termination",
     [ "immediate termination"; "terminate without cause"; "terminate at will";
       "no notice termination"; "summary termination"; "terminate for convenience" ]);
    ("payment",
     [ "no refund"; "non-refundable"; "liquidated damages"; "penalty clause";
       "forfeiture"; "compound interest"; "usurious interest" ]);
    ("obligations",
     [ "personal guarantee"; "unlimited guarantee"; "unconditional guarantee";
       "irrevocable commitment"; "binding obligation" ]);
    ("dispute",
     [ "waive jury trial"; "binding arbitration"; "no appeal";
       "attorney fees to prevailing party"; "forum selection" ]);
    ("modification",
     [ "unilateral modification"; "sole discretion"; "without consent";
       "may change at any time"; "reserves the right" ]) ].

Definition medium_risk_terms : list (string * list string) :=
  [ ("liability",
     [ "limited liability"; "liability cap"; "consequential damages excluded" ]);
    ("termination",
     [ "terminate with cause"; "30 days notice"; "material breach" ]);
    ("payment",
     [ "late fees"; "interest charges"; "partial refund" ]);
    ("obligations",
     [ "best efforts"; "commercially reasonable efforts"; "due diligence" ]) ].

Definition low_risk_terms : list (string * list string) :=
  [ ("liability",
     [ "mutual liability limitation"; "liability excluded"; "no liability" ]);
    ("termination",
     [ "terminate for convenience with notice"; "mutual termination"; "cure period" ]);
    ("payment",
     [ "pro-rated refund"; "reasonable fees"; "market rate" ]) ].

Definition risk_weights : list (string * Z) :=
  [ ("high_risk_term", 3); ("medium_risk_term", 2); ("low_risk_term", -1);
    ("unclear_language", 2); ("one_sided_clause", 2); ("broad_scope", 1);
    ("time_pressure", 1) ].

(** [self.risk_weights[key]]; every key the source looks up is present. *)
Definition weight (key : string) : Z := get risk_weights key 0.

Definition base_risk_scores : list (string * Z) :=
  [ ("termination", 6); ("liability", 7); ("payment", 5); ("confidentiality", 3);
    ("intellectual_property", 4); ("dispute_resolution", 5); ("obligations", 5);
    ("warranties", 4); ("indemnification", 7); ("force_majeure", 2);
    ("general", 4) ].

(** [for category, terms in table.items(): for term in terms]: the terms of
    a table in the order the two loops visit them. *)
Definition all_terms (table : list (string * list string)) : list string :=
  List.concat (map snd table).

(** [sum(1 for term in terms if term in text)] *)
Definition count_in (terms : list string) (text : string) : Z :=
  Z.of_nat (List.length (filter (fun term => Str.contains term text) terms)).

(** *** [_check_additional_risk_factors] *)

Definition ambiguous_terms : list string :=
  [ "reasonable"; "appropriate"; "satisfactory"; "adequate"; "fair" ].

Definition one_sided_indicators : list string :=
  [ "sole discretion"; "absolute right"; "unilateral"; "without limitation";
    "at our option"; "we may"; "company reserves" ].

Definition broad_scope_terms : list string :=
  [ "all"; "any"; "every"; "entire"; "complete"; "total" ].

Definition time_pressure_terms : list string :=
  [ "immediately"; "forthwith"; "without delay"; "urgently" ].

Definition _check_additional_risk_factors (clause_text : string) (current_score : Z)
  : Z * list string :=
  let acc := (0, []) in
  let ambiguous_count := count_in ambiguous_terms clause_text in
  let acc :=
    if 2 <=? ambiguous_count
    then (fst acc + weight "unclear_language",
          (snd acc ++ ["Contains ambiguous language"])%list)
    else acc in
  let acc :=
    if any_in one_sided_indicators clause_text
    then (fst acc + weight "one_sided_clause",
          (snd acc ++ ["One-sided clause favoring other party"])%list)
    else acc in
  let broad_count :=
    count_in (map (fun term => " " ++ term ++ " ") broad_scope_terms) clause_text in
  let acc :=
    if 3 <=? broad_count
    then (fst acc + weight "broad_scope", (snd acc ++ ["Unusually broad scope"])%list)
    else acc in
  let acc :=
    if any_in time_pressure_terms clause_text
    then (fst acc + weight "time_pressure",
          (snd acc ++ ["Contains time pressure elements"])%list)
    else acc in
  (current_score + fst acc, snd acc).

(** *** [_score_to_level] *)

Definition _score_to_level (score : Z) : string :=
  if 7 <=? score then "high"
  else if 4 <=? score then "medium"
  else "low".

(** *** [_analyze_clause_risk] *)

(** The score before it is normalised, on the lower-cased text. *)
Definition raw_risk (clause_text clause_type : string) : Z * list string :=
  let acc := (get base_risk_scores clause_type 4, []) in
  let acc := scan_terms "High-risk term: '" (weight "high_risk_term") clause_text
                        (all_terms high_risk_terms) acc in
  let acc := scan_terms "Medium-risk term: '" (weight "medium_risk_term") clause_text
                        (all_terms medium_risk_terms) acc in
  let acc := scan_terms "Protective term: '" (weight "low_risk_term") clause_text
                        (all_terms low_risk_terms) acc in
  let '(risk_score, additional_factors) :=
    _check_additional_risk_factors clause_text (fst acc) in
  (risk_score, (snd acc ++ additional_factors)%list).

Definition _analyze_clause_risk (c : Clause.clause) : risk :=
  let clause_text := Str.lower (Clause.content c) in
  let clause_type := Clause.clause_type c in
  let '(risk_score, risk_factors) := raw_risk clause_text clause_type in
  let risk_score := clamp risk_score in
  {| score := risk_score;
     level := _score_to_level risk_score;
     factors := risk_factors |}.

(** *** Helpers on lists of scores *)

Definition sum (l : list Z) : Z := fold_left Z.add l 0.

(** [max(l)] of a non-empty list; the source guards every call. *)
Definition max_of (l : list Z) : Z :=
  match l with
  | [] => 0
  | x :: r => fold_left Z.max r x
  end.

Definition count (p : Z -> bool) (l : list Z) : nat := List.length (filter p l).

(** [scores and max(scores) >= n] *)
Definition max_at_least (n : Z) (scores : list Z) : bool :=
  match scores with
  | [] => false
  | _ => n <=? max_of scores
  end.

(** [list(set(l))]: the distinct elements (first occurrences are kept here;
    Python leaves the order of a set unspecified). *)
Fixpoint distinct (l : list string) : list string :=
  match l with
  | [] => []
  | x :: r => x :: filter (fun y => negb (String.eqb x y)) (distinct r)
  end.

(** [if k not in d: d[k] = []; d[k].append(v)] on an insertion-ordered
    dictionary. *)
Fixpoint breakdown_add (k : string) (v : Z) (d : list (string * list Z))
  : list (string * list Z) :=
  match d with
  | [] => [(k, [v])]
  | (k', vs) :: rest =>
      if String.eqb k' k then (k', (vs ++ [v])%list) :: rest
      else (k', vs) :: breakdown_add k v rest
  end.

(** *** [_generate_recommendations] *)

(** The first block: the recommendations chosen by the overall level. *)
Definition overall_recommendations (overall_risk : string) : list string :=
  if String.eqb overall_risk "high" then
    [ "ðŸš¨ CRITICAL: This contract has significant risks. Strongly consider legal review before signing.";
      "Negotiate key terms to reduce your exposure, especially in liability and termination clauses." ]
  else if String.eqb overall_risk "medium" then
    [ "âš ï¸ CAUTION: This contract has moderate risks. Review carefully and consider legal consultation.";
      "Focus on understanding and potentially negotiating the higher-risk clauses." ]
  else
    [ "âœ… This contract appears to have manageable risk levels." ].

(** [any(needle in factor.lower() for factor in unique_factors)] *)
Definition factor_mentions (needle : string) (risk_factors : list string) : bool :=
  existsb (fun factor => Str.contains needle (Str.lower factor)) risk_factors.

(** The second block: one recommendation for each kind of factor present. *)
Definition factor_recommendations (risk_factors : list string) : list string :=
  ((if factor_mentions "unlimited liability" risk_factors
    then ["Consider negotiating a liability cap to limit your financial exposure."]
    else [])
   ++ (if factor_mentions "immediate termination" risk_factors
       then ["Request a cure period or notice requirement for termination clauses."]
       else [])
   ++ (if factor_mentions "one-sided" risk_factors
       then ["Push for more balanced terms that don't heavily favor the other party."]
       else [])
   ++ (if factor_mentions "ambiguous" risk_factors
       then ["Request clarification on vague or ambiguous language."]
       else []))%list.

(** The third block: the loop over [clause_breakdown.items()]. *)
Definition type_recommendations (clause_breakdown : list (string * list Z)) : list string :=
  flat_map
    (fun '(clause_type, scores) =>
       if max_at_least 8 scores then
         if String.eqb clause_type "payment" then
           ["Review payment terms carefully - consider negotiating penalties and fees."]
         else if String.eqb clause_type "liability" then
           ["The liability clause is high-risk - consider insurance or indemnification."]
         else if String.eqb clause_type "termination" then
           ["Termination terms are unfavorable - negotiate for more balanced conditions."]
         else []
       else [])
    clause_breakdown.

Definition general_recommendations : list string :=
  [ "Ensure you understand all terms before signing.";
    "Keep copies of all documents and correspondence." ].

Definition _generate_recommendations (overall_risk : string) (risk_factors : list string)
           (clause_breakdown : list (string * list Z)) : list string :=
  let recommendations := overall_recommendations overall_risk in
  let unique_factors := distinct risk_factors in
  let recommendations :=
    (recommendations ++ factor_recommendations unique_factors)%list in
  let recommendations :=
    (recommendations ++ type_recommendations clause_breakdown)%list in
  let recommendations :=
    if (List.length recommendations =? 1)%nat
    then (recommendations ++ general_recommendations)%list
    else recommendations in
  firstn 10 recommendations.

(** *** [_get_risk_area_description] *)

Definition descriptions : list (string * string) :=
  [ ("liability", "Defines your financial responsibility if something goes wrong");
    ("termination", "Controls how and when the contract can be ended");
    ("payment", "Governs payment obligations and potential penalties");
    ("indemnification", "Requires you to protect the other party from certain losses");
    ("dispute_resolution", "Determines how conflicts will be resolved");
    ("obligations", "Specifies what you must do under the contract");
    ("warranties", "Contains promises about performance or quality");
    ("intellectual_property", "Governs ownership of ideas and creative work");
    ("confidentiality", "Controls sharing of sensitive information");
    ("force_majeure", "Addresses what happens during extraordinary circumstances") ].

Definition _get_risk_area_description (clause_type : string) : string :=
  get descriptions clause_type "Important contractual provision".

(** *** The result of [assess_risk] *)

(** A number of the result: the empty assessment holds integers where the
    computed one holds floats. *)
Inductive number (float : Type) : Type :=
| Int (z : Z)
| Float (x : float).
Arguments Int {float} z.
Arguments Float {float} x.

(** An entry of ['top_risk_areas']. *)
Module Area.
Record area (float : Type) : Type := {
  area_name : string;                 (* 'area' *)
  avg_risk_score : float;
  max_risk_score : Z;
  clause_count : nat;
  description : string;
  sample_clause : string
}.
Arguments area_name {float} a.
Arguments avg_risk_score {float} a.
Arguments max_risk_score {float} a.
Arguments clause_count {float} a.
Arguments description {float} a.
Arguments sample_clause {float} a.
End Area.

(** The value of ['risk_distribution']; ['counts'] is absent from the
    dictionaries of the empty and of the failed assessment. *)
Module Distribution.
Record distribution (float : Type) : Type := {
  low : number float;
  medium : number float;
  high : number float;
  counts : option (nat * nat * nat)   (* low, medium, high *)
}.
Arguments low {float} d.
Arguments medium {float} d.
Arguments high {float} d.
Arguments counts {float} d.
End Distribution.

Record assessment (float : Type) : Type := {
  overall_risk : string;
  risk_score : number float;
  max_risk_score : Z;
  high_risk_clauses : nat;
  total_clauses : nat;
  risk_summary : string;
  top_risk_areas : list (Area.area float);
  risk_factors : list string;
  clause_breakdown : list (string * list Z);
  recommendations : list string;
  risk_distribution : Distribution.distribution float
}.
Arguments overall_risk {float} a.
Arguments risk_score {float} a.
Arguments max_risk_score {float} a.
Arguments high_risk_clauses {float} a.
Arguments total_clauses {float} a.
Arguments risk_summary {float} a.
Arguments top_risk_areas {float} a.
Arguments risk_factors {float} a.
Arguments clause_breakdown {float} a.
Arguments recommendations {float} a.
Arguments risk_distribution {float} a.

Section WithFloats.

Context {F : FloatOps}.

(** *** [_get_empty_risk_assessment] *)

Definition _get_empty_risk_assessment : assessment float :=
  {| overall_risk := "unknown";
     risk_score := Int 0;
     max_risk_score := 0;
     high_risk_clauses := 0;
     total_clauses := 0;
     risk_summary := "No clauses available for risk analysis";
     top_risk_areas := [];
     risk_factors := [];
     clause_breakdown := [];
     recommendations := ["Document analysis required"];
     risk_distribution :=
       {| Distribution.low := Int 0; Distribution.medium := Int 0;
          Distribution.high := Int 0; Distribution.counts := None |} |}.

(** *** [_determine_overall_risk] *)

Definition _determine_overall_risk (avg_score : float) (max_score : Z)
           (high_risk_count : nat) : string :=
  if ge_int avg_score 7 || (9 <=? max_score) || (3 <=? high_risk_count)%nat then "high"
  else if ge_int avg_score 5 || (7 <=? max_score) || (1 <=? high_risk_count)%nat
  then "medium"
  else "low".

(** *** [_generate_risk_summary] *)

Definition _generate_risk_summary (avg_score : float) (high_risk_count total_clauses : nat)
           (clause_breakdown : list (string * list Z)) : string :=
  let summary_parts :=
    [ if ge_int avg_score 7 then "This document presents HIGH risk"
      else if ge_int avg_score 5 then "This document presents MEDIUM risk"
      else "This document presents LOW risk" ] in
  let summary_parts :=
    if (0 <? high_risk_count)%nat then
      let percentage :=
        times100 (truediv (Z.of_nat high_risk_count) (Z.of_nat total_clauses)) in
      (summary_parts
       ++ [ (Str.of_nat high_risk_count ++ " out of " ++ Str.of_nat total_clauses
             ++ " clauses (" ++ format_1f percentage ++ "%) are high-risk")%string ])%list
    else summary_parts in
  let highest_risk_types :=
    flat_map
      (fun '(clause_type, scores) =>
         if max_at_least 7 scores then [Str.replace_char "_" " " clause_type] else [])
      clause_breakdown in
  let summary_parts :=
    match highest_risk_types with
    | [] => summary_parts
    | _ => (summary_parts
            ++ [("Highest risk areas: " ++ Str.join ", " highest_risk_types)%string])%list
    end in
  Str.join ". " summary_parts ++ ".".

(** *** [_identify_top_risks] *)

(** The inner loop: the first clause of the type whose stored score is the
    maximum. *)
Definition highest_clause (clause_type : string) (max_score : Z)
           (clauses : list Clause.clause) : option Clause.clause :=
  find (fun c => String.eqb (Clause.clause_type c) clause_type
                 && (Clause.risk_score c =? max_score))
       clauses.

(** [list.sort(key=avg_risk_score, reverse=True)]: a stable sort, highest
    average first. *)
Fixpoint insert_area (x : Area.area float) (l : list (Area.area float))
  : list (Area.area float) :=
  match l with
  | [] => [x]
  | y :: r =>
      if flt (Area.avg_risk_score x) (Area.avg_risk_score y)
      then y :: insert_area x r
      else x :: l
  end.

Definition sort_areas (l : list (Area.area float)) : list (Area.area float) :=
  fold_right insert_area [] l.

Definition _identify_top_risks (clause_breakdown : list (string * list Z))
           (clauses : list Clause.clause) : list (Area.area float) :=
  let risk_areas :=
    flat_map
      (fun '(clause_type, scores) =>
         match scores with
         | [] => []
         | _ =>
             let avg_score := truediv (sum scores) (Z.of_nat (List.length scores)) in
             let max_score := max_of scores in
             if ge_int avg_score 6 || (8 <=? max_score) then
               [ {| Area.area_name := Str.title (Str.replace_char "_" " " clause_type);
                    Area.avg_risk_score := round1 avg_score;
                    Area.max_risk_score := max_score;
                    Area.clause_count := List.length scores;
                    Area.description := _get_risk_area_description clause_type;
                    Area.sample_clause :=
                      match highest_clause clause_type max_score clauses with
                      | Some c => Clause.simplified c
                      | None => ""
                      end |} ]
             else []
         end)
      clause_breakdown in
  firstn 5 (sort_areas risk_areas).

(** *** [_calculate_risk_distribution] *)

Definition _calculate_risk_distribution (risk_scores : list Z)
  : Distribution.distribution float :=
  match risk_scores with
  | [] => {| Distribution.low := Int 0; Distribution.medium := Int 0;
             Distribution.high := Int 0; Distribution.counts := None |}
  | _ =>
      let low_count := count (fun score => score <? 4) risk_scores in
      let medium_count := count (fun score => (4 <=? score) && (score <? 7)) risk_scores in
      let high_count := count (fun score => 7 <=? score) risk_scores in
      let total := Z.of_nat (List.length risk_scores) in
      let percent (n : nat) := Float (round1 (times100 (truediv (Z.of_nat n) total))) in
      {| Distribution.low := percent low_count;
         Distribution.medium := percent medium_count;
         Distribution.high := percent high_count;
         Distribution.counts := Some (low_count, medium_count, high_count) |}
  end.

(** *** [assess_risk] *)

(** What the loop over the clauses accumulates. *)
Record loop_state : Type := {
  individual_risks : list Z;
  collected_factors : list string;            (* the local [risk_factors] *)
  clause_risk_breakdown : list (string * list Z)
}.

Definition loop_step (st : loop_state) (c : Clause.clause) : loop_state :=
  let clause_risk := _analyze_clause_risk c in
  {| individual_risks := (individual_risks st ++ [score clause_risk])%list;
     collected_factors := (collected_factors st ++ factors clause_risk)%list;
     clause_risk_breakdown :=
       breakdown_add (Clause.clause_type c) (score clause_risk)
                     (clause_risk_breakdown st) |}.

Definition loop (clauses : list Clause.clause) : loop_state :=
  fold_left loop_step clauses
            {| individual_risks := []; collected_factors := [];
               clause_risk_breakdown := [] |}.

Definition assess_risk (clauses : list Clause.clause) : assessment float :=
  match clauses with
  | [] => _get_empty_risk_assessment
  | _ =>
      let st := loop clauses in
      let individual_risks := individual_risks st in
      let clause_risk_breakdown := clause_risk_breakdown st in
      let avg_risk_score :=
        truediv (sum individual_risks) (Z.of_nat (List.length individual_risks)) in
      let max_risk_score := max_of individual_risks in
      let high_risk_count := count (fun score => 7 <=? score) individual_risks in
      let overall_risk :=
        _determine_overall_risk avg_risk_score max_risk_score high_risk_count in
      let risk_summary :=
        _generate_risk_summary avg_risk_score high_risk_count (List.length clauses)
                               clause_risk_breakdown in
      let top_risks := _identify_top_risks clause_risk_breakdown clauses in
      let recommendations :=
        _generate_recommendations overall_risk (collected_factors st)
                                  clause_risk_breakdown in
      {| overall_risk := overall_risk;
         risk_score := Float (round1 avg_risk_score);
         max_risk_score := max_risk_score;
         high_risk_clauses := high_risk_count;
         total_clauses := List.length clauses;
         risk_summary := risk_summary;
         top_risk_areas := top_risks;
         risk_factors := distinct (collected_factors st);
         clause_breakdown := clause_risk_breakdown;
         recommendations := recommendations;
         risk_distribution := _calculate_risk_distribution individual_risks |}
  end.

End WithFloats.

End RiskAnalyzer.

(* ------------------------------------------------------------------ *)
(** ** Texts used in the examples *)

Fixpoint repeat_text (s : string) (n : nat) : string :=
  match n with
  | O => EmptyString
  | S k => s ++ repeat_text s k
  end.

(** A one-clause document of 126 characters. *)
Definition forfeiture_clause : string :=
  "The supplier agrees that any deposit is subject to forfeiture if the goods are not collected within the agreed period of time.".

(** A one-clause document of 589 characters whose only risky phrase starts
    after character 500. *)
Definition long_clause : string :=
  repeat_text "The parties will meet each month to review progress. " 10
  ++ "The company may change the schedule at its sole discretion.".

(** [c] with the full text [text] in place of its ['content']. *)
Definition with_content (text : string) (c : Clause.clause) : Clause.clause :=
  {| Clause.clause_id := Clause.clause_id c;
     Clause.title := Clause.title c;
     Clause.content := text;
     Clause.simplified := Clause.simplified c;
     Clause.risk_level := Clause.risk_level c;
     Clause.risk_score := Clause.risk_score c;
     Clause.risk_factors := Clause.risk_factors c;
     Clause.clause_type := Clause.clause_type c |}.

(** The sections that the loop over the separators of
    [AIAnalyzer._split_into_clauses] leaves, before the short ones are
    dropped. *)
Definition fragments (text : string) : list string :=
  fold_left AIAnalyzer.split_pass AIAnalyzer.clause_separators [text].

(** [type_found key text]: some pattern that the pattern table lists under
    [key] is found in the lower-cased [text]. *)
Definition type_found (key text : string) : bool :=
  existsb (AIAnalyzer.pattern_found (Str.lower text))
          (AIAnalyzer.patterns_of key AIAnalyzer.clause_patterns).

(** The four details that [AIAnalyzer._simplify_clause] can append, each as
    a function of its own trigger; the empty string when the trigger is
    absent. *)
Definition notice_detail (text_lower : string) : string :=
  if Str.contains "notice" text_lower then
    match Re.search AIAnalyzer.notice_re text_lower with
    | Some notice_match =>
        match Re.group1 notice_match with
        | Some days => " You need to give " ++ days ++ " days notice."
        | None => ""
        end
    | None => ""
    end
  else "".

Definition cause_detail (text_lower : string) : string :=
  if Str.contains "cause" text_lower && Str.contains "without" text_lower
  then " Either party can terminate without giving a specific reason."
  else "".

Definition amount_detail (clause_text : string) : string :=
  match Re.search AIAnalyzer.amount_re clause_text with
  | Some amount_match => " The amount involved is " ++ Re.group0 amount_match ++ "."
  | None => ""
  end.

Definition late_detail (text_lower : string) : string :=
  if Str.contains "late" text_lower && Str.contains "fee" text_lower
  then " There are penalties for late payment."
  else "".

Definition template (clause_type : string) : string :=
  get AIAnalyzer.simplification_templates clause_type
      "This is a standard contract provision.".

(** A clause that mentions termination, a notice period and a payment. *)
Definition notice_and_payment_clause : string :=
  "Upon termination either party must give 30 days notice and make a payment of $5,000.".

(** A clause that matches a termination pattern and a liability pattern. *)
Definition terminate_and_damages_clause : string :=
  "The Company may terminate this Agreement and is liable for all damages.".

(** The recommendations as the specification words them: one mandatory
    message for the overall level, the triggered messages, and the two
    general ones when the mandatory message stands alone; at most 10. *)
Definition mandatory_message (overall_risk : string) : list string :=
  firstn 1 (RiskAnalyzer.overall_recommendations overall_risk).

Definition claimed_recommendations (overall_risk : string) (risk_factors : list string)
           (clause_breakdown : list (string * list Z)) : list string :=
  let recommendations :=
    (mandatory_message overall_risk
     ++ RiskAnalyzer.factor_recommendations risk_factors
     ++ RiskAnalyzer.type_recommendations clause_breakdown)%list in
  firstn 10
    (if (List.length recommendations =? 1)%nat
     then (recommendations ++ RiskAnalyzer.general_recommendations)%list
     else recommendations).

(** The record of a liability clause with two high-risk phrases, one of
    them "unlimited liability". *)
Definition unlimited_liability_clause : Clause.clause :=
  AIAnalyzer._analyze_clause
    "The supplier accepts unlimited liability and gives no refund." 0.

Definition is_nil {A : Type} (l : list A) : bool :=
  match l with [] => true | _ => false end.

(** The clause types for which [type_recommendations] has a message. *)
Definition advised_type (k : string) : bool :=
  String.eqb k "payment" || String.eqb k "liability" || String.eqb k "termination".

(** [junction_free w u]: [w] does not occur in [u], and no proper non-empty
    suffix of [w] is a prefix of [u]; then appending [u] to a text creates
    no occurrence of [w]. *)
Definition junction_free (w u : string) : bool :=
  negb (Str.contains w u)
  && forallb (fun k => negb (Str.startswith (Str.drop k w) u))
             (seq 1 (String.length w - 1)).

(** The number of terms whose lower case occurs in the text: the number of
    times the loop of [scan_terms] adds its weight. *)
Definition hits (terms : list string) (text : string) : Z :=
  Z.of_nat (List.length (filter (fun term => Str.contains (Str.lower term) text) terms)).

(** What [AIAnalyzer.type_adjustment] adds to the score. *)
Definition type_delta (clause_type text_lower : string) : Z :=
  if String.eqb clause_type "termination" then
    if Str.contains "immediate" text_lower || Str.contains "without notice" text_lower
    then 2 else 0
  else if String.eqb clause_type "liability" then
    if Str.contains "unlimited" text_lower then 3
    else if Str.contains "limited" text_lower then -1
    else 0
  else if String.eqb clause_type "payment" then
    if Str.contains "penalty" text_lower || Str.contains "liquidated damages" text_lower
    then 2 else 0
  else 0.

(** What [RiskAnalyzer._check_additional_risk_factors] adds to the score. *)
Definition additional_delta (clause_text : string) : Z :=
  (if 2 <=? RiskAnalyzer.count_in RiskAnalyzer.ambiguous_terms clause_text then 2 else 0)
  + (if any_in RiskAnalyzer.one_sided_indicators clause_text then 2 else 0)
  + (if 3 <=? RiskAnalyzer.count_in
                (map (fun term => " " ++ term ++ " ") RiskAnalyzer.broad_scope_terms)
                clause_text
     then 1 else 0)
  + (if any_in RiskAnalyzer.time_pressure_terms clause_text then 1 else 0).

(** A clause record whose text stops one letter short of the protective
    term "mutual liability limitation". *)
Definition cut_short_clause : Clause.clause :=
  {| Clause.clause_id := "clause_0";
     Clause.title := "General";
     Clause.content := "no refund mutual liability limitatio";
     Clause.simplified := "This is a standard contract provision.";
     Clause.risk_level := "medium";
     Clause.risk_score := 7;
     Clause.risk_factors := ["Contains high-risk term: 'no refund'"];
     Clause.clause_type := "general" |}.

(** [part_of p s]: [p] is a contiguous part of [s]. *)
Definition part_of (p s : string) : Prop := exists a b : string, s = a ++ p ++ b.

(** The literal text with which every match of a pattern starts. *)
Fixpoint stem (r : Re.regex) : string :=
  match r with
  | Re.Lit l => l
  | Re.Seq r1 _ => stem r1
  | _ => EmptyString
  end.

(** The stems of the patterns that the pattern table lists under [key]. *)
Definition stems (key : string) : list string :=
  map (fun p => stem (rx p)) (AIAnalyzer.patterns_of key AIAnalyzer.clause_patterns).

(** The score and the level that [RiskAnalyzer._analyze_clause_risk] gives a
    clause. *)
Definition doc_score (c : Clause.clause) : Z :=
  score (RiskAnalyzer._analyze_clause_risk c).

Definition doc_level (c : Clause.clause) : string :=
  level (RiskAnalyzer._analyze_clause_risk c).

(** The factor that [scan_terms] records for a term. *)
Definition factor_of (label term : string) : string := label ++ term ++ "'".

(** The terms of a list whose lower case occurs in the text. *)
Definition matched (terms : list string) (text : string) : list string :=
  filter (fun term => Str.contains (Str.lower term) text) terms.

(** The factors that [RiskAnalyzer._check_additional_risk_factors] returns. *)
Definition additional_factors (clause_text : string) : list string :=
  ((if 2 <=? RiskAnalyzer.count_in RiskAnalyzer.ambiguous_terms clause_text
    then ["Contains ambiguous language"] else [])
   ++ (if any_in RiskAnalyzer.one_sided_indicators clause_text
       then ["One-sided clause favoring other party"] else [])
   ++ (if 3 <=? RiskAnalyzer.count_in
                  (map (fun term => (" " ++ term ++ " ")%string)
                       RiskAnalyzer.broad_scope_terms)
                  clause_text
       then ["Unusually broad scope"] else [])
   ++ (if any_in RiskAnalyzer.time_pressure_terms clause_text
       then ["Contains time pressure elements"] else []))%list.

(** The test of [RiskAnalyzer._generate_recommendations] on one factor:
    [needle in factor.lower()]. *)
Definition mentions (needle factor : string) : bool :=
  Str.contains needle (Str.lower factor).

(** The four recommendations that risk factors trigger. *)
Definition factor_messages : list string :=
  [ "Consider negotiating a liability cap to limit your financial exposure.";
    "Request a cure period or notice requirement for termination clauses.";
    "Push for more balanced terms that don't heavily favor the other party.";
    "Request clarification on vague or ambiguous language." ].

(** Two clauses of different types and levels. *)
Definition two_clauses : list Clause.clause :=
  [unlimited_liability_clause; cut_short_clause].

(* ------------------------------------------------------------------ *)
(** ** [class AIAnalyzer]: the queries on an analysed document *)

Module AIQueries.

Import Clause.

(** *** [answer_question] *)

Definition question_keywords : list (string * list string) :=
  [ ("terminate", ["termination"; "end"; "cancel"]);
    ("pay", ["payment"; "cost"; "fee"; "price"]);
    ("liability", ["liable"; "responsible"; "damages"]);
    ("confidential", ["confidential"; "secret"; "private"]);
    ("breach", ["breach"; "violation"; "default"]);
    ("obligation", ["obligation"; "duty"; "requirement"; "must"]) ].

(** [for keyword, synonyms in question_keywords.items():
       if any(synonym in question_lower for synonym in synonyms):
         relevant_types.extend(synonyms)] *)
Definition relevant_types_of (question_lower : string) : list string :=
  flat_map
    (fun entry : string * list string =>
       let synonyms := snd entry in
       if any_in synonyms question_lower then synonyms else [])
    question_keywords.

(** [any(rtype in clause_text or rtype in clause_type for rtype in relevant_types)] *)
Definition clause_matches (relevant_types : list string) (c : clause) : bool :=
  let clause_text := Str.lower (content c) in
  let clause_type := clause_type c in
  existsb (fun rtype => Str.contains rtype clause_text || Str.contains rtype clause_type)
          relevant_types.

(** The document text is a parameter that the body never reads.  The warning
    sign of the last literal is written in UTF-8, as in the source file. *)
Definition answer_question (document_text : string) (clauses : list clause)
           (question : string) : string :=
  let question_lower := Str.lower question in
  let relevant_types := relevant_types_of question_lower in
  let relevant_clauses := filter (clause_matches relevant_types) clauses in
  match relevant_clauses with
  | [] =>
      "I couldn't find specific information about your question in this document. You might want to consult with a legal professional for clarification."
  | _ =>
      let answer_parts :=
        filter (fun simplified => negb (Str.is_empty simplified))
               (map simplified (firstn 3 relevant_clauses)) in
      match answer_parts with
      | [] =>
          "The document contains relevant clauses, but I need more context to provide a specific answer. Please consider consulting with a legal professional."
      | _ =>
          let answer := "Based on the document analysis: " ++ Str.join " " answer_parts in
          let high_risk_clauses :=
            filter (fun c => String.eqb (risk_level c) "high") relevant_clauses in
          match high_risk_clauses with
          | [] => answer
          | _ =>
              answer
              ++ " ⚠️ Please note that some related clauses have been flagged as high-risk."
          end
      end
  end.

(** *** [check_jurisdiction_compliance] *)

Record rules : Type := {
  required_clauses : list string;
  restricted_terms : list string;
  mandatory_provisions : list string
}.

Definition jurisdiction_rules : list (string * rules) :=
  [ ("indian",
     {| required_clauses := ["termination"; "dispute_resolution"];
        restricted_terms := ["unlimited liability"; "waiver of statutory rights"];
        mandatory_provisions := ["governing law clause"; "jurisdiction clause"] |});
    ("us",
     {| required_clauses := ["termination"; "liability"];
        restricted_terms := ["penalty clauses"; "unconscionable terms"];
        mandatory_provisions := ["choice of law"; "dispute resolution"] |});
    ("eu",
     {| required_clauses := ["data protection"; "consumer rights"];
        restricted_terms := ["unfair contract terms"; "consumer right waivers"];
        mandatory_provisions := ["GDPR compliance"; "cooling-off period"] |}) ].

(** [jurisdiction_rules['indian']] *)
Definition indian_rules : rules :=
  {| required_clauses := ["termination"; "dispute_resolution"];
     restricted_terms := ["unlimited liability"; "waiver of statutory rights"];
     mandatory_provisions := ["governing law clause"; "jurisdiction clause"] |}.

Record compliance : Type := {
  jurisdiction : string;
  compliance_level : string;
  compliance_score : Q;
  issues : list string;
  recommendations : list string;
  checked_provisions : list string
}.

(** [required not in clause_types] *)
Definition missing (clause_types : list string) (required : string) : bool :=
  negb (existsb (String.eqb required) clause_types).

(** [restricted.lower() in document_text] *)
Definition present (document_text : string) (restricted : string) : bool :=
  Str.contains (Str.lower restricted) document_text.

(** [max(0, (total_checks - issues_found) / total_checks * 100)], a double
    or, when that is not positive, the integer 0; both are numbers of [Q]. *)
Definition score_of (total_checks issues_found : Z) : Q :=
  let x := @times100 binary64 (@truediv binary64 (total_checks - issues_found) total_checks) in
  if @flt binary64 0%Q x then x else 0%Q.

(** The two loops append to [compliance_issues] and to [recommendations]
    together; the lists are given here one after the other. *)
Definition check_jurisdiction_compliance (clauses : list clause) (jurisdiction : string)
  : compliance :=
  let rules := get jurisdiction_rules (Str.lower jurisdiction) indian_rules in
  let clause_types := map clause_type clauses in
  let missing_clauses := filter (missing clause_types) (required_clauses rules) in
  let document_text := Str.lower (Str.join " " (map content clauses)) in
  let present_terms := filter (present document_text) (restricted_terms rules) in
  let compliance_issues :=
    (map (fun required : string =>
            ("Missing required " ++ Str.replace_char "_" " " required ++ " clause")%string)
         missing_clauses
     ++ map (fun restricted : string =>
               ("Contains potentially problematic term: '" ++ restricted ++ "'")%string)
            present_terms)%list in
  let recommendations :=
    (map (fun required : string =>
            ("Add a " ++ Str.replace_char "_" " " required ++ " clause")%string)
         missing_clauses
     ++ map (fun restricted : string =>
               ("Review and possibly remove '" ++ restricted ++ "' clause")%string)
            present_terms)%list in
  let total_checks :=
    Z.of_nat (List.length (required_clauses rules) + List.length (restricted_terms rules)) in
  let issues_found := Z.of_nat (List.length compliance_issues) in
  let compliance_score := score_of total_checks issues_found in
  let compliance_level :=
    if @ge_int binary64 compliance_score 80 then "High"
    else if @ge_int binary64 compliance_score 60 then "Medium"
    else "Low" in
  {| jurisdiction := jurisdiction;
     compliance_level := compliance_level;
     compliance_score := @round1 binary64 compliance_score;
     issues := compliance_issues;
     recommendations := recommendations;
     checked_provisions := ["required_clauses"; "restricted_terms"; "mandatory_provisions"] |}.

(** *** [_compare_risks] and [compare_documents] *)

(** A stored document, with the two entries that the comparison reads. *)
Record document : Type := {
  doc_clauses : list clause;       (* doc['clauses'] *)
  doc_overall_risk : string        (* doc['overall_risk'] *)
}.

Record risk_comparison : Type := {
  doc1_average_risk : Q;
  doc2_average_risk : Q;
  risk_difference : Q;
  recommendation : string
}.

(** [sum(scores) / len(scores) if scores else 5] *)
Definition average_or_5 (scores : list Z) : Q :=
  match scores with
  | [] => 5%Q
  | _ => @truediv binary64 (RiskAnalyzer.sum scores) (Z.of_nat (List.length scores))
  end.

Definition _compare_risks (doc1 doc2 : document) : risk_comparison :=
  let doc1_scores := map risk_score (doc_clauses doc1) in
  let doc2_scores := map risk_score (doc_clauses doc2) in
  let doc1_avg := average_or_5 doc1_scores in
  let doc2_avg := average_or_5 doc2_scores in
  {| doc1_average_risk := @round1 binary64 doc1_avg;
     doc2_average_risk := @round1 binary64 doc2_avg;
     risk_difference := @round1 binary64 (Qabs (nearest_double (doc1_avg - doc2_avg)));
     recommendation :=
       if @flt binary64 doc2_avg doc1_avg then "Document 1 is riskier"
       else if @flt binary64 doc1_avg doc2_avg then "Document 2 is riskier"
       else "Both documents have similar risk levels" |}.

Record comparison : Type := {
  doc1_clauses : nat;
  doc2_clauses : nat;
  doc1_risk : string;
  doc2_risk : string;
  key_differences : list string;
  similar_clauses : set string;
  unique_to_doc1 : set string;
  unique_to_doc2 : set string;
  compared_risks : risk_comparison   (* 'risk_comparison' *)
}.

(** [for clause in doc.get('clauses', []): types.add(clause.get('clause_type', 'unknown'))] *)
Definition types_of (doc : document) : set string :=
  fold_left (fun types c => set_add string_dec (clause_type c) types)
            (doc_clauses doc) (empty_set string).

(** The three lists of types are made from Python sets, whose order of
    iteration is not fixed; what is proved of them below is about their
    members only. *)
Definition compare_documents (doc1 doc2 : document) : comparison :=
  let doc1_types := types_of doc1 in
  let doc2_types := types_of doc2 in
  let len1 := List.length (doc_clauses doc1) in
  let len2 := List.length (doc_clauses doc2) in
  let risk_note :=
    if negb (String.eqb (doc_overall_risk doc1) (doc_overall_risk doc2))
    then [ "Risk levels differ: Document 1 is " ++ doc_overall_risk doc1 ++ " risk, "
           ++ "Document 2 is " ++ doc_overall_risk doc2 ++ " risk" ]
    else [] in
  let clause_diff := Z.abs (Z.of_nat len1 - Z.of_nat len2) in
  let size_note :=
    if 2 <? clause_diff
    then [ "Significant difference in complexity: " ++ Z_to_string clause_diff
           ++ " more clauses in one document" ]
    else [] in
  {| doc1_clauses := len1;
     doc2_clauses := len2;
     doc1_risk := doc_overall_risk doc1;
     doc2_risk := doc_overall_risk doc2;
     key_differences := (risk_note ++ size_note)%list;
     similar_clauses := set_inter string_dec doc1_types doc2_types;
     unique_to_doc1 := set_diff string_dec doc1_types doc2_types;
     unique_to_doc2 := set_diff string_dec doc2_types doc1_types;
     compared_risks := _compare_risks doc1 doc2 |}.

End AIQueries.

(* ------------------------------------------------------------------ *)
(** ** [class EntityExtractor] *)

Module EntityExtractor.

(** [re.sub(r'\s+', ' ', s)]: every maximal run of whitespace becomes one
    space.  [in_run] tells that the character before was whitespace. *)
Fixpoint sub_spaces (in_run : bool) (s : string) : string :=
  match s with
  | EmptyString => EmptyString
  | String c r =>
      if Str.isspace c
      then if in_run then sub_spaces true r else String " " (sub_spaces true r)
      else String c (sub_spaces false r)
  end.

(** [cleaned_item = re.sub(r'\s+', ' ', item.strip())] *)
Definition clean_item (item : string) : string := sub_spaces false (Str.strip item).

(** [3 <= len(cleaned_item) <= 200] *)
Definition kept (cleaned_item : string) : bool :=
  (3 <=? Str.len cleaned_item) && (Str.len cleaned_item <=? 200).

(** The second loop: an item is kept when its lower case is not yet in
    [seen]. *)
Fixpoint deduplicate (seen : list string) (cleaned : list string) : list string :=
  match cleaned with
  | [] => []
  | item :: rest =>
      if existsb (String.eqb (Str.lower item)) seen
      then deduplicate seen rest
      else item :: deduplicate (Str.lower item :: seen) rest
  end.

(** [list.sort()] on strings: the order is the order of the code points,
    character by character, and it is total, so the sorted list does not
    depend on the algorithm; insertion is used here. *)
Fixpoint insert (x : string) (l : list string) : list string :=
  match l with
  | [] => [x]
  | y :: r => if String.leb x y then x :: l else y :: insert x r
  end.

Fixpoint sort (l : list string) : list string :=
  match l with
  | [] => []
  | x :: r => insert x (sort r)
  end.

Definition _clean_and_deduplicate (items : list string) : list string :=
  match items with
  | [] => []
  | _ =>
      let cleaned := filter kept (map clean_item items) in
      let deduplicated := deduplicate [] cleaned in
      let deduplicated := sort deduplicated in
      firstn 10 deduplicated
  end.

End EntityExtractor.

(** The synonyms of the question table, all groups together. *)
Definition question_synonyms : list string :=
  [ "termination"; "end"; "cancel"; "payment"; "cost"; "fee"; "price";
    "liable"; "responsible"; "damages"; "confidential"; "secret"; "private";
    "breach"; "violation"; "default"; "obligation"; "duty"; "requirement"; "must" ].

(** The clause types that [AIAnalyzer._identify_clause_type] can return. *)
Definition clause_type_names : list string :=
  [ "termination"; "liability"; "payment"; "confidentiality"; "intellectual_property";
    "dispute_resolution"; "obligation"; "right"; "general" ].

(* ------------------------------------------------------------------ *)
(** ** Lemmas on strings *)

Section StringFacts.

Lemma startswith_app (w a b : string) :
  Str.startswith w a = true -> Str.startswith w (a ++ b) = true.
Proof.
  revert a; induction w as [|c w IH]; intros a H; [reflexivity|].
  destruct a as [|d a]; simpl in *; [discriminate|].
  apply andb_true_iff in H as [Hc Hw].
  now rewrite Hc, (IH _ Hw).
Qed.

Lemma startswith_empty (w : string) :
  Str.startswith w EmptyString = true -> w = EmptyString.
Proof. destruct w; [reflexivity | discriminate]. Qed.

Lemma contains_empty (s : string) : Str.contains EmptyString s = true.
Proof. destruct s; reflexivity. Qed.

Lemma contains_app_l (w a b : string) :
  Str.contains w a = true -> Str.contains w (a ++ b) = true.
Proof.
  induction a as [|c a IH]; simpl; intros H.
  - rewrite orb_false_r in H. apply startswith_empty in H. subst.
    apply contains_empty.
  - apply orb_true_iff in H as [H|H].
    + change (String c (a ++ b)) with (String c a ++ b).
      now rewrite (startswith_app _ _ _ H).
    + rewrite (IH H). apply orb_true_r.
Qed.

Lemma contains_app_r (w a b : string) :
  Str.contains w b = true -> Str.contains w (a ++ b) = true.
Proof.
  intros H; induction a as [|c a IH]; simpl; [exact H|].
  rewrite IH. apply orb_true_r.
Qed.

Lemma lower_app (a b : string) : Str.lower (a ++ b) = Str.lower a ++ Str.lower b.
Proof. induction a as [|c a IH]; simpl; [reflexivity | now rewrite IH]. Qed.

End StringFacts.

(* ------------------------------------------------------------------ *)
(** ** The matcher consumes a prefix of the text *)

Section Matcher.

Lemma drop_length (n : nat) (s : string) :
  (String.length (Str.drop n s) <= String.length s)%nat.
Proof.
  revert s; induction n as [|n IH]; intros [|c s]; simpl; try lia.
  specialize (IH s). lia.
Qed.

Lemma take_length (n : nat) (s : string) :
  (n <= String.length s)%nat -> String.length (Str.take n s) = n.
Proof.
  revert s; induction n as [|n IH]; intros [|c s]; simpl; intros H; try lia.
  rewrite IH; lia.
Qed.

Lemma many_length {A : Type} (p : ascii -> bool) (lo : nat) (s : string)
      (k : string -> option A) (x : A) :
  Re.many p lo s k = Some x ->
  exists s', k s' = Some x /\ (String.length s' <= String.length s)%nat.
Proof.
  revert lo; induction s as [|c r IH]; intros lo H; simpl in H.
  - destruct lo; [|discriminate]. exists EmptyString. split; [exact H | lia].
  - destruct (p c).
    + destruct (Re.many p (Nat.pred lo) r k) as [y|] eqn:E.
      * injection H as ->. destruct (IH _ E) as [s' [Hk Hlen]].
        exists s'. split; [exact Hk | simpl; lia].
      * destruct lo; [|discriminate]. exists (String c r). split; [exact H | lia].
    + destruct lo; [|discriminate]. exists (String c r). split; [exact H | lia].
Qed.

Lemma run_length {A : Type} (r : Re.regex) :
  forall (s : string) (cap : option string) (k : Re.cont A) (x : A),
    Re.run r s cap k = Some x ->
    exists s' cap', k s' cap' = Some x /\ (String.length s' <= String.length s)%nat.
Proof.
  induction r as [l|p|p lo|r IH|r1 IH1 r2 IH2|r1 IH1 r2 IH2|r IH];
    intros s cap k x H; simpl in H.
  - destruct (Str.startswith l s); [|discriminate].
    exists (Str.drop (String.length l) s), cap. split; [exact H | apply drop_length].
  - destruct s as [|c s']; [discriminate|]. destruct (p c); [|discriminate].
    exists s', cap. split; [exact H | simpl; lia].
  - apply many_length in H as [s' [Hk Hlen]]. now exists s', cap.
  - destruct (Re.run r s cap k) as [y|] eqn:E.
    + injection H as ->. now apply IH in E.
    + exists s, cap. split; [exact H | lia].
  - destruct (Re.run r1 s cap k) as [y|] eqn:E.
    + injection H as ->. now apply IH1 in E.
    + now apply IH2 in H.
  - apply IH1 in H as [s1 [cap1 [H Hlen1]]].
    apply IH2 in H as [s2 [cap2 [H Hlen2]]].
    exists s2, cap2. split; [exact H | lia].
  - apply IH in H as [s' [cap' [H Hlen]]].
    eexists s', _. split; [exact H | exact Hlen].
Qed.

(** A pattern that starts with a newline matches at least one character. *)
Lemma newline_first_consumes (r : Re.regex) (s : string) (m : Re.match_obj) :
  Re.match_at (Re.Seq Re.nl r) s = Some m -> Re.group0 m <> EmptyString.
Proof.
  unfold Re.match_at. cbn [Re.run Re.nl].
  destruct s as [|c s0]; [discriminate|].
  destruct (Str.is_code 10 c); [|discriminate]. intros H.
  apply run_length in H as [s' [cap' [H Hlen]]].
  injection H as <-. cbn [Re.group0]. intros Hempty.
  apply (f_equal String.length) in Hempty.
  rewrite take_length in Hempty;
    cbn [String.length] in *; destruct (String.length s'); lia.
Qed.

(** No clause separator matches the empty string: [Re.split] never meets the
    case that the model leaves out. *)
Lemma separators_consume (r : Re.regex) (s : string) (m : Re.match_obj) :
  In r AIAnalyzer.clause_separators ->
  Re.match_at r s = Some m -> Re.group0 m <> EmptyString.
Proof.
  intros Hr. unfold AIAnalyzer.clause_separators in Hr.
  repeat (destruct Hr as [<-|Hr]; [apply newline_first_consumes|]).
  destruct Hr.
Qed.

End Matcher.

(* ------------------------------------------------------------------ *)
(** ** Lemmas on the scorers *)

Lemma clamp_range (z : Z) : 1 <= clamp z <= 10.
Proof. unfold clamp; lia. Qed.

Lemma clamp_mono (a b : Z) : a <= b -> clamp a <= clamp b.
Proof. unfold clamp; lia. Qed.

Lemma AI_score_eq (text type : string) :
  score (AIAnalyzer._assess_clause_risk text type)
  = clamp (fst (AIAnalyzer.raw_risk text type)).
Proof.
  unfold AIAnalyzer._assess_clause_risk.
  now destruct (AIAnalyzer.raw_risk text type).
Qed.

Lemma AI_level_eq (text type : string) :
  level (AIAnalyzer._assess_clause_risk text type)
  = AIAnalyzer.level_of_score (score (AIAnalyzer._assess_clause_risk text type)).
Proof.
  unfold AIAnalyzer._assess_clause_risk.
  now destruct (AIAnalyzer.raw_risk text type).
Qed.

Lemma Risk_score_eq (c : Clause.clause) :
  score (RiskAnalyzer._analyze_clause_risk c)
  = clamp (fst (RiskAnalyzer.raw_risk (Str.lower (Clause.content c))
                                      (Clause.clause_type c))).
Proof.
  unfold RiskAnalyzer._analyze_clause_risk.
  now destruct (RiskAnalyzer.raw_risk _ _).
Qed.

Lemma Risk_level_eq (c : Clause.clause) :
  level (RiskAnalyzer._analyze_clause_risk c)
  = RiskAnalyzer._score_to_level (score (RiskAnalyzer._analyze_clause_risk c)).
Proof.
  unfold RiskAnalyzer._analyze_clause_risk.
  now destruct (RiskAnalyzer.raw_risk _ _).
Qed.

(* ------------------------------------------------------------------ *)
(** ** The scores are in range *)

(** C1.  Both clause scorers return a score between 1 and 10: the score of
    [AIAnalyzer._assess_clause_risk], which [_analyze_clause] stores in the
    clause record, and the score of [RiskAnalyzer._analyze_clause_risk],
    which the document-level assessment computes for each clause. *)
Theorem clause_scores_in_range :
  (forall clause_text clause_type : string,
      1 <= score (AIAnalyzer._assess_clause_risk clause_text clause_type) <= 10)
  /\ (forall (clause_text : string) (i : nat),
         1 <= Clause.risk_score (AIAnalyzer._analyze_clause clause_text i) <= 10)
  /\ (forall c : Clause.clause,
         1 <= score (RiskAnalyzer._analyze_clause_risk c) <= 10).
Proof.
  repeat split; intros;
    try (unfold AIAnalyzer._analyze_clause; cbn [Clause.risk_score]);
    rewrite ?AI_score_eq, ?Risk_score_eq; apply clamp_range.
Qed.

(* ------------------------------------------------------------------ *)
(** ** The level is a function of the score *)

(** C2, as stated, fails: the record that analysis produces for
    [forfeiture_clause] stores score 7 with level "medium", where the
    thresholds low/medium/high = up to 3 / 4 to 6 / 7 and more, those of
    [RiskAnalyzer._score_to_level], give "high". *)
Lemma stored_level_counterexample :
  exists c : Clause.clause,
    AIAnalyzer.clauses (AIAnalyzer.analyze_document "" forfeiture_clause "a.pdf") = [c]
    /\ Clause.risk_score c = 7
    /\ Clause.risk_level c = "medium"
    /\ RiskAnalyzer._score_to_level (Clause.risk_score c) = "high"
    /\ Clause.risk_level c <> RiskAnalyzer._score_to_level (Clause.risk_score c).
Proof.
  eexists. split; [vm_compute; reflexivity|].
  cbn [Clause.risk_score Clause.risk_level].
  repeat split; discriminate.
Qed.

(** C2, amended.  In every clause record that analysis produces the level is
    the function of the stored score with the thresholds of the per-clause
    scorer: up to 3 low, 4 to 7 medium, 8 and more high.  The thresholds up
    to 3 / 4 to 6 / 7 and more are those by which the document-level scorer
    derives the level of the score it computes itself. *)
Theorem level_is_function_of_score :
  (forall (clause_text : string) (i : nat),
      let c := AIAnalyzer._analyze_clause clause_text i in
      Clause.risk_level c
      = if Clause.risk_score c <=? 3 then "low"
        else if Clause.risk_score c <=? 7 then "medium"
        else "high")
  /\ (forall c : Clause.clause,
         let r := RiskAnalyzer._analyze_clause_risk c in
         level r
         = if score r <=? 3 then "low"
           else if score r <=? 6 then "medium"
           else "high").
Proof.
  split; intros.
  - subst c. unfold AIAnalyzer._analyze_clause.
    cbn [Clause.risk_level Clause.risk_score].
    now rewrite AI_level_eq.
  - subst r. rewrite Risk_level_eq. unfold RiskAnalyzer._score_to_level.
    destruct (Z.leb_spec 7 (score (RiskAnalyzer._analyze_clause_risk c)));
      destruct (Z.leb_spec 4 (score (RiskAnalyzer._analyze_clause_risk c)));
      destruct (Z.leb_spec (score (RiskAnalyzer._analyze_clause_risk c)) 3);
      destruct (Z.leb_spec (score (RiskAnalyzer._analyze_clause_risk c)) 6);
      try reflexivity; lia.
Qed.

(* ------------------------------------------------------------------ *)
(** ** Segmentation *)

Lemma Forall_firstn {A : Type} (P : A -> Prop) (n : nat) (l : list A) :
  Forall P l -> Forall P (firstn n l).
Proof.
  intros H; revert n; induction H; intros [|n]; simpl; constructor; auto.
Qed.

Lemma firstn_nil_iff {A : Type} (n : nat) (l : list A) :
  firstn (S n) l = [] <-> l = [].
Proof. destruct l; simpl; split; intros H; try reflexivity; discriminate. Qed.

Lemma filter_nil_iff {A : Type} (p : A -> bool) (l : list A) :
  filter p l = [] <-> Forall (fun x => p x = false) l.
Proof.
  induction l as [|x l IH]; simpl.
  - split; auto.
  - destruct (p x) eqn:E; split; intros H.
    + discriminate.
    + inversion H; congruence.
    + constructor; [assumption | now apply IH].
    + inversion H; now apply IH.
Qed.

Lemma split_into_clauses_eq (text : string) :
  AIAnalyzer._split_into_clauses text
  = firstn 20 (filter (fun s => 100 <? Str.len s) (fragments text)).
Proof. reflexivity. Qed.

(** C3, as stated, fails: the non-empty text "hello" is segmented into no
    clause at all. *)
Lemma segment_nonempty_counterexample :
  ~ (forall text : string,
        text <> EmptyString -> AIAnalyzer._split_into_clauses text <> []).
Proof.
  intros H. apply (H "hello"); [discriminate | reflexivity].
Qed.

(** C3, amended.  For every text the segmenter returns at most 20 clauses,
    each longer than 100 characters (at most 10, each longer than 100, on
    the blank-line fallback path); it returns no clause exactly when none of
    the sections left by the separator passes is longer than 100
    characters, which a non-empty text does not exclude. *)
Theorem segment_bounds (text : string) :
  (List.length (AIAnalyzer._split_into_clauses text) <= 20)%nat
  /\ Forall (fun s => 100 < Str.len s) (AIAnalyzer._split_into_clauses text)
  /\ (AIAnalyzer._split_into_clauses text = []
      <-> Forall (fun s => Str.len s <= 100) (fragments text))
  /\ (List.length (AIAnalyzer.split_fallback text) <= 10)%nat
  /\ Forall (fun s => 100 < Str.len s) (AIAnalyzer.split_fallback text).
Proof.
  rewrite split_into_clauses_eq. repeat split.
  - apply firstn_le_length.
  - apply Forall_firstn, Forall_forall. intros s Hs.
    apply filter_In in Hs as [_ Hs]. now apply Z.ltb_lt.
  - intros H. apply firstn_nil_iff, filter_nil_iff in H.
    eapply Forall_impl; [|exact H]. cbn beta. intros s Hs.
    now apply Z.ltb_ge.
  - intros H. apply firstn_nil_iff, filter_nil_iff.
    eapply Forall_impl; [|exact H]. cbn beta. intros s Hs.
    now apply Z.ltb_ge.
  - apply firstn_le_length.
  - apply Forall_firstn, Forall_forall. intros s Hs.
    apply in_flat_map in Hs as [p [_ Hs]].
    destruct (Z.ltb_spec 100 (Str.len (Str.strip p))) as [Hlt|_]; simpl in Hs.
    + destruct Hs as [<-|[]]. exact Hlt.
    + destruct Hs.
Qed.

(* ------------------------------------------------------------------ *)
(** ** The display text and the text that is scored *)

(** C5.  The document-level assessment scores the ['content'] of the clause
    record, which [_analyze_clause] cuts to 500 characters.  [long_clause]
    is segmented into one clause of 589 characters whose phrase "sole
    discretion" lies beyond character 500: the document-level scorer gives
    the record 4, and gives the same record with the full text 9. *)
Theorem document_risk_uses_truncated_text :
  exists c : Clause.clause,
    AIAnalyzer.clauses (AIAnalyzer.analyze_document "" long_clause "a.pdf") = [c]
    /\ AIAnalyzer._split_into_clauses long_clause = [long_clause]
    /\ 500 < Str.len long_clause
    /\ Clause.content c = Str.take 500 long_clause ++ "..."
    /\ score (RiskAnalyzer._analyze_clause_risk c) = 4
    /\ score (RiskAnalyzer._analyze_clause_risk (with_content long_clause c)) = 9
    /\ (forall F : FloatOps,
           RiskAnalyzer.max_risk_score (RiskAnalyzer.assess_risk [c]) = 4
           /\ RiskAnalyzer.max_risk_score
                (RiskAnalyzer.assess_risk [with_content long_clause c]) = 9).
Proof.
  eexists. split; [vm_compute; reflexivity|].
  split; [vm_compute; reflexivity|].
  split; [vm_compute; reflexivity|].
  split; [vm_compute; reflexivity|].
  split; [vm_compute; reflexivity|].
  split; [vm_compute; reflexivity|].
  intros F. split.
  - vm_compute. reflexivity.
  - vm_compute. reflexivity.
Qed.

(* ------------------------------------------------------------------ *)
(** ** The empty assessment *)

(** C6.  Assessing an empty clause list returns the empty assessment:
    overall risk "unknown", no clauses, score 0, no top risk areas and the
    one default recommendation.  [assess_risk] is a total function, so no
    exception stands for this case. *)
Theorem assess_risk_empty (F : FloatOps) :
  let a := RiskAnalyzer.assess_risk [] in
  RiskAnalyzer.overall_risk a = "unknown"
  /\ RiskAnalyzer.total_clauses a = 0%nat
  /\ RiskAnalyzer.risk_score a = RiskAnalyzer.Int 0
  /\ RiskAnalyzer.top_risk_areas a = []
  /\ RiskAnalyzer.recommendations a = ["Document analysis required"]
  /\ RiskAnalyzer.recommendations a <> [].
Proof.
  intros a. subst a. unfold RiskAnalyzer.assess_risk.
  unfold RiskAnalyzer._get_empty_risk_assessment.
  cbv [RiskAnalyzer.overall_risk RiskAnalyzer.total_clauses RiskAnalyzer.risk_score
       RiskAnalyzer.top_risk_areas RiskAnalyzer.recommendations].
  repeat split. discriminate.
Qed.

(* ------------------------------------------------------------------ *)
(** ** Two runs of the analysis *)

(** C10.  Two runs of [analyze_document] on the same text and file name,
    whatever the clock shows at each, return the same clauses, the same
    document type and the same clause scores (and the same summary); the
    time stamp is the only field that can differ. *)
Theorem analyze_document_two_runs (text filename now1 now2 : string) :
  let a1 := AIAnalyzer.analyze_document now1 text filename in
  let a2 := AIAnalyzer.analyze_document now2 text filename in
  AIAnalyzer.clauses a1 = AIAnalyzer.clauses a2
  /\ AIAnalyzer.document_type a1 = AIAnalyzer.document_type a2
  /\ map Clause.risk_score (AIAnalyzer.clauses a1)
     = map Clause.risk_score (AIAnalyzer.clauses a2)
  /\ AIAnalyzer.summary a1 = AIAnalyzer.summary a2.
Proof. repeat split. Qed.

(* ------------------------------------------------------------------ *)
(** ** Classification *)

Lemma first_matching_type_eq (text : string) :
  AIAnalyzer.first_matching_type AIAnalyzer.clause_patterns (Str.lower text)
  = if type_found "termination" text then Some "termination"
    else if type_found "liability" text then Some "liability"
    else if type_found "payment" text then Some "payment"
    else if type_found "confidentiality" text then Some "confidentiality"
    else if type_found "intellectual_property" text then Some "intellectual_property"
    else if type_found "dispute_resolution" text then Some "dispute_resolution"
    else None.
Proof. reflexivity. Qed.

(** C4.  The classifier returns one category of the closed set.  The table
    lists the six pattern categories in the declared order, and the result
    is the first of them one of whose patterns is found in the lower-cased
    text, so a text that matches a termination pattern is a termination
    clause whatever else it matches; a text that matches none is an
    obligation if it contains a modal word, else a right if it contains a
    permission word, else general. *)
Theorem classify_first_declared_wins (text : string) :
  let result := AIAnalyzer._identify_clause_type text in
  let text_lower := Str.lower text in
  map fst AIAnalyzer.clause_patterns
  = ["termination"; "liability"; "payment"; "confidentiality";
     "intellectual_property"; "dispute_resolution"]
  /\ In result
        ["termination"; "liability"; "payment"; "confidentiality";
         "intellectual_property"; "dispute_resolution";
         "obligation"; "right"; "general"]
  /\ (type_found "termination" text = true -> result = "termination")
  /\ (type_found "termination" text = false ->
      type_found "liability" text = true -> result = "liability")
  /\ (type_found "termination" text = false ->
      type_found "liability" text = false ->
      type_found "payment" text = true -> result = "payment")
  /\ (type_found "termination" text = false ->
      type_found "liability" text = false ->
      type_found "payment" text = false ->
      type_found "confidentiality" text = true -> result = "confidentiality")
  /\ (type_found "termination" text = false ->
      type_found "liability" text = false ->
      type_found "payment" text = false ->
      type_found "confidentiality" text = false ->
      type_found "intellectual_property" text = true ->
      result = "intellectual_property")
  /\ (type_found "termination" text = false ->
      type_found "liability" text = false ->
      type_found "payment" text = false ->
      type_found "confidentiality" text = false ->
      type_found "intellectual_property" text = false ->
      type_found "dispute_resolution" text = true ->
      result = "dispute_resolution")
  /\ (type_found "termination" text = false ->
      type_found "liability" text = false ->
      type_found "payment" text = false ->
      type_found "confidentiality" text = false ->
      type_found "intellectual_property" text = false ->
      type_found "dispute_resolution" text = false ->
      result
      = if any_in ["shall"; "will"; "must"; "required"] text_lower then "obligation"
        else if any_in ["may"; "can"; "permitted"; "allowed"] text_lower then "right"
        else "general").
Proof.
  intros result text_lower. subst result text_lower.
  unfold AIAnalyzer._identify_clause_type. rewrite first_matching_type_eq.
  split; [reflexivity|].
  split.
  - destruct (type_found "termination" text); [simpl; tauto|].
    destruct (type_found "liability" text); [simpl; tauto|].
    destruct (type_found "payment" text); [simpl; tauto|].
    destruct (type_found "confidentiality" text); [simpl; tauto|].
    destruct (type_found "intellectual_property" text); [simpl; tauto|].
    destruct (type_found "dispute_resolution" text); [simpl; tauto|].
    destruct (any_in _ _); [simpl; tauto|].
    destruct (any_in _ _); simpl; tauto.
  - repeat split; intros;
      repeat match goal with
             | H : type_found _ _ = _ |- _ => rewrite H; clear H
             end; reflexivity.
Qed.

(** A text that matches both a termination pattern and a liability pattern
    is classified as a termination clause. *)
Lemma classify_first_declared_wins_witness :
  type_found "termination" terminate_and_damages_clause = true
  /\ type_found "liability" terminate_and_damages_clause = true
  /\ AIAnalyzer._identify_clause_type terminate_and_damages_clause = "termination".
Proof.
  split; [reflexivity|]. split; [reflexivity|].
  apply (classify_first_declared_wins terminate_and_damages_clause).
  reflexivity.
Defined.

(* ------------------------------------------------------------------ *)
(** ** Simplification *)

Lemma append_empty_r (s : string) : s ++ "" = s.
Proof. induction s as [|c s IH]; simpl; [reflexivity | now rewrite IH]. Qed.

Lemma append_assoc (a b c : string) : (a ++ b) ++ c = a ++ b ++ c.
Proof. induction a as [|x a IH]; simpl; [reflexivity | now rewrite IH]. Qed.

(** C9, as stated, fails: [notice_and_payment_clause] contains the word
    "payment" and the amount "$5,000", and its simplification does not
    mention the amount, because the text also contains "termination". *)
Lemma simplify_independent_counterexample :
  ~ (forall clause_text clause_type amount : string,
        Str.contains "payment" (Str.lower clause_text) = true ->
        option_map Re.group0 (Re.search AIAnalyzer.amount_re clause_text) = Some amount ->
        Str.contains (" The amount involved is " ++ amount ++ ".")
                     (AIAnalyzer._simplify_clause clause_text clause_type) = true).
Proof.
  intros H.
  specialize (H notice_and_payment_clause "termination" "$5,000"
                (eq_refl _) (eq_refl _)).
  vm_compute in H. discriminate.
Qed.

(** C9, amended.  The simplification is the template of the category
    followed by the details of one of two groups.  When the lower-cased text
    contains "termination", the notice sentence and the without-cause note
    are appended, each exactly when its own trigger is present and in that
    order, and no payment detail is; otherwise, when it contains "payment",
    the amount sentence and the late-fee note are appended, each exactly
    when its own trigger is present and in that order; otherwise nothing is
    appended. *)
Theorem simplify_details (clause_text clause_type : string) :
  let text_lower := Str.lower clause_text in
  AIAnalyzer._simplify_clause clause_text clause_type
  = template clause_type
    ++ (if Str.contains "termination" text_lower
        then notice_detail text_lower ++ cause_detail text_lower
        else if Str.contains "payment" text_lower
        then amount_detail clause_text ++ late_detail text_lower
        else "").
Proof.
  intros text_lower. subst text_lower.
  unfold AIAnalyzer._simplify_clause, template, notice_detail, cause_detail,
    amount_detail, late_detail.
  set (base := get _ _ _).
  destruct (Str.contains "termination" _).
  - destruct (Str.contains "notice" _);
      [destruct (Re.search AIAnalyzer.notice_re _) as [m|];
       [destruct (Re.group1 m)|]|];
      destruct (_ && _);
      rewrite ?append_assoc, ?append_empty_r; reflexivity.
  - destruct (Str.contains "payment" _).
    + destruct (Re.search AIAnalyzer.amount_re _) as [m|];
        destruct (_ && _);
        rewrite ?append_assoc, ?append_empty_r; reflexivity.
    + now rewrite append_empty_r.
Qed.

(* ------------------------------------------------------------------ *)
(** ** Recommendations *)

Lemma fold_left_invariant {A B : Type} (P : A -> Prop) (f : A -> B -> A)
      (l : list B) (a : A) :
  P a -> (forall x y, P x -> P (f x y)) -> P (fold_left f l a).
Proof.
  intros Ha Hf; revert a Ha; induction l as [|y l IH]; simpl; intros a Ha;
    [exact Ha | apply IH, Hf, Ha].
Qed.

Lemma breakdown_add_keys (k : string) (v : Z) (d : list (string * list Z)) :
  NoDup (map fst d) ->
  NoDup (map fst (RiskAnalyzer.breakdown_add k v d))
  /\ (forall x, In x (map fst (RiskAnalyzer.breakdown_add k v d)) ->
                x = k \/ In x (map fst d)).
Proof.
  induction d as [|[k' vs] d IH]; simpl; intros Hd.
  - split; [repeat constructor; intros [] | intros x [<-|[]]; now left].
  - destruct (String.eqb_spec k' k) as [->|Hne]; simpl.
    + split; [exact Hd | intros x Hx; now right].
    + inversion Hd as [|? ? Hnotin Hd']; subst.
      destruct (IH Hd') as [IH1 IH2]. split.
      * constructor; [|exact IH1]. intros Hin.
        destruct (IH2 _ Hin) as [->|Hin']; [now apply Hne | now apply Hnotin].
      * intros x [<-|Hx]; [right; now left|].
        destruct (IH2 _ Hx) as [->|Hin']; [now left | right; now right].
Qed.

Lemma loop_breakdown_nodup (clauses : list Clause.clause) :
  NoDup (map fst (RiskAnalyzer.clause_risk_breakdown (RiskAnalyzer.loop clauses))).
Proof.
  unfold RiskAnalyzer.loop.
  apply (fold_left_invariant
           (fun st => NoDup (map fst (RiskAnalyzer.clause_risk_breakdown st)))).
  - constructor.
  - intros st c Hst. unfold RiskAnalyzer.loop_step.
    cbn [RiskAnalyzer.clause_risk_breakdown]. now apply breakdown_add_keys.
Qed.

Lemma type_recommendations_length (d : list (string * list Z)) :
  (List.length (RiskAnalyzer.type_recommendations d)
   <= List.length (filter advised_type (map fst d)))%nat.
Proof.
  induction d as [|[k vs] d IH]; simpl; [lia|].
  rewrite length_app. unfold advised_type at 1.
  destruct (RiskAnalyzer.max_at_least 8 vs);
    destruct (String.eqb k "payment"); destruct (String.eqb k "liability");
    destruct (String.eqb k "termination"); simpl; lia.
Qed.

Lemma type_recommendations_at_most_3 (d : list (string * list Z)) :
  NoDup (map fst d) -> (List.length (RiskAnalyzer.type_recommendations d) <= 3)%nat.
Proof.
  intros Hd. etransitivity; [apply type_recommendations_length|].
  change 3%nat with (List.length ["payment"; "liability"; "termination"]).
  apply NoDup_incl_length; [now apply NoDup_filter|].
  intros k Hk. apply filter_In in Hk as [_ Hk]. unfold advised_type in Hk.
  destruct (String.eqb k "payment") eqn:E1;
    [apply String.eqb_eq in E1; rewrite E1; simpl; tauto|].
  destruct (String.eqb k "liability") eqn:E2;
    [apply String.eqb_eq in E2; rewrite E2; simpl; tauto|].
  destruct (String.eqb k "termination") eqn:E3;
    [apply String.eqb_eq in E3; rewrite E3; simpl; tauto|].
  discriminate.
Qed.

Lemma factor_recommendations_at_most_4 (l : list string) :
  (List.length (RiskAnalyzer.factor_recommendations l) <= 4)%nat.
Proof.
  unfold RiskAnalyzer.factor_recommendations.
  repeat destruct (RiskAnalyzer.factor_mentions _ _); simpl; lia.
Qed.

Lemma overall_risk_cases {F : FloatOps} (avg : float) (m : Z) (n : nat) :
  In (RiskAnalyzer._determine_overall_risk avg m n) ["high"; "medium"; "low"].
Proof.
  unfold RiskAnalyzer._determine_overall_risk.
  destruct (_ || _ || _); [simpl; tauto|].
  destruct (_ || _ || _); simpl; tauto.
Qed.

Lemma firstn_short {A : Type} (n : nat) (l : list A) :
  (List.length l <= n)%nat -> firstn n l = l.
Proof. intros H. now apply firstn_all2. Qed.

(** The last two steps of [_generate_recommendations] on lists of known
    lengths. *)
Lemma general_step (low : bool) (first triggered general : list string) :
  List.length first = (if low then 1 else 2)%nat ->
  (List.length triggered <= 7)%nat ->
  (List.length general = 2)%nat ->
  let recommendations := (first ++ triggered)%list in
  let result :=
    firstn 10 (if (List.length recommendations =? 1)%nat
               then (recommendations ++ general)%list
               else recommendations) in
  result = (first ++ triggered ++ (if low && is_nil triggered then general else []))%list
  /\ (List.length result <= 9)%nat
  /\ hd_error result = hd_error first.
Proof.
  intros Hfirst Htrig Hgen recommendations result.
  subst result recommendations.
  destruct low.
  - destruct first as [|x [|y first]]; try discriminate.
    destruct triggered as [|t triggered].
    + cbn [app List.length Nat.eqb andb is_nil].
      rewrite firstn_short by (simpl; lia).
      repeat split. simpl; lia.
    + cbn [app List.length Nat.eqb andb is_nil].
      rewrite firstn_short by (simpl in *; lia).
      rewrite !app_nil_r. repeat split. simpl in *; lia.
  - destruct first as [|x [|y [|z first]]]; try discriminate.
    cbn [app List.length Nat.eqb andb is_nil].
    rewrite firstn_short by (simpl in *; lia).
    rewrite !app_nil_r. repeat split. simpl in *; lia.
Qed.

(** The recommendations in terms of the three blocks, for any level. *)
Lemma generate_recommendations_eq (overall_risk : string) (risk_factors : list string)
      (d : list (string * list Z)) :
  In overall_risk ["high"; "medium"; "low"] ->
  NoDup (map fst d) ->
  let triggered :=
    (RiskAnalyzer.factor_recommendations (RiskAnalyzer.distinct risk_factors)
     ++ RiskAnalyzer.type_recommendations d)%list in
  let result := RiskAnalyzer._generate_recommendations overall_risk risk_factors d in
  result
  = (RiskAnalyzer.overall_recommendations overall_risk
     ++ triggered
     ++ (if String.eqb overall_risk "low" && is_nil triggered
         then RiskAnalyzer.general_recommendations else []))%list
  /\ (List.length result <= 9)%nat
  /\ hd_error result = hd_error (RiskAnalyzer.overall_recommendations overall_risk).
Proof.
  intros Hlevel Hd triggered result.
  pose proof (factor_recommendations_at_most_4 (RiskAnalyzer.distinct risk_factors)) as Hf.
  pose proof (type_recommendations_at_most_3 d Hd) as Ht.
  assert (Hlen : (List.length triggered <= 7)%nat)
    by (subst triggered; rewrite length_app; lia).
  subst result. unfold RiskAnalyzer._generate_recommendations.
  rewrite <- app_assoc. fold triggered.
  apply general_step; [|exact Hlen|reflexivity].
  destruct Hlevel as [<-|[<-|[<-|[]]]]; reflexivity.
Qed.

Lemma overall_high_of_max {F : FloatOps} (avg : float) (m : Z) (n : nat) :
  9 <= m -> RiskAnalyzer._determine_overall_risk avg m n = "high".
Proof.
  intros H. unfold RiskAnalyzer._determine_overall_risk.
  apply Z.leb_le in H. rewrite H, orb_true_r. reflexivity.
Qed.

(** The recommendations for [[unlimited_liability_clause]], whatever the
    float operations: the clause scores 10, so the level is high. *)
Lemma unlimited_liability_recommendations (F : FloatOps) :
  RiskAnalyzer.recommendations (RiskAnalyzer.assess_risk [unlimited_liability_clause])
  = (RiskAnalyzer.overall_recommendations "high"
     ++ [ "Consider negotiating a liability cap to limit your financial exposure.";
          "The liability clause is high-risk - consider insurance or indemnification." ])%list.
Proof.
  set (clauses := [unlimited_liability_clause]).
  assert (Hhigh : RiskAnalyzer.overall_risk (RiskAnalyzer.assess_risk clauses) = "high").
  { change (RiskAnalyzer.overall_risk (RiskAnalyzer.assess_risk clauses))
      with (RiskAnalyzer._determine_overall_risk
              (truediv (RiskAnalyzer.sum
                          (RiskAnalyzer.individual_risks (RiskAnalyzer.loop clauses)))
                       (Z.of_nat (List.length
                          (RiskAnalyzer.individual_risks (RiskAnalyzer.loop clauses)))))
              (RiskAnalyzer.max_of
                 (RiskAnalyzer.individual_risks (RiskAnalyzer.loop clauses)))
              (RiskAnalyzer.count (fun score => 7 <=? score)
                 (RiskAnalyzer.individual_risks (RiskAnalyzer.loop clauses)))).
    apply overall_high_of_max. vm_compute. discriminate. }
  change (RiskAnalyzer.recommendations (RiskAnalyzer.assess_risk clauses))
    with (RiskAnalyzer._generate_recommendations
            (RiskAnalyzer.overall_risk (RiskAnalyzer.assess_risk clauses))
            (RiskAnalyzer.collected_factors (RiskAnalyzer.loop clauses))
            (RiskAnalyzer.clause_risk_breakdown (RiskAnalyzer.loop clauses))).
  rewrite Hhigh. vm_compute. reflexivity.
Qed.

(** C8, as stated, fails: for the one-clause list
    [[unlimited_liability_clause]] the overall level is high and two
    messages are triggered; the list begins with the two messages of the
    high level, the alert and the sentence of advice, where one mandatory
    message followed by the triggered ones is claimed.  The list is the same
    for every implementation of the float operations
    ([unlimited_liability_recommendations]). *)
Lemma recommendations_counterexample :
  ~ (forall (F : FloatOps) (clauses : list Clause.clause),
        clauses <> [] ->
        let a := RiskAnalyzer.assess_risk clauses in
        RiskAnalyzer.recommendations a
        = claimed_recommendations (RiskAnalyzer.overall_risk a)
                                  (RiskAnalyzer.risk_factors a)
                                  (RiskAnalyzer.clause_breakdown a)).
Proof.
  intros H.
  specialize (H binary64 [unlimited_liability_clause]). cbv zeta in H.
  assert (E : [unlimited_liability_clause] <> []) by discriminate.
  specialize (H E). rewrite unlimited_liability_recommendations in H.
  vm_compute in H. discriminate.
Qed.

(** C8, amended.  For every non-empty clause list the overall level is
    high, medium or low, and the recommendations begin with the fixed
    messages of that level, two for high and for medium (the alert and one
    sentence of advice) and one for low, the first of them being the
    mandatory message; the triggered messages follow.  When a message was
    triggered nothing follows them; when the level is low and nothing was
    triggered, the two general recommendations follow the single level
    message.  The list has at most 10 entries. *)
Theorem recommendations_shape (F : FloatOps) (clauses : list Clause.clause) :
  clauses <> [] ->
  let a := RiskAnalyzer.assess_risk clauses in
  let level_messages := RiskAnalyzer.overall_recommendations (RiskAnalyzer.overall_risk a) in
  let triggered :=
    (RiskAnalyzer.factor_recommendations (RiskAnalyzer.risk_factors a)
     ++ RiskAnalyzer.type_recommendations (RiskAnalyzer.clause_breakdown a))%list in
  In (RiskAnalyzer.overall_risk a) ["high"; "medium"; "low"]
  /\ List.length level_messages
     = (if String.eqb (RiskAnalyzer.overall_risk a) "low" then 1 else 2)%nat
  /\ hd_error (RiskAnalyzer.recommendations a) = hd_error level_messages
  /\ (exists tail : list string,
         RiskAnalyzer.recommendations a = (level_messages ++ triggered ++ tail)%list)
  /\ (triggered <> [] ->
      RiskAnalyzer.recommendations a = (level_messages ++ triggered)%list)
  /\ (RiskAnalyzer.overall_risk a = "low" -> triggered = [] ->
      RiskAnalyzer.recommendations a
      = (level_messages ++ RiskAnalyzer.general_recommendations)%list)
  /\ (List.length (RiskAnalyzer.recommendations a) <= 10)%nat.
Proof.
  intros Hne. destruct clauses as [|c0 rest]; [contradiction|].
  set (clauses := c0 :: rest).
  intros a level_messages triggered.
  assert (Hlevel : In (RiskAnalyzer.overall_risk a) ["high"; "medium"; "low"])
    by apply overall_risk_cases.
  destruct (generate_recommendations_eq
              (RiskAnalyzer.overall_risk a)
              (RiskAnalyzer.collected_factors (RiskAnalyzer.loop clauses))
              (RiskAnalyzer.clause_breakdown a)
              Hlevel (loop_breakdown_nodup clauses)) as [Heq [Hlen Hhd]].
  change (RiskAnalyzer._generate_recommendations _ _ _)
    with (RiskAnalyzer.recommendations a) in Heq, Hlen, Hhd.
  change (RiskAnalyzer.distinct _) with (RiskAnalyzer.risk_factors a) in Heq.
  fold triggered level_messages in Heq. fold level_messages in Hhd.
  split; [exact Hlevel|].
  split; [subst level_messages;
          destruct Hlevel as [<-|[<-|[<-|[]]]]; reflexivity|].
  split; [exact Hhd|].
  split; [eexists; exact Heq|].
  split; [|split; [|lia]].
  - intros Htrig. rewrite Heq.
    destruct triggered as [|t ts]; [contradiction|].
    cbn [is_nil]. now rewrite andb_false_r, app_nil_r.
  - intros Hlow Htrig. rewrite Heq, Hlow, Htrig. reflexivity.
Qed.

(** The clause list [[unlimited_liability_clause]]: level high, two level
    messages and two triggered ones. *)
Lemma recommendations_shape_witness :
  [unlimited_liability_clause] <> []
  /\ (List.length
        (RiskAnalyzer.recommendations
           (@RiskAnalyzer.assess_risk binary64 [unlimited_liability_clause])) <= 10)%nat.
Proof.
  split; [discriminate|].
  apply (recommendations_shape binary64 [unlimited_liability_clause]). discriminate.
Defined.

(* ------------------------------------------------------------------ *)
(** ** Appending a high-risk phrase *)

Section Junction.

Lemma startswith_app_inv (w a u : string) :
  Str.startswith w (a ++ u) = true ->
  Str.startswith w a = true
  \/ ((String.length a < String.length w)%nat
      /\ Str.startswith (Str.drop (String.length a) w) u = true).
Proof.
  revert w; induction a as [|c a IH]; intros w H.
  - destruct w as [|d w]; [now left|]. right. split; [simpl; lia | exact H].
  - destruct w as [|d w]; [now left|]. simpl in H.
    apply andb_true_iff in H as [Hc Hw].
    destruct (IH _ Hw) as [Hl|[Hlen Hr]].
    + left. simpl. now rewrite Hc, Hl.
    + right. split; [simpl; lia | exact Hr].
Qed.

Lemma contains_app_inv (w t u : string) :
  junction_free w u = true ->
  Str.contains w (t ++ u) = true -> Str.contains w t = true.
Proof.
  unfold junction_free. intros Hfree.
  apply andb_true_iff in Hfree as [Hnot Hsuffix].
  apply negb_true_iff in Hnot. rewrite forallb_forall in Hsuffix.
  induction t as [|c t IH]; intros H.
  - simpl in H. congruence.
  - change ((String c t) ++ u) with (String c (t ++ u)) in H.
    cbn [Str.contains] in H. apply orb_true_iff in H as [H|H].
    + change (String c (t ++ u)) with (String c t ++ u) in H.
      destruct (startswith_app_inv _ _ _ H) as [Hl|[Hlen Hr]].
      * cbn [Str.contains]. now rewrite Hl.
      * assert (Hin : In (String.length (String c t)) (seq 1 (String.length w - 1)))
          by (apply in_seq; simpl in *; lia).
        apply Hsuffix in Hin. rewrite Hr in Hin. discriminate.
    + cbn [Str.contains]. rewrite (IH H). apply orb_true_r.
Qed.

End Junction.

Section Counting.

Lemma filter_length_mono {A : Type} (p q : A -> bool) (l : list A) :
  (forall x, In x l -> p x = true -> q x = true) ->
  (List.length (filter p l) <= List.length (filter q l))%nat.
Proof.
  induction l as [|x l IH]; intros H; simpl; [lia|].
  assert (IH' : (List.length (filter p l) <= List.length (filter q l))%nat)
    by (apply IH; intros y Hy; apply H; now right).
  destruct (p x) eqn:Ep.
  - rewrite (H x (or_introl eq_refl) Ep). simpl. lia.
  - destruct (q x); simpl; lia.
Qed.

Lemma existsb_mono {A : Type} (p q : A -> bool) (l : list A) :
  (forall x, In x l -> p x = true -> q x = true) ->
  existsb p l = true -> existsb q l = true.
Proof.
  intros H Hp. apply existsb_exists in Hp as [x [Hx Hpx]].
  apply existsb_exists. exists x. split; [exact Hx | now apply H].
Qed.

Lemma scan_terms_fst (label : string) (weight : Z) (text : string)
      (terms : list string) (acc : Z * list string) :
  fst (scan_terms label weight text terms acc) = fst acc + weight * hits terms text.
Proof.
  unfold scan_terms, hits. revert acc.
  induction terms as [|term terms IH]; intros acc; simpl; [lia|].
  rewrite IH. destruct (Str.contains (Str.lower term) text); simpl; lia.
Qed.

Lemma hits_mono (terms : list string) (t t' : string) :
  (forall w, In w terms ->
             Str.contains (Str.lower w) t = true -> Str.contains (Str.lower w) t' = true) ->
  hits terms t <= hits terms t'.
Proof.
  intros H. unfold hits. apply inj_le.
  apply (filter_length_mono (fun term => Str.contains (Str.lower term) t)
                            (fun term => Str.contains (Str.lower term) t')).
  exact H.
Qed.

Lemma count_in_mono (terms : list string) (t t' : string) :
  (forall w, Str.contains w t = true -> Str.contains w t' = true) ->
  RiskAnalyzer.count_in terms t <= RiskAnalyzer.count_in terms t'.
Proof.
  intros H. unfold RiskAnalyzer.count_in. apply inj_le.
  apply (filter_length_mono (fun term => Str.contains term t)
                            (fun term => Str.contains term t')).
  intros x _. apply H.
Qed.

Lemma any_in_mono (terms : list string) (t t' : string) :
  (forall w, Str.contains w t = true -> Str.contains w t' = true) ->
  any_in terms t = true -> any_in terms t' = true.
Proof.
  intros H. unfold any_in. apply existsb_mono. intros x _. apply H.
Qed.

End Counting.

Section Monotone.

Lemma if_mono (b b' : bool) (x : Z) :
  0 <= x -> (b = true -> b' = true) ->
  (if b then x else 0) <= (if b' then x else 0).
Proof. intros Hx H. destruct b; [rewrite H by reflexivity; lia | destruct b'; lia]. Qed.

Lemma orb_mono (a b a' b' : bool) :
  (a = true -> a' = true) -> (b = true -> b' = true) ->
  a || b = true -> a' || b' = true.
Proof.
  intros Ha Hb H. apply orb_true_iff in H as [H|H];
    apply orb_true_iff; [left; auto | right; auto].
Qed.

Lemma type_adjustment_fst (clause_type text_lower : string) (acc : Z * list string) :
  fst (AIAnalyzer.type_adjustment clause_type text_lower acc)
  = fst acc + type_delta clause_type text_lower.
Proof.
  unfold AIAnalyzer.type_adjustment, type_delta.
  repeat match goal with
         | |- context [if ?b then _ else _] => destruct b
         end; simpl; lia.
Qed.

Lemma AI_raw_fst (clause_text clause_type : string) :
  fst (AIAnalyzer.raw_risk clause_text clause_type)
  = 5 + 2 * hits AIAnalyzer.high_risk_keywords (Str.lower clause_text)
    + 1 * hits AIAnalyzer.medium_risk_keywords (Str.lower clause_text)
    + type_delta clause_type (Str.lower clause_text).
Proof.
  unfold AIAnalyzer.raw_risk. cbv zeta.
  rewrite type_adjustment_fst, !scan_terms_fst. reflexivity.
Qed.

Lemma check_additional_fst (clause_text : string) (current_score : Z) :
  fst (RiskAnalyzer._check_additional_risk_factors clause_text current_score)
  = current_score + additional_delta clause_text.
Proof.
  unfold RiskAnalyzer._check_additional_risk_factors, additional_delta.
  cbv zeta.
  change (RiskAnalyzer.weight "unclear_language") with 2.
  change (RiskAnalyzer.weight "one_sided_clause") with 2.
  change (RiskAnalyzer.weight "broad_scope") with 1.
  change (RiskAnalyzer.weight "time_pressure") with 1.
  destruct (2 <=? _); destruct (any_in RiskAnalyzer.one_sided_indicators _);
    destruct (3 <=? _); destruct (any_in RiskAnalyzer.time_pressure_terms _);
    simpl; lia.
Qed.

Lemma Risk_raw_fst (clause_text clause_type : string) :
  fst (RiskAnalyzer.raw_risk clause_text clause_type)
  = get RiskAnalyzer.base_risk_scores clause_type 4
    + 3 * hits (RiskAnalyzer.all_terms RiskAnalyzer.high_risk_terms) clause_text
    + 2 * hits (RiskAnalyzer.all_terms RiskAnalyzer.medium_risk_terms) clause_text
    - hits (RiskAnalyzer.all_terms RiskAnalyzer.low_risk_terms) clause_text
    + additional_delta clause_text.
Proof.
  unfold RiskAnalyzer.raw_risk. cbv zeta.
  change (RiskAnalyzer.weight "high_risk_term") with 3.
  change (RiskAnalyzer.weight "medium_risk_term") with 2.
  change (RiskAnalyzer.weight "low_risk_term") with (-1).
  match goal with
  | |- context [RiskAnalyzer._check_additional_risk_factors ?t ?s] =>
      pose proof (check_additional_fst t s) as H;
      destruct (RiskAnalyzer._check_additional_risk_factors t s) as [rs af]
  end.
  cbn [fst] in *. rewrite H, !scan_terms_fst. cbn [fst]. lia.
Qed.

Lemma type_delta_mono (clause_type t q : string) :
  Str.contains "unlimited" q || junction_free "limited" q = true ->
  type_delta clause_type t <= type_delta clause_type (t ++ q).
Proof.
  intros Hq. unfold type_delta.
  destruct (String.eqb clause_type "termination").
  { apply if_mono; [lia|]. apply orb_mono; apply contains_app_l. }
  destruct (String.eqb clause_type "liability").
  { destruct (Str.contains "unlimited" t) eqn:Eu.
    - rewrite (contains_app_l _ _ q Eu). lia.
    - destruct (Str.contains "limited" t) eqn:El.
      + destruct (Str.contains "unlimited" (t ++ q));
          destruct (Str.contains "limited" (t ++ q)); lia.
      + destruct (Str.contains "unlimited" (t ++ q)) eqn:Eu'; [lia|].
        destruct (Str.contains "limited" (t ++ q)) eqn:El'; [|lia].
        apply orb_true_iff in Hq as [Hq|Hq].
        * rewrite (contains_app_r _ t _ Hq) in Eu'. discriminate.
        * rewrite (contains_app_inv _ _ _ Hq El') in El. discriminate. }
  destruct (String.eqb clause_type "payment").
  { apply if_mono; [lia|]. apply orb_mono; apply contains_app_l. }
  lia.
Qed.

Lemma additional_delta_mono (t u : string) :
  additional_delta t <= additional_delta (t ++ u).
Proof.
  unfold additional_delta.
  assert (Hsub : forall w, Str.contains w t = true -> Str.contains w (t ++ u) = true)
    by (intros w; apply contains_app_l).
  pose proof (count_in_mono RiskAnalyzer.ambiguous_terms _ _ Hsub) as H1.
  pose proof (count_in_mono
                (map (fun term => " " ++ term ++ " ") RiskAnalyzer.broad_scope_terms)
                _ _ Hsub) as H3.
  pose proof (any_in_mono RiskAnalyzer.one_sided_indicators _ _ Hsub) as H2.
  pose proof (any_in_mono RiskAnalyzer.time_pressure_terms _ _ Hsub) as H4.
  assert (A1 : (if 2 <=? RiskAnalyzer.count_in RiskAnalyzer.ambiguous_terms t
                then 2 else 0)
               <= (if 2 <=? RiskAnalyzer.count_in RiskAnalyzer.ambiguous_terms (t ++ u)
                   then 2 else 0)).
  { apply if_mono; [lia|]. intros H. apply Z.leb_le in H. apply Z.leb_le. lia. }
  assert (A3 : (if 3 <=? RiskAnalyzer.count_in
                           (map (fun term => " " ++ term ++ " ")
                                RiskAnalyzer.broad_scope_terms) t
                then 1 else 0)
               <= (if 3 <=? RiskAnalyzer.count_in
                              (map (fun term => " " ++ term ++ " ")
                                   RiskAnalyzer.broad_scope_terms) (t ++ u)
                   then 1 else 0)).
  { apply if_mono; [lia|]. intros H. apply Z.leb_le in H. apply Z.leb_le. lia. }
  pose proof (if_mono _ _ 2 ltac:(lia) H2) as A2.
  pose proof (if_mono _ _ 1 ltac:(lia) H4) as A4.
  lia.
Qed.

(** The phrases of the per-clause scorer cannot bring "limited" into a text
    without bringing "unlimited". *)
Lemma AI_keywords_keep_limited :
  forallb (fun p => Str.contains "unlimited" (Str.lower p)
                    || junction_free "limited" (Str.lower p))
          AIAnalyzer.high_risk_keywords = true.
Proof. vm_compute. reflexivity. Qed.

(** After a space, no high-risk phrase of the document-level scorer
    completes a protective term. *)
Lemma spaced_phrase_junction_free :
  forallb (fun p =>
             forallb (fun w => junction_free (Str.lower w) (Str.lower (" " ++ p)))
                     (RiskAnalyzer.all_terms RiskAnalyzer.low_risk_terms))
          (RiskAnalyzer.all_terms RiskAnalyzer.high_risk_terms) = true.
Proof. vm_compute. reflexivity. Qed.

Lemma AI_score_mono (clause_text clause_type p : string) :
  In p AIAnalyzer.high_risk_keywords ->
  score (AIAnalyzer._assess_clause_risk clause_text clause_type)
  <= score (AIAnalyzer._assess_clause_risk (clause_text ++ p) clause_type).
Proof.
  intros Hp. rewrite !AI_score_eq. apply clamp_mono. rewrite !AI_raw_fst.
  rewrite lower_app.
  pose proof AI_keywords_keep_limited as Hk. rewrite forallb_forall in Hk.
  pose proof (type_delta_mono clause_type (Str.lower clause_text) _ (Hk p Hp)) as Hd.
  pose proof (hits_mono AIAnalyzer.high_risk_keywords (Str.lower clause_text)
                (Str.lower clause_text ++ Str.lower p)
                (fun w _ => contains_app_l _ _ _)) as Hh.
  pose proof (hits_mono AIAnalyzer.medium_risk_keywords (Str.lower clause_text)
                (Str.lower clause_text ++ Str.lower p)
                (fun w _ => contains_app_l _ _ _)) as Hm.
  lia.
Qed.

Lemma Risk_score_mono (c : Clause.clause) (u : string) :
  (forall w, In w (RiskAnalyzer.all_terms RiskAnalyzer.low_risk_terms) ->
             Str.contains (Str.lower w) (Str.lower (Clause.content c ++ u)) = true ->
             Str.contains (Str.lower w) (Str.lower (Clause.content c)) = true) ->
  score (RiskAnalyzer._analyze_clause_risk c)
  <= score (RiskAnalyzer._analyze_clause_risk (with_content (Clause.content c ++ u) c)).
Proof.
  intros Hlow. rewrite !Risk_score_eq. apply clamp_mono.
  cbn [with_content Clause.content Clause.clause_type].
  rewrite !Risk_raw_fst.
  pose proof (hits_mono (RiskAnalyzer.all_terms RiskAnalyzer.low_risk_terms) _ _ Hlow)
    as Hl.
  rewrite lower_app in *.
  pose proof (hits_mono (RiskAnalyzer.all_terms RiskAnalyzer.high_risk_terms)
                (Str.lower (Clause.content c))
                (Str.lower (Clause.content c) ++ Str.lower u)
                (fun w _ => contains_app_l _ _ _)) as Hh.
  pose proof (hits_mono (RiskAnalyzer.all_terms RiskAnalyzer.medium_risk_terms)
                (Str.lower (Clause.content c))
                (Str.lower (Clause.content c) ++ Str.lower u)
                (fun w _ => contains_app_l _ _ _)) as Hm.
  pose proof (additional_delta_mono (Str.lower (Clause.content c)) (Str.lower u)) as Ha.
  lia.
Qed.

End Monotone.

(** C7, as stated, fails for the document-level scorer: the text of
    [cut_short_clause] contains "no refund" and ends one letter short of the
    protective term "mutual liability limitation"; appending the high-risk
    phrase "no refund" adds no new high-risk match and completes the
    protective term, and the score goes from 7 to 6. *)
Lemma append_phrase_counterexample :
  ~ (forall (c : Clause.clause) (p : string),
        In p (RiskAnalyzer.all_terms RiskAnalyzer.high_risk_terms) ->
        score (RiskAnalyzer._analyze_clause_risk c)
        <= score (RiskAnalyzer._analyze_clause_risk
                    (with_content (Clause.content c ++ p) c))).
Proof.
  intros H.
  assert (Hin : In "no refund" (RiskAnalyzer.all_terms RiskAnalyzer.high_risk_terms))
    by (vm_compute; tauto).
  specialize (H cut_short_clause "no refund" Hin).
  vm_compute in H. apply H. reflexivity.
Qed.

(** C7, amended.  For the per-clause scorer, appending a phrase of its
    high-risk keyword list to any clause text never lowers the score,
    whatever the category.  For the document-level scorer, appending any
    text never lowers the score provided it completes no protective
    (low-risk) term that the clause text did not already contain; this is
    the case whenever a phrase of its high-risk term list is appended after
    a space. *)
Theorem append_phrase_monotone :
  (forall clause_text clause_type p : string,
      In p AIAnalyzer.high_risk_keywords ->
      score (AIAnalyzer._assess_clause_risk clause_text clause_type)
      <= score (AIAnalyzer._assess_clause_risk (clause_text ++ p) clause_type))
  /\ (forall (c : Clause.clause) (u : string),
         (forall w, In w (RiskAnalyzer.all_terms RiskAnalyzer.low_risk_terms) ->
                    Str.contains (Str.lower w) (Str.lower (Clause.content c ++ u)) = true ->
                    Str.contains (Str.lower w) (Str.lower (Clause.content c)) = true) ->
         score (RiskAnalyzer._analyze_clause_risk c)
         <= score (RiskAnalyzer._analyze_clause_risk
                     (with_content (Clause.content c ++ u) c)))
  /\ (forall (c : Clause.clause) (p : string),
         In p (RiskAnalyzer.all_terms RiskAnalyzer.high_risk_terms) ->
         score (RiskAnalyzer._analyze_clause_risk c)
         <= score (RiskAnalyzer._analyze_clause_risk
                     (with_content (Clause.content c ++ " " ++ p) c))).
Proof.
  split; [exact AI_score_mono|]. split; [exact Risk_score_mono|].
  intros c p Hp. apply Risk_score_mono. intros w Hw.
  rewrite lower_app. apply contains_app_inv.
  pose proof spaced_phrase_junction_free as H.
  rewrite forallb_forall in H. specialize (H p Hp).
  rewrite forallb_forall in H. exact (H w Hw).
Qed.

(** The three parts at [cut_short_clause] and the phrase "no refund": the
    per-clause score of its text does not go down, and neither does its
    document-level score when the phrase follows a space. *)
Lemma append_phrase_monotone_witness :
  In "no refund" AIAnalyzer.high_risk_keywords
  /\ In "no refund" (RiskAnalyzer.all_terms RiskAnalyzer.high_risk_terms)
  /\ score (AIAnalyzer._assess_clause_risk (Clause.content cut_short_clause) "general")
     <= score (AIAnalyzer._assess_clause_risk
                 (Clause.content cut_short_clause ++ "no refund") "general")
  /\ score (RiskAnalyzer._analyze_clause_risk cut_short_clause)
     <= score (RiskAnalyzer._analyze_clause_risk
                 (with_content (Clause.content cut_short_clause ++ " " ++ "no refund")
                               cut_short_clause))
  /\ score (RiskAnalyzer._analyze_clause_risk cut_short_clause)
     <= score (RiskAnalyzer._analyze_clause_risk
                 (with_content (Clause.content cut_short_clause ++ " no refund")
                               cut_short_clause)).
Proof.
  assert (H1 : In "no refund" AIAnalyzer.high_risk_keywords) by (vm_compute; tauto).
  assert (H2 : In "no refund" (RiskAnalyzer.all_terms RiskAnalyzer.high_risk_terms))
    by (vm_compute; tauto).
  split; [exact H1|]. split; [exact H2|].
  split; [exact (proj1 append_phrase_monotone _ "general" _ H1)|].
  split; [exact (proj2 (proj2 append_phrase_monotone) cut_short_clause _ H2)|].
  apply (proj1 (proj2 append_phrase_monotone) cut_short_clause " no refund").
  intros w Hw. vm_compute in Hw.
  repeat (destruct Hw as [<-|Hw]; [vm_compute; intros H; exact H|]).
  destruct Hw.
Defined.

(* ------------------------------------------------------------------ *)
(** ** The scenarios of the specification, run on the embedding *)

Example scenario_sole_discretion :
  let text := "The Company may terminate this agreement immediately without notice for any reason, at Company's sole discretion." in
  AIAnalyzer._identify_clause_type text = "termination"
  /\ AIAnalyzer._assess_clause_risk text "termination"
     = {| score := 9; level := "high";
          factors := ["Contains high-risk term: 'sole discretion'";
                      "Allows immediate termination"] |}.
Proof. split; vm_compute; reflexivity. Qed.

Example scenario_thirty_days :
  let text := "Either party may terminate this Agreement upon 30 days written notice to the other party." in
  AIAnalyzer._identify_clause_type text = "termination"
  /\ AIAnalyzer._assess_clause_risk text "termination"
     = {| score := 5; level := "medium";
          factors := ["Standard clause with typical terms"] |}.
Proof. split; vm_compute; reflexivity. Qed.

Example scenario_amount :
  AIAnalyzer._simplify_clause "The payment of $5,000 is due on delivery." "payment"
  = "This covers how much you pay and when payments are due. The amount involved is $5,000.".
Proof. vm_compute. reflexivity. Qed.

Example scenario_no_long_clause (now : string) :
  AIAnalyzer.clauses (AIAnalyzer.analyze_document now "A short note." "note.pdf") = []
  /\ RiskAnalyzer.overall_risk (@RiskAnalyzer.assess_risk binary64 []) = "unknown".
Proof. split; reflexivity. Qed.

Example scenario_numbered_clauses :
  Re.split (Re.cat [Re.nl; Re.s_star; Re.d_plus; Re.Lit "."; Re.s_plus])
           ("Preamble" ++ NL ++ "1. First" ++ NL ++ "  2.  Second")
  = ["Preamble"; "First"; "Second"].
Proof. vm_compute. reflexivity. Qed.

(* ------------------------------------------------------------------ *)
(** ** Further properties of the analyzer *)

Section Strip.

Lemma lstrip_head (s : string) (c : ascii) (r : string) :
  Str.lstrip s = String c r -> Str.isspace c = false.
Proof.
  induction s as [|d s IH]; simpl; [discriminate|].
  destruct (Str.isspace d) eqn:E; [exact IH|].
  intros H; injection H as <- <-. exact E.
Qed.

Lemma rstrip_idempotent (s : string) : Str.rstrip (Str.rstrip s) = Str.rstrip s.
Proof.
  induction s as [|c r IH]; [reflexivity|].
  cbn [Str.rstrip]. cbv zeta.
  destruct (Str.isspace c && Str.is_empty (Str.rstrip r)) eqn:E; [reflexivity|].
  cbn [Str.rstrip]. cbv zeta. now rewrite IH, E.
Qed.

Lemma strip_idempotent (s : string) : Str.strip (Str.strip s) = Str.strip s.
Proof.
  unfold Str.strip. destruct (Str.lstrip s) as [|c r] eqn:E; [reflexivity|].
  apply lstrip_head in E.
  cbn [Str.rstrip]. cbv zeta. rewrite E. cbn [andb Str.lstrip]. rewrite E.
  cbn [Str.rstrip]. cbv zeta. rewrite E. cbn [andb]. now rewrite rstrip_idempotent.
Qed.

End Strip.

Section Sections.

Lemma stripped_parts_stripped (parts : list string) :
  Forall (fun s => Str.strip s = s) (AIAnalyzer.stripped_parts parts).
Proof.
  unfold AIAnalyzer.stripped_parts. apply Forall_forall. intros s Hs.
  apply in_flat_map in Hs as [p [_ Hs]].
  destruct (Str.is_empty (Str.strip p)); simpl in Hs; [destruct Hs|].
  destruct Hs as [<-|[]]. apply strip_idempotent.
Qed.

Lemma split_pass_stripped (sections : list string) (pattern : Re.regex) :
  Forall (fun s => Str.strip s = s) (AIAnalyzer.split_pass sections pattern).
Proof.
  unfold AIAnalyzer.split_pass. apply Forall_forall. intros s Hs.
  apply in_flat_map in Hs as [section [_ Hs]].
  pose proof (stripped_parts_stripped (Re.split pattern section)) as H.
  rewrite Forall_forall in H. now apply H.
Qed.

Lemma fragments_stripped (text : string) :
  Forall (fun s => Str.strip s = s) (fragments text).
Proof.
  unfold fragments, AIAnalyzer.clause_separators. cbn [fold_left].
  apply split_pass_stripped.
Qed.

Lemma split_into_clauses_sections (text : string) :
  Forall (fun s => Str.strip s = s /\ 100 < Str.len s)
         (AIAnalyzer._split_into_clauses text).
Proof.
  rewrite split_into_clauses_eq. apply Forall_firstn, Forall_forall.
  intros s Hs. apply filter_In in Hs as [Hin Hlen]. split.
  - pose proof (fragments_stripped text) as H. rewrite Forall_forall in H. now apply H.
  - now apply Z.ltb_lt.
Qed.

Lemma analyze_sections_all (sections : list string) :
  Forall (fun s => 50 < Str.len (Str.strip s)) sections ->
  forall i : nat,
    AIAnalyzer.analyze_sections i sections
    = map (fun p => AIAnalyzer._analyze_clause (snd p) (fst p))
          (combine (seq i (List.length sections)) sections).
Proof.
  induction 1 as [|s sections Hs _ IH]; intros i; [reflexivity|].
  cbn [AIAnalyzer.analyze_sections List.length seq combine map fst snd].
  apply Z.ltb_lt in Hs. rewrite Hs. now rewrite IH.
Qed.

(** X1.  [analyze_document] analyses every section that the segmenter
    returns: the test on 50 characters never drops one, because the sections
    are already stripped and longer than 100 characters.  The clause records
    are the records of the sections in order, at most 20, with the
    identifiers clause_0, clause_1, ... *)
Theorem every_section_is_analyzed (now text filename : string) :
  let sections := AIAnalyzer._split_into_clauses text in
  let a := AIAnalyzer.analyze_document now text filename in
  AIAnalyzer.clauses a
  = map (fun p => AIAnalyzer._analyze_clause (snd p) (fst p))
        (combine (seq 0 (List.length sections)) sections)
  /\ List.length (AIAnalyzer.clauses a) = List.length sections
  /\ (List.length (AIAnalyzer.clauses a) <= 20)%nat
  /\ map Clause.clause_id (AIAnalyzer.clauses a)
     = map (fun i => "clause_" ++ Str.of_nat i) (seq 0 (List.length sections)).
Proof.
  intros sections a.
  assert (E : AIAnalyzer.clauses a
              = map (fun p => AIAnalyzer._analyze_clause (snd p) (fst p))
                    (combine (seq 0 (List.length sections)) sections)).
  { subst a. unfold AIAnalyzer.analyze_document. cbn [AIAnalyzer.clauses].
    apply analyze_sections_all.
    eapply Forall_impl; [|apply split_into_clauses_sections].
    cbn beta. intros s [-> Hs]. lia. }
  assert (L : List.length (AIAnalyzer.clauses a) = List.length sections).
  { rewrite E, length_map, length_combine, length_seq. lia. }
  split; [exact E|]. split; [exact L|]. split.
  - rewrite L. subst sections. rewrite split_into_clauses_eq. apply firstn_le_length.
  - rewrite E. rewrite map_map.
    clear. generalize 0%nat as i. induction sections as [|s l IH]; intros i;
      [reflexivity|].
    cbn [List.length seq combine map fst snd]. rewrite IH. reflexivity.
Qed.

End Sections.

Section Records.

Lemma append_length (a b : string) :
  String.length (a ++ b) = (String.length a + String.length b)%nat.
Proof. induction a as [|c a IH]; simpl; [reflexivity | now rewrite IH]. Qed.

Lemma take_app_exact (n : nat) (s t : string) :
  (n <= String.length s)%nat -> Str.take n (Str.take n s ++ t) = Str.take n s.
Proof.
  revert s; induction n as [|n IH]; intros [|c s]; simpl; intros H; try lia;
    try reflexivity.
  rewrite IH; [reflexivity | lia].
Qed.

Lemma take_all (n : nat) (s : string) :
  (String.length s <= n)%nat -> Str.take n s = s.
Proof.
  revert s; induction n as [|n IH]; intros [|c s]; simpl; intros H; try lia;
    try reflexivity.
  rewrite IH; [reflexivity | lia].
Qed.

Lemma AI_factors_nonempty (text type : string) :
  factors (AIAnalyzer._assess_clause_risk text type) <> [].
Proof.
  unfold AIAnalyzer._assess_clause_risk.
  destruct (AIAnalyzer.raw_risk text type) as [rs [|f fs]]; discriminate.
Qed.

(** X2.  The ['content'] of a clause record is the clause text cut for
    display: it has at most 503 characters, never more than 3 above the
    text's, it agrees with the text on the first 500 characters and is the
    text itself when that has at most 500; and the record's list of risk
    factors is never empty. *)
Theorem clause_record_content (clause_text : string) (i : nat) :
  let c := AIAnalyzer._analyze_clause clause_text i in
  Str.len (Clause.content c) <= 503
  /\ Str.len (Clause.content c) <= Str.len clause_text + 3
  /\ Z.min (Str.len clause_text) 500 <= Str.len (Clause.content c)
  /\ Str.take 500 (Clause.content c) = Str.take 500 clause_text
  /\ (Str.len clause_text <= 500 -> Clause.content c = clause_text)
  /\ Clause.risk_factors c <> []
  /\ Clause.risk_factors c = factors (AIAnalyzer._assess_clause_risk clause_text (Clause.clause_type c)).
Proof.
  intros c. subst c. unfold AIAnalyzer._analyze_clause.
  cbn [Clause.content Clause.risk_factors Clause.clause_type].
  unfold Str.len.
  destruct (Z.ltb_spec 500 (Z.of_nat (String.length clause_text))) as [H|H].
  - assert (Hn : (500 <= String.length clause_text)%nat) by lia.
    rewrite append_length, take_length by exact Hn.
    change (String.length "...") with 3%nat.
    repeat split; try lia.
    + now apply take_app_exact.
    + apply AI_factors_nonempty.
  - repeat split; try lia. apply AI_factors_nonempty.
Qed.

End Records.

Section Parts.

Lemma part_of_refl (s : string) : part_of s s.
Proof. exists "", "". now rewrite append_empty_r. Qed.

Lemma part_of_trans (a b c : string) : part_of a b -> part_of b c -> part_of a c.
Proof.
  intros [x [y ->]] [u [v ->]]. exists (u ++ x), (y ++ v).
  now rewrite !append_assoc.
Qed.

Lemma part_of_cons (p s : string) (c : ascii) : part_of p s -> part_of p (String c s).
Proof. intros [a [b ->]]. now exists (String c a), b. Qed.

Lemma lstrip_part (s : string) : part_of (Str.lstrip s) s.
Proof.
  induction s as [|c s IH]; simpl; [apply part_of_refl|].
  destruct (Str.isspace c); [now apply part_of_cons | apply part_of_refl].
Qed.

Lemma rstrip_prefix (s : string) : exists b, s = Str.rstrip s ++ b.
Proof.
  induction s as [|c s [b IH]]; [now exists ""|].
  cbn [Str.rstrip]. cbv zeta.
  destruct (Str.isspace c && Str.is_empty (Str.rstrip s)).
  - now exists (String c s).
  - exists b. simpl. now rewrite <- IH.
Qed.

Lemma strip_part (s : string) : part_of (Str.strip s) s.
Proof.
  unfold Str.strip. apply part_of_trans with (Str.lstrip s); [|apply lstrip_part].
  destruct (rstrip_prefix (Str.lstrip s)) as [b Hb]. now exists "", b.
Qed.

Lemma drop_part (n : nat) (s : string) : part_of (Str.drop n s) s.
Proof.
  revert s; induction n as [|n IH]; intros [|c s]; simpl; try apply part_of_refl.
  apply part_of_cons, IH.
Qed.

(** The pieces of a split: the first is a prefix of what follows the
    characters to skip, the others are parts of the text. *)
Lemma re_split_go_parts (r : Re.regex) (s : string) :
  forall skip : nat,
  exists p0 rest,
    Re.split_go r skip s = p0 :: rest
    /\ (exists b, Str.drop skip s = p0 ++ b)
    /\ Forall (fun p => part_of p s) rest.
Proof.
  induction s as [|c s IH]; intros skip.
  - exists "", []. cbn [Re.split_go]. split; [reflexivity|]. split; [|constructor].
    exists "". now destruct skip.
  - cbn [Re.split_go]. destruct skip as [|k].
    + destruct (option_map _ (Re.match_at r (String c s))) as [[|n]|].
      * destruct (IH 0%nat) as [p0 [rest [E [[b Hb] Hrest]]]]. rewrite E.
        exists (String c p0), rest. split; [reflexivity|]. split.
        -- exists b. simpl in *. now rewrite Hb.
        -- eapply Forall_impl; [|exact Hrest]. intros p. apply part_of_cons.
      * destruct (IH n) as [p0 [rest [E [[b Hb] Hrest]]]]. rewrite E.
        exists "", (p0 :: rest). split; [reflexivity|]. split; [now exists (String c s)|].
        constructor.
        -- apply part_of_cons. apply part_of_trans with (Str.drop n s);
             [now exists "", b | apply drop_part].
        -- eapply Forall_impl; [|exact Hrest]. intros p. apply part_of_cons.
      * destruct (IH 0%nat) as [p0 [rest [E [[b Hb] Hrest]]]]. rewrite E.
        exists (String c p0), rest. split; [reflexivity|]. split.
        -- exists b. simpl in *. now rewrite Hb.
        -- eapply Forall_impl; [|exact Hrest]. intros p. apply part_of_cons.
    + destruct (IH k) as [p0 [rest [E [[b Hb] Hrest]]]]. rewrite E.
      exists p0, rest. split; [reflexivity|]. split; [now exists b|].
      eapply Forall_impl; [|exact Hrest]. intros p. apply part_of_cons.
Qed.

Lemma re_split_parts (r : Re.regex) (s : string) :
  Forall (fun p => part_of p s) (Re.split r s).
Proof.
  unfold Re.split. destruct (re_split_go_parts r s 0) as [p0 [rest [E [[b Hb] Hrest]]]].
  rewrite E. constructor; [|exact Hrest]. simpl in Hb. now exists "", b.
Qed.

Lemma split_pass_parts (text : string) (sections : list string) (pattern : Re.regex) :
  Forall (fun s => part_of s text) sections ->
  Forall (fun s => part_of s text) (AIAnalyzer.split_pass sections pattern).
Proof.
  intros H. unfold AIAnalyzer.split_pass, AIAnalyzer.stripped_parts.
  apply Forall_forall. intros s Hs.
  apply in_flat_map in Hs as [section [Hsec Hs]].
  apply in_flat_map in Hs as [p [Hp Hs]].
  destruct (Str.is_empty (Str.strip p)); simpl in Hs; [destruct Hs|].
  destruct Hs as [<-|[]].
  rewrite Forall_forall in H.
  pose proof (re_split_parts pattern section) as Hparts.
  rewrite Forall_forall in Hparts.
  eapply part_of_trans; [apply strip_part|].
  eapply part_of_trans; [apply Hparts, Hp | apply H, Hsec].
Qed.

Lemma fragments_parts (text : string) : Forall (fun s => part_of s text) (fragments text).
Proof.
  unfold fragments.
  apply (fold_left_invariant (fun l => Forall (fun s => part_of s text) l)).
  - constructor; [apply part_of_refl | constructor].
  - intros l r Hl. now apply split_pass_parts.
Qed.

Lemma str_split_go_parts (sep s : string) :
  forall skip : nat,
  exists p0 rest,
    Str.split_go sep skip s = p0 :: rest
    /\ (exists b, Str.drop skip s = p0 ++ b)
    /\ Forall (fun p => part_of p s) rest.
Proof.
  induction s as [|c s IH]; intros skip.
  - exists "", []. cbn [Str.split_go]. split; [reflexivity|]. split; [|constructor].
    exists "". now destruct skip.
  - cbn [Str.split_go]. destruct skip as [|k].
    + destruct (Str.startswith sep (String c s)).
      * destruct (IH (Nat.pred (String.length sep))) as [p0 [rest [E [[b Hb] Hrest]]]].
        rewrite E.
        exists "", (p0 :: rest). split; [reflexivity|]. split; [now exists (String c s)|].
        constructor.
        -- apply part_of_cons.
           apply part_of_trans with (Str.drop (Nat.pred (String.length sep)) s);
             [now exists "", b | apply drop_part].
        -- eapply Forall_impl; [|exact Hrest]. intros p. apply part_of_cons.
      * destruct (IH 0%nat) as [p0 [rest [E [[b Hb] Hrest]]]]. rewrite E.
        exists (String c p0), rest. split; [reflexivity|]. split.
        -- exists b. simpl in *. now rewrite Hb.
        -- eapply Forall_impl; [|exact Hrest]. intros p. apply part_of_cons.
    + destruct (IH k) as [p0 [rest [E [[b Hb] Hrest]]]]. rewrite E.
      exists p0, rest. split; [reflexivity|]. split; [now exists b|].
      eapply Forall_impl; [|exact Hrest]. intros p. apply part_of_cons.
Qed.

Lemma str_split_parts (sep s : string) :
  Forall (fun p => part_of p s) (Str.split sep s).
Proof.
  unfold Str.split. destruct (str_split_go_parts sep s 0) as [p0 [rest [E [[b Hb] Hrest]]]].
  rewrite E. constructor; [|exact Hrest]. simpl in Hb. now exists "", b.
Qed.

(** X3.  Segmentation only cuts: every clause that [_split_into_clauses]
    returns, and every paragraph of the fallback, is a contiguous part of
    the input text. *)
Theorem clauses_are_parts_of_text (text : string) :
  Forall (fun s => part_of s text) (AIAnalyzer._split_into_clauses text)
  /\ Forall (fun s => part_of s text) (AIAnalyzer.split_fallback text).
Proof.
  split.
  - rewrite split_into_clauses_eq. apply Forall_firstn, Forall_forall.
    intros s Hs. apply filter_In in Hs as [Hs _].
    pose proof (fragments_parts text) as H. rewrite Forall_forall in H. now apply H.
  - unfold AIAnalyzer.split_fallback. apply Forall_firstn, Forall_forall.
    intros s Hs. apply in_flat_map in Hs as [p [Hp Hs]].
    destruct (100 <? Str.len (Str.strip p)); simpl in Hs; [|destruct Hs].
    destruct Hs as [<-|[]].
    pose proof (str_split_parts (NL ++ NL) text) as H. rewrite Forall_forall in H.
    eapply part_of_trans; [apply strip_part | now apply H].
Qed.

End Parts.

Section NoNewline.

Lemma is_newline_eqb (c : ascii) :
  Str.is_code 10 c = Ascii.eqb (ascii_of_N 10) c.
Proof. destruct c as [[] [] [] [] [] [] [] []]; reflexivity. Qed.

Lemma no_newline_cons (c : ascii) (s : string) :
  Str.contains NL (String c s) = false ->
  Str.is_code 10 c = false /\ Str.contains NL s = false.
Proof.
  unfold NL. cbn [Str.contains Str.startswith]. intros H.
  apply orb_false_iff in H as [H1 H2]. split; [|exact H2].
  rewrite is_newline_eqb. destruct (Ascii.eqb (ascii_of_N 10) c); [|reflexivity].
  simpl in H1. destruct s; discriminate.
Qed.

Lemma re_split_no_newline (r : Re.regex) (s : string) :
  Str.contains NL s = false -> Re.split (Re.Seq Re.nl r) s = [s].
Proof.
  unfold Re.split. induction s as [|c s IH]; intros H; [reflexivity|].
  apply no_newline_cons in H as [Hc Hs].
  cbn [Re.split_go]. unfold Re.match_at. cbn [Re.run Re.nl]. rewrite Hc.
  cbn [option_map]. now rewrite (IH Hs).
Qed.

Lemma contains_part (w p s : string) :
  part_of p s -> Str.contains w p = true -> Str.contains w s = true.
Proof. intros [a [b ->]] H. now apply contains_app_r, contains_app_l. Qed.

Lemma strip_no_newline (s : string) :
  Str.contains NL s = false -> Str.contains NL (Str.strip s) = false.
Proof.
  intros H. destruct (Str.contains NL (Str.strip s)) eqn:E; [|reflexivity].
  now rewrite (contains_part _ _ _ (strip_part s) E) in H.
Qed.

End NoNewline.

Section NoNewline2.

Lemma split_pass_single (r : Re.regex) (s : string) :
  Str.contains NL s = false ->
  AIAnalyzer.split_pass [s] (Re.Seq Re.nl r)
  = if Str.is_empty (Str.strip s) then [] else [Str.strip s].
Proof.
  intros H. unfold AIAnalyzer.split_pass, AIAnalyzer.stripped_parts.
  cbn [flat_map]. rewrite (re_split_no_newline r s H). cbn [flat_map].
  rewrite !app_nil_r. reflexivity.
Qed.

Lemma passes_keep_single (seps : list Re.regex) (s : string) :
  Forall (fun r => exists r', r = Re.Seq Re.nl r') seps ->
  Str.contains NL s = false -> Str.strip s = s -> Str.is_empty s = false ->
  fold_left AIAnalyzer.split_pass seps [s] = [s].
Proof.
  intros Hseps Hnl Hstrip Hne. induction Hseps as [|r seps [r' ->] _ IH];
    [reflexivity|].
  cbn [fold_left]. rewrite (split_pass_single r' s Hnl), Hstrip, Hne. exact IH.
Qed.

Lemma passes_nil (seps : list Re.regex) :
  fold_left AIAnalyzer.split_pass seps [] = [].
Proof. induction seps as [|r seps IH]; [reflexivity | exact IH]. Qed.

Lemma separators_start_with_newline :
  Forall (fun r => exists r', r = Re.Seq Re.nl r') AIAnalyzer.clause_separators.
Proof. repeat constructor; eexists; reflexivity. Qed.

Lemma fragments_no_newline (text : string) :
  Str.contains NL text = false ->
  fragments text = if Str.is_empty (Str.strip text) then [] else [Str.strip text].
Proof.
  intros H. unfold fragments.
  pose proof separators_start_with_newline as Hseps.
  destruct AIAnalyzer.clause_separators as [|r seps] eqn:E; [discriminate|].
  inversion Hseps as [|? ? [r' ->] Hrest]; subst.
  cbn [fold_left]. rewrite (split_pass_single r' text H).
  destruct (Str.is_empty (Str.strip text)) eqn:Ee; [apply passes_nil|].
  apply passes_keep_single; auto using strip_no_newline, strip_idempotent.
Qed.

Lemma is_empty_len (s : string) : Str.is_empty s = true -> Str.len s = 0.
Proof. destruct s; [reflexivity | discriminate]. Qed.

(** X4.  A text without a newline is never split, since every separator
    starts with one: it gives the stripped text as its only clause when that
    is longer than 100 characters, and no clause otherwise. *)
Theorem text_without_newline_is_one_clause (text : string) :
  Str.contains NL text = false ->
  AIAnalyzer._split_into_clauses text
  = if 100 <? Str.len (Str.strip text) then [Str.strip text] else [].
Proof.
  intros H. rewrite split_into_clauses_eq, (fragments_no_newline text H).
  destruct (Str.is_empty (Str.strip text)) eqn:E.
  - rewrite (is_empty_len _ E). reflexivity.
  - cbn [filter]. destruct (100 <? Str.len (Str.strip text)); reflexivity.
Qed.

End NoNewline2.

Section Stems.

Lemma run_stem {A : Type} (r : Re.regex) :
  forall (s : string) (cap : option string) (k : Re.cont A) (x : A),
    Re.run r s cap k = Some x -> Str.startswith (stem r) s = true.
Proof.
  induction r as [l|p|p lo|r IH|r1 IH1 r2 IH2|r1 IH1 r2 IH2|r IH];
    intros s cap k x H; try reflexivity.
  - simpl in *. now destruct (Str.startswith l s).
  - simpl in *. now apply IH1 in H.
Qed.

Lemma found_stem (r : Re.regex) (s : string) :
  Re.found r s = true -> Str.contains (stem r) s = true.
Proof.
  unfold Re.found. induction s as [|c s IH]; cbn [Re.search].
  - destruct (Re.match_at r "") as [m|] eqn:E; [|discriminate]. intros _.
    unfold Re.match_at in E. apply run_stem in E. cbn [Str.contains]. now rewrite E.
  - destruct (Re.match_at r (String c s)) as [m|] eqn:E.
    + intros _. unfold Re.match_at in E. apply run_stem in E.
      cbn [Str.contains]. now rewrite E.
    + intros H. cbn [Str.contains]. rewrite (IH H). apply orb_true_r.
Qed.

Lemma any_in_map {A : Type} (f : A -> string) (l : list A) (t : string) :
  any_in (map f l) t = existsb (fun x => Str.contains (f x) t) l.
Proof. unfold any_in. induction l as [|x l IH]; simpl; [reflexivity | now rewrite IH]. Qed.

Lemma type_found_stems (key text : string) :
  type_found key text = true -> any_in (stems key) (Str.lower text) = true.
Proof.
  unfold type_found, stems. rewrite any_in_map. apply existsb_mono.
  intros p _. apply found_stem.
Qed.

Lemma many_zero_total {A : Type} (p : ascii -> bool) (s : string) (k : string -> option A) :
  (forall s', k s' <> None) -> Re.many p 0 s k <> None.
Proof.
  intros Hk. induction s as [|c r IH]; cbn [Re.many]; [apply Hk|].
  destruct (p c); [|apply Hk]. cbn [Nat.pred].
  destruct (Re.many p 0 r k); [discriminate | apply Hk].
Qed.

Lemma found_of_contains (r : Re.regex) (l s : string) :
  (forall s', Str.startswith l s' = true -> Re.match_at r s' <> None) ->
  Str.contains l s = true -> Re.found r s = true.
Proof.
  intros Hr. unfold Re.found. induction s as [|c s IH]; cbn [Str.contains Re.search].
  - rewrite orb_false_r. intros H. apply Hr in H.
    now destruct (Re.match_at r "").
  - intros H. destruct (Re.match_at r (String c s)) eqn:E; [reflexivity|].
    apply orb_true_iff in H as [H|H]; [now apply Hr in H|]. now apply IH.
Qed.

Lemma found_lit (l s : string) :
  Str.contains l s = true -> Re.found (Re.Lit l) s = true.
Proof.
  apply found_of_contains. intros s' H. unfold Re.match_at. cbn [Re.run].
  rewrite H. discriminate.
Qed.

Lemma found_lit_word (l s : string) :
  Str.contains l s = true -> Re.found (Re.Seq (Re.Lit l) Re.w_star) s = true.
Proof.
  apply found_of_contains. intros s' H. unfold Re.match_at. cbn [Re.run Re.w_star].
  rewrite H. apply many_zero_total. discriminate.
Qed.

Lemma identify_of_first (text : string) :
  type_found "termination" text = true ->
  AIAnalyzer._identify_clause_type text = "termination".
Proof.
  intros H. unfold AIAnalyzer._identify_clause_type.
  rewrite first_matching_type_eq, H. reflexivity.
Qed.

(** X5.  A text that contains, in any letter case, one of the stems
    "terminat", "expire", "dissolution" or "cancell" is classified as a
    termination clause, whatever else it contains and wherever the stem
    stands in a word. *)
Theorem termination_stems_decide (text : string) :
  any_in ["terminat"; "expire"; "dissolution"; "cancell"] (Str.lower text) = true ->
  AIAnalyzer._identify_clause_type text = "termination".
Proof.
  intros H. apply identify_of_first. unfold type_found.
  unfold any_in in H. cbn [existsb] in H. rewrite orb_false_r in H.
  apply existsb_exists.
  apply orb_true_iff in H as [H|H];
    [|apply orb_true_iff in H as [H|H]; [|apply orb_true_iff in H as [H|H]]].
  - eexists. split; [left; reflexivity|]. now apply found_lit_word.
  - eexists. split; [right; right; left; reflexivity|]. now apply found_lit_word.
  - eexists. split; [right; right; right; left; reflexivity|]. now apply found_lit.
  - eexists. split; [right; right; right; right; left; reflexivity|].
    now apply found_lit_word.
Qed.

(** X6.  The classifier gives a type only to a text that contains, lower
    cased, the literal head of one of the type's patterns (or one of the
    words of the fallback): for each of the six pattern types and the two
    fallback types, the words one of which must be present. *)
Theorem pattern_type_needs_stem (text : string) :
  let result := AIAnalyzer._identify_clause_type text in
  let text_lower := Str.lower text in
  (result = "termination" ->
   any_in ["terminat"; "end"; "expire"; "dissolution"; "cancell"] text_lower = true)
  /\ (result = "liability" ->
      any_in ["liabilit"; "responsible"; "damage"; "loss"; "indemnif"; "hold"]
             text_lower = true)
  /\ (result = "payment" ->
      any_in ["payment"; "pay"; "fee"; "cost"; "price"; "invoice"; "billing"; "charge"]
             text_lower = true)
  /\ (result = "confidentiality" ->
      any_in ["confidential"; "non"; "proprietary"; "trade"; "private"] text_lower = true)
  /\ (result = "intellectual_property" ->
      any_in ["intellectual"; "copyright"; "trademark"; "patent"; "ownership"]
             text_lower = true)
  /\ (result = "dispute_resolution" ->
      any_in ["dispute"; "arbitration"; "mediation"; "court"; "jurisdiction"; "governing"]
             text_lower = true)
  /\ (result = "obligation" ->
      any_in ["shall"; "will"; "must"; "required"] text_lower = true)
  /\ (result = "right" ->
      any_in ["may"; "can"; "permitted"; "allowed"] text_lower = true).
Proof.
  intros result text_lower. subst result text_lower.
  unfold AIAnalyzer._identify_clause_type. rewrite first_matching_type_eq.
  pose proof (type_found_stems "termination" text) as H1.
  pose proof (type_found_stems "liability" text) as H2.
  pose proof (type_found_stems "payment" text) as H3.
  pose proof (type_found_stems "confidentiality" text) as H4.
  pose proof (type_found_stems "intellectual_property" text) as H5.
  pose proof (type_found_stems "dispute_resolution" text) as H6.
  change (stems "termination")
    with ["terminat"; "end"; "expire"; "dissolution"; "cancell"] in H1.
  change (stems "liability")
    with ["liabilit"; "responsible"; "damage"; "loss"; "indemnif"; "hold"] in H2.
  change (stems "payment")
    with ["payment"; "pay"; "fee"; "cost"; "price"; "invoice"; "billing"; "charge"] in H3.
  change (stems "confidentiality")
    with ["confidential"; "non"; "proprietary"; "trade"; "private"] in H4.
  change (stems "intellectual_property")
    with ["intellectual"; "copyright"; "trademark"; "patent"; "ownership"] in H5.
  change (stems "dispute_resolution")
    with ["dispute"; "arbitration"; "mediation"; "court"; "jurisdiction"; "governing"]
    in H6.
  destruct (type_found "termination" text);
    [repeat split; intros E; try discriminate E; now apply H1|].
  destruct (type_found "liability" text);
    [repeat split; intros E; try discriminate E; now apply H2|].
  destruct (type_found "payment" text);
    [repeat split; intros E; try discriminate E; now apply H3|].
  destruct (type_found "confidentiality" text);
    [repeat split; intros E; try discriminate E; now apply H4|].
  destruct (type_found "intellectual_property" text);
    [repeat split; intros E; try discriminate E; now apply H5|].
  destruct (type_found "dispute_resolution" text);
    [repeat split; intros E; try discriminate E; now apply H6|].
  destruct (any_in ["shall"; "will"; "must"; "required"] (Str.lower text)) eqn:Eo;
    [repeat split; intros E; try discriminate E; reflexivity|].
  destruct (any_in ["may"; "can"; "permitted"; "allowed"] (Str.lower text)) eqn:Er;
    repeat split; intros E; try discriminate E; reflexivity.
Qed.

End Stems.

Section Themes.

Lemma any_char_in_true (chars text : string) (c : ascii) :
  Str.contains (String c "") chars = true ->
  Str.contains (String c "") text = true ->
  Str.any_char_in chars text = true.
Proof.
  intros Hc Ht. induction chars as [|d chars IH]; [discriminate|].
  cbn [Str.any_char_in]. cbn [Str.contains Str.startswith] in Hc.
  destruct (Ascii.eqb_spec c d) as [<-|_].
  - now rewrite Ht.
  - cbn [andb orb] in Hc. rewrite (IH Hc). apply orb_true_r.
Qed.

Lemma theme_present_a (text_lower : string) :
  Str.contains "a" text_lower = true ->
  AIAnalyzer.theme_present "termination" text_lower = true
  /\ AIAnalyzer.theme_present "payment" text_lower = true
  /\ AIAnalyzer.theme_present "liability" text_lower = true
  /\ AIAnalyzer.theme_present "confidentiality" text_lower = true.
Proof.
  intros H. unfold AIAnalyzer.theme_present.
  repeat split; apply existsb_exists; eexists;
    (split; [left; reflexivity|]);
    cbn [src]; (apply (any_char_in_true _ _ "a"%char); [reflexivity | exact H]).
Qed.

(** X7.  The theme tests of [_generate_summary] iterate over the characters
    of the pattern texts, not over the patterns: every text that contains
    the letter a, in either case, is reported to cover all four themes,
    whether or not a pattern matches. *)
Theorem summary_lists_every_theme (text filename : string) :
  Str.contains "a" (Str.lower text) = true ->
  AIAnalyzer._generate_summary text filename
  = "This " ++ AIAnalyzer._detect_document_type text
    ++ " document (" ++ filename ++ ") contains approximately "
    ++ Str.of_nat (List.length (Str.split_ws text)) ++ " words. "
    ++ "The document has been analyzed and contains "
    ++ Str.of_nat (List.length (AIAnalyzer._split_into_clauses text))
    ++ " major clauses or sections. "
    ++ "Key areas covered include: contract termination, payment terms, liability provisions, confidentiality requirements.".
Proof.
  intros H. unfold AIAnalyzer._generate_summary. cbv zeta.
  destruct (theme_present_a _ H) as [H1 [H2 [H3 H4]]].
  rewrite H1, H2, H3, H4. cbn [app].
  change (Str.join ", " _)
    with "contract termination, payment terms, liability provisions, confidentiality requirements".
  rewrite !append_assoc. reflexivity.
Qed.

End Themes.


Section ExtraWitnesses1.

Lemma clause_record_content_witness :
  Str.len forfeiture_clause <= 500
  /\ Clause.content (AIAnalyzer._analyze_clause forfeiture_clause 0) = forfeiture_clause.
Proof.
  assert (H : Str.len forfeiture_clause <= 500) by (vm_compute; discriminate).
  split; [exact H|].
  apply (clause_record_content forfeiture_clause 0). exact H.
Defined.

Lemma text_without_newline_is_one_clause_witness :
  Str.contains NL forfeiture_clause = false
  /\ AIAnalyzer._split_into_clauses forfeiture_clause
     = if 100 <? Str.len (Str.strip forfeiture_clause)
       then [Str.strip forfeiture_clause] else [].
Proof.
  split; [reflexivity|].
  apply (text_without_newline_is_one_clause forfeiture_clause). reflexivity.
Defined.

Lemma termination_stems_decide_witness :
  any_in ["terminat"; "expire"; "dissolution"; "cancell"]
         (Str.lower terminate_and_damages_clause) = true
  /\ AIAnalyzer._identify_clause_type terminate_and_damages_clause = "termination".
Proof.
  split; [reflexivity|].
  apply (termination_stems_decide terminate_and_damages_clause). reflexivity.
Defined.

Lemma pattern_type_needs_stem_witness :
  AIAnalyzer._identify_clause_type terminate_and_damages_clause = "termination"
  /\ any_in ["terminat"; "end"; "expire"; "dissolution"; "cancell"]
            (Str.lower terminate_and_damages_clause) = true.
Proof.
  split; [reflexivity|].
  exact (proj1 (pattern_type_needs_stem terminate_and_damages_clause) eq_refl).
Defined.

Lemma summary_lists_every_theme_witness :
  Str.contains "a" (Str.lower forfeiture_clause) = true
  /\ AIAnalyzer._generate_summary forfeiture_clause "a.pdf"
     = "This Legal Document document (a.pdf) contains approximately 22 words. The document has been analyzed and contains 1 major clauses or sections. Key areas covered include: contract termination, payment terms, liability provisions, confidentiality requirements.".
Proof.
  split; [reflexivity|].
  rewrite (summary_lists_every_theme forfeiture_clause "a.pdf" eq_refl).
  vm_compute. reflexivity.
Defined.

End ExtraWitnesses1.

(* ------------------------------------------------------------------ *)
(** ** Aggregation over the clauses of a document *)

Section Loop.

Lemma loop_step_scores (st : RiskAnalyzer.loop_state) (c : Clause.clause) :
  RiskAnalyzer.individual_risks (RiskAnalyzer.loop_step st c)
  = (RiskAnalyzer.individual_risks st ++ [doc_score c])%list.
Proof.
  unfold RiskAnalyzer.loop_step, doc_score.
  cbn [RiskAnalyzer.individual_risks RiskAnalyzer.collected_factors
       RiskAnalyzer.clause_risk_breakdown].
  reflexivity.
Qed.

Lemma loop_step_factors (st : RiskAnalyzer.loop_state) (c : Clause.clause) :
  RiskAnalyzer.collected_factors (RiskAnalyzer.loop_step st c)
  = (RiskAnalyzer.collected_factors st
     ++ factors (RiskAnalyzer._analyze_clause_risk c))%list.
Proof.
  unfold RiskAnalyzer.loop_step, doc_score.
  cbn [RiskAnalyzer.individual_risks RiskAnalyzer.collected_factors
       RiskAnalyzer.clause_risk_breakdown].
  reflexivity.
Qed.

Lemma loop_step_breakdown (st : RiskAnalyzer.loop_state) (c : Clause.clause) :
  RiskAnalyzer.clause_risk_breakdown (RiskAnalyzer.loop_step st c)
  = RiskAnalyzer.breakdown_add (Clause.clause_type c) (doc_score c)
                               (RiskAnalyzer.clause_risk_breakdown st).
Proof.
  unfold RiskAnalyzer.loop_step, doc_score.
  cbn [RiskAnalyzer.individual_risks RiskAnalyzer.collected_factors
       RiskAnalyzer.clause_risk_breakdown].
  reflexivity.
Qed.

Lemma loop_from (clauses : list Clause.clause) (st : RiskAnalyzer.loop_state) :
  RiskAnalyzer.individual_risks (fold_left RiskAnalyzer.loop_step clauses st)
  = (RiskAnalyzer.individual_risks st ++ map doc_score clauses)%list
  /\ RiskAnalyzer.collected_factors (fold_left RiskAnalyzer.loop_step clauses st)
     = (RiskAnalyzer.collected_factors st
        ++ flat_map (fun c => factors (RiskAnalyzer._analyze_clause_risk c)) clauses)%list.
Proof.
  revert st; induction clauses as [|c clauses IH]; intros st; cbn [fold_left map flat_map].
  - rewrite !app_nil_r. split; reflexivity.
  - destruct (IH (RiskAnalyzer.loop_step st c)) as [H1 H2]. rewrite H1, H2.
    rewrite loop_step_scores, loop_step_factors, <- !app_assoc. split; reflexivity.
Qed.

Lemma loop_scores (clauses : list Clause.clause) :
  RiskAnalyzer.individual_risks (RiskAnalyzer.loop clauses) = map doc_score clauses.
Proof. exact (proj1 (loop_from clauses _)). Qed.

Lemma loop_factors (clauses : list Clause.clause) :
  RiskAnalyzer.collected_factors (RiskAnalyzer.loop clauses)
  = flat_map (fun c => factors (RiskAnalyzer._analyze_clause_risk c)) clauses.
Proof. exact (proj2 (loop_from clauses _)). Qed.

Lemma fold_max_spec (l : list Z) (x : Z) :
  (fold_left Z.max l x = x \/ In (fold_left Z.max l x) l)
  /\ x <= fold_left Z.max l x
  /\ Forall (fun y => y <= fold_left Z.max l x) l.
Proof.
  revert x; induction l as [|y l IH]; intros x; cbn [fold_left].
  - repeat split; [now left | lia | constructor].
  - destruct (IH (Z.max x y)) as [H1 [H2 H3]]. repeat split.
    + destruct H1 as [H1|H1]; [|right; now right].
      destruct (Z.max_spec x y) as [[_ E]|[_ E]].
      * right; left. congruence.
      * left. congruence.
    + lia.
    + constructor; [lia | exact H3].
Qed.

Lemma max_of_spec (l : list Z) :
  l <> [] ->
  In (RiskAnalyzer.max_of l) l /\ Forall (fun y => y <= RiskAnalyzer.max_of l) l.
Proof.
  destruct l as [|x l]; [contradiction|]. intros _. unfold RiskAnalyzer.max_of.
  destruct (fold_max_spec l x) as [H1 [H2 H3]]. split.
  - destruct H1 as [->|H1]; [now left | now right].
  - constructor; assumption.
Qed.

Lemma count_pos_iff (p : Z -> bool) (l : list Z) :
  (1 <= RiskAnalyzer.count p l)%nat <-> exists x, In x l /\ p x = true.
Proof.
  unfold RiskAnalyzer.count. induction l as [|x l IH]; simpl.
  - split; [lia | intros [x [[] _]]].
  - destruct (p x) eqn:E; simpl.
    + split; [intros _; exists x; auto | lia].
    + rewrite IH. split; intros [y [Hy Hp]]; [exists y; auto|].
      destruct Hy as [<-|Hy]; [congruence | exists y; auto].
Qed.

End Loop.

Section Fields.

Context {F : FloatOps}.

Lemma assess_fields (c0 : Clause.clause) (rest : list Clause.clause) :
  let clauses := c0 :: rest in
  let a := RiskAnalyzer.assess_risk clauses in
  let scores := map doc_score clauses in
  RiskAnalyzer.total_clauses a = List.length clauses
  /\ RiskAnalyzer.max_risk_score a = RiskAnalyzer.max_of scores
  /\ RiskAnalyzer.high_risk_clauses a = RiskAnalyzer.count (fun score => 7 <=? score) scores
  /\ RiskAnalyzer.overall_risk a
     = RiskAnalyzer._determine_overall_risk
         (truediv (RiskAnalyzer.sum scores) (Z.of_nat (List.length scores)))
         (RiskAnalyzer.max_of scores)
         (RiskAnalyzer.count (fun score => 7 <=? score) scores)
  /\ RiskAnalyzer.risk_distribution a = RiskAnalyzer._calculate_risk_distribution scores
  /\ RiskAnalyzer.clause_breakdown a
     = RiskAnalyzer.clause_risk_breakdown (RiskAnalyzer.loop clauses)
  /\ RiskAnalyzer.risk_factors a
     = RiskAnalyzer.distinct
         (flat_map (fun c => factors (RiskAnalyzer._analyze_clause_risk c)) clauses).
Proof.
  intros clauses a scores. subst scores.
  rewrite <- (loop_scores clauses), <- (loop_factors clauses).
  repeat split.
Qed.

End Fields.

Section Statistics.

Context {F : FloatOps}.

Lemma doc_score_range (c : Clause.clause) : 1 <= doc_score c <= 10.
Proof. unfold doc_score. rewrite Risk_score_eq. apply clamp_range. Qed.

Lemma count_map (p : Z -> bool) (clauses : list Clause.clause) :
  RiskAnalyzer.count p (map doc_score clauses)
  = List.length (filter (fun c => p (doc_score c)) clauses).
Proof.
  unfold RiskAnalyzer.count. induction clauses as [|c l IH]; [reflexivity|].
  cbn [map filter]. destruct (p (doc_score c)); cbn [List.length]; now rewrite IH.
Qed.

(** X8. For a non-empty clause list, [assess_risk] reports as total the number
    of clauses, as maximum a score between 1 and 10 that some clause has and
    that no clause exceeds, and as high-risk count the number of clauses
    scoring 7 or more; that count is at most the total, and it is positive
    exactly when the maximum is at least 7. *)
Theorem assess_risk_statistics (clauses : list Clause.clause) :
  clauses <> [] ->
  let a := RiskAnalyzer.assess_risk clauses in
  RiskAnalyzer.total_clauses a = List.length clauses
  /\ 1 <= RiskAnalyzer.max_risk_score a <= 10
  /\ (exists c, In c clauses /\ doc_score c = RiskAnalyzer.max_risk_score a)
  /\ (forall c, In c clauses -> doc_score c <= RiskAnalyzer.max_risk_score a)
  /\ RiskAnalyzer.high_risk_clauses a
     = List.length (filter (fun c => 7 <=? doc_score c) clauses)
  /\ (RiskAnalyzer.high_risk_clauses a <= RiskAnalyzer.total_clauses a)%nat
  /\ ((1 <= RiskAnalyzer.high_risk_clauses a)%nat <-> 7 <= RiskAnalyzer.max_risk_score a).
Proof.
  intros Hne. destruct clauses as [|c0 rest]; [contradiction|].
  set (clauses := c0 :: rest). intros a.
  destruct (assess_fields c0 rest) as [Ht [Hm [Hh _]]].
  fold clauses a in Ht, Hm, Hh.
  assert (Hs : map doc_score clauses <> []) by discriminate.
  destruct (max_of_spec _ Hs) as [Hin Hall]. rewrite <- Hm in Hin, Hall.
  apply in_map_iff in Hin as [cm [Hcm Hcmin]].
  rewrite Forall_forall in Hall.
  assert (Hle : forall c, In c clauses -> doc_score c <= RiskAnalyzer.max_risk_score a)
    by (intros c Hc; apply Hall, in_map, Hc).
  rewrite Hh, count_map.
  split; [exact Ht|].
  split; [rewrite <- Hcm; apply doc_score_range|].
  split; [now exists cm|].
  split; [exact Hle|].
  split; [reflexivity|].
  split; [rewrite Ht; apply filter_length_le|].
  split.
  - intros H. destruct (filter (fun c => 7 <=? doc_score c) clauses) as [|c l] eqn:E;
      [simpl in H; lia|].
    assert (Hc : In c (filter (fun c => 7 <=? doc_score c) clauses))
      by (rewrite E; now left).
    apply filter_In in Hc as [Hc H7]. apply Z.leb_le in H7.
    specialize (Hle c Hc). lia.
  - intros H.
    assert (Hc : In cm (filter (fun c => 7 <=? doc_score c) clauses)).
    { apply filter_In. split; [exact Hcmin|]. apply Z.leb_le. lia. }
    destruct (filter (fun c => 7 <=? doc_score c) clauses); [destruct Hc | simpl; lia].
Qed.

(** X9. For a non-empty clause list the overall level is never unknown; a
    maximum score of 9 or more, or three high-risk clauses, make it high
    whatever the average is; medium leaves the maximum at most 8 and at most
    two high-risk clauses; low leaves the maximum at most 6 and no high-risk
    clause. *)
Theorem overall_risk_and_scores (clauses : list Clause.clause) :
  clauses <> [] ->
  let a := RiskAnalyzer.assess_risk clauses in
  RiskAnalyzer.overall_risk a <> "unknown"
  /\ (9 <= RiskAnalyzer.max_risk_score a -> RiskAnalyzer.overall_risk a = "high")
  /\ ((3 <= RiskAnalyzer.high_risk_clauses a)%nat -> RiskAnalyzer.overall_risk a = "high")
  /\ (RiskAnalyzer.overall_risk a = "medium" ->
      RiskAnalyzer.max_risk_score a <= 8 /\ (RiskAnalyzer.high_risk_clauses a <= 2)%nat)
  /\ (RiskAnalyzer.overall_risk a = "low" ->
      RiskAnalyzer.max_risk_score a <= 6 /\ RiskAnalyzer.high_risk_clauses a = 0%nat).
Proof.
  intros Hne. destruct clauses as [|c0 rest]; [contradiction|].
  set (clauses := c0 :: rest). intros a.
  destruct (assess_fields c0 rest) as [_ [Hm [Hh [Ho _]]]].
  fold clauses a in Hm, Hh, Ho. rewrite <- Hm, <- Hh in Ho. rewrite Ho.
  unfold RiskAnalyzer._determine_overall_risk.
  destruct (ge_int _ 7); destruct (ge_int _ 5);
    destruct (Z.leb_spec 9 (RiskAnalyzer.max_risk_score a));
    destruct (Z.leb_spec 7 (RiskAnalyzer.max_risk_score a));
    destruct (Nat.leb_spec 3 (RiskAnalyzer.high_risk_clauses a));
    destruct (Nat.leb_spec 1 (RiskAnalyzer.high_risk_clauses a));
    cbn [orb]; repeat split; intros; try discriminate; try reflexivity; try lia.
Qed.

End Statistics.

Section Distribution.

Context {F : FloatOps}.

Lemma doc_level_eq (c : Clause.clause) :
  doc_level c = RiskAnalyzer._score_to_level (doc_score c).
Proof. unfold doc_level, doc_score. apply Risk_level_eq. Qed.

Lemma filter_ext_length {A : Type} (p q : A -> bool) (l : list A) :
  (forall x, p x = q x) -> List.length (filter p l) = List.length (filter q l).
Proof. intros H. now rewrite (filter_ext _ _ H). Qed.

Lemma three_way_partition {A : Type} (p q r : A -> bool) (l : list A) :
  (forall x, (p x = true /\ q x = false /\ r x = false)
             \/ (p x = false /\ q x = true /\ r x = false)
             \/ (p x = false /\ q x = false /\ r x = true)) ->
  (List.length (filter p l) + List.length (filter q l) + List.length (filter r l)
   = List.length l)%nat.
Proof.
  intros H. induction l as [|x l IH]; [reflexivity|].
  cbn [filter List.length].
  destruct (H x) as [[-> [-> ->]]|[[-> [-> ->]]|[-> [-> ->]]]];
    cbn [List.length]; lia.
Qed.

(** X10. The three counts of the risk distribution add up to the number of
    clauses; each is the number of clauses whose recomputed level is low,
    medium or high, and the high count is the reported number of high-risk
    clauses. *)
Theorem risk_distribution_counts (clauses : list Clause.clause) :
  clauses <> [] ->
  let a := RiskAnalyzer.assess_risk clauses in
  exists low_count medium_count high_count : nat,
    RiskAnalyzer.Distribution.counts (RiskAnalyzer.risk_distribution a)
    = Some (low_count, medium_count, high_count)
    /\ (low_count + medium_count + high_count)%nat = RiskAnalyzer.total_clauses a
    /\ high_count = RiskAnalyzer.high_risk_clauses a
    /\ low_count = List.length (filter (fun c => String.eqb (doc_level c) "low") clauses)
    /\ medium_count
       = List.length (filter (fun c => String.eqb (doc_level c) "medium") clauses)
    /\ high_count = List.length (filter (fun c => String.eqb (doc_level c) "high") clauses).
Proof.
  intros Hne. destruct clauses as [|c0 rest]; [contradiction|].
  set (clauses := c0 :: rest). intros a.
  destruct (assess_fields c0 rest) as [Ht [_ [Hh [_ [Hd _]]]]].
  fold clauses a in Ht, Hh, Hd. rewrite Hd, Ht, Hh.
  unfold RiskAnalyzer._calculate_risk_distribution.
  change (map doc_score clauses) with (doc_score c0 :: map doc_score rest) at 1.
  cbv zeta. cbn [RiskAnalyzer.Distribution.counts].
  change (doc_score c0 :: map doc_score rest) with (map doc_score clauses).
  rewrite !count_map.
  assert (Elow : forall c, (doc_score c <? 4) = String.eqb (doc_level c) "low").
  { intros c. rewrite doc_level_eq. unfold RiskAnalyzer._score_to_level.
    destruct (Z.ltb_spec (doc_score c) 4); destruct (Z.leb_spec 7 (doc_score c));
      destruct (Z.leb_spec 4 (doc_score c)); try reflexivity; lia. }
  assert (Emed : forall c, ((4 <=? doc_score c) && (doc_score c <? 7))
                           = String.eqb (doc_level c) "medium").
  { intros c. rewrite doc_level_eq. unfold RiskAnalyzer._score_to_level.
    destruct (Z.ltb_spec (doc_score c) 7); destruct (Z.leb_spec 7 (doc_score c));
      destruct (Z.leb_spec 4 (doc_score c)); try reflexivity; lia. }
  assert (Ehigh : forall c, (7 <=? doc_score c) = String.eqb (doc_level c) "high").
  { intros c. rewrite doc_level_eq. unfold RiskAnalyzer._score_to_level.
    destruct (Z.leb_spec 7 (doc_score c));
      destruct (Z.leb_spec 4 (doc_score c)); try reflexivity; lia. }
  eexists _, _, _. split; [reflexivity|].
  split; [|split; [reflexivity|split; [|split]]].
  - apply three_way_partition. intros c.
    destruct (Z.ltb_spec (doc_score c) 4); destruct (Z.leb_spec 7 (doc_score c));
      destruct (Z.leb_spec 4 (doc_score c)); destruct (Z.ltb_spec (doc_score c) 7);
      cbn [andb]; try lia; tauto.
  - apply filter_ext_length, Elow.
  - apply filter_ext_length, Emed.
  - apply filter_ext_length, Ehigh.
Qed.

End Distribution.

Section Breakdown.

Context {F : FloatOps}.

Lemma get_breakdown_add (k k' : string) (v : Z) (d : list (string * list Z)) :
  get (RiskAnalyzer.breakdown_add k v d) k' []
  = if String.eqb k k' then (get d k' [] ++ [v])%list else get d k' [].
Proof.
  induction d as [|[k0 vs] d IH]; cbn [RiskAnalyzer.breakdown_add get].
  - destruct (String.eqb k k'); reflexivity.
  - destruct (String.eqb_spec k0 k) as [->|Hne]; cbn [get].
    + destruct (String.eqb k k'); reflexivity.
    + destruct (String.eqb_spec k0 k') as [->|Hne'].
      * destruct (String.eqb_spec k k') as [->|_]; [contradiction | reflexivity].
      * exact IH.
Qed.

Lemma loop_breakdown_from (clauses : list Clause.clause) (st : RiskAnalyzer.loop_state)
      (k : string) :
  get (RiskAnalyzer.clause_risk_breakdown (fold_left RiskAnalyzer.loop_step clauses st)) k []
  = (get (RiskAnalyzer.clause_risk_breakdown st) k []
     ++ map doc_score (filter (fun c => String.eqb (Clause.clause_type c) k) clauses))%list.
Proof.
  revert st; induction clauses as [|c clauses IH]; intros st; cbn [fold_left filter].
  - now rewrite app_nil_r.
  - rewrite IH, loop_step_breakdown, get_breakdown_add.
    destruct (String.eqb (Clause.clause_type c) k); cbn [map];
      [now rewrite <- app_assoc | reflexivity].
Qed.

Lemma breakdown_keys_from (clauses : list Clause.clause) (st : RiskAnalyzer.loop_state)
      (k : string) :
  In k (map fst (RiskAnalyzer.clause_risk_breakdown
                   (fold_left RiskAnalyzer.loop_step clauses st)))
  <-> In k (map fst (RiskAnalyzer.clause_risk_breakdown st))
      \/ exists c, In c clauses /\ Clause.clause_type c = k.
Proof.
  revert st; induction clauses as [|c clauses IH]; intros st; cbn [fold_left].
  - split; [now left | intros [H|[c [[] _]]]; exact H].
  - rewrite IH, loop_step_breakdown. clear IH.
    assert (Hadd : forall d v, In k (map fst (RiskAnalyzer.breakdown_add (Clause.clause_type c) v d))
                               <-> Clause.clause_type c = k \/ In k (map fst d)).
    { intros d v. induction d as [|[k0 vs] d IHd]; cbn [RiskAnalyzer.breakdown_add map fst In].
      - tauto.
      - destruct (String.eqb_spec k0 (Clause.clause_type c)) as [->|Hne];
          cbn [map fst In]; [tauto|]. rewrite IHd. tauto. }
    rewrite Hadd. split.
    + intros [[H|H]|[c' [Hc' Ht]]]; [right; exists c; split; [now left | exact H]
                                     | now left
                                     | right; exists c'; split; [now right | exact Ht]].
    + intros [H|[c' [[<-|Hc'] Ht]]]; [left; now right | left; now left
                                      | right; now exists c'].
Qed.

(** X11. The clause breakdown has one entry per clause type that occurs, and
    no other; the entry of a type lists the scores of the clauses of that
    type, in document order. *)
Theorem clause_breakdown_groups (clauses : list Clause.clause) :
  clauses <> [] ->
  let a := RiskAnalyzer.assess_risk clauses in
  NoDup (map fst (RiskAnalyzer.clause_breakdown a))
  /\ (forall k : string,
         In k (map fst (RiskAnalyzer.clause_breakdown a))
         <-> exists c, In c clauses /\ Clause.clause_type c = k)
  /\ (forall k : string,
         get (RiskAnalyzer.clause_breakdown a) k []
         = map doc_score (filter (fun c => String.eqb (Clause.clause_type c) k) clauses)).
Proof.
  intros Hne. destruct clauses as [|c0 rest]; [contradiction|].
  set (clauses := c0 :: rest). intros a.
  destruct (assess_fields c0 rest) as [_ [_ [_ [_ [_ [Hb _]]]]]].
  fold clauses a in Hb. rewrite Hb. split; [apply loop_breakdown_nodup|]. split.
  - intros k. unfold RiskAnalyzer.loop. rewrite breakdown_keys_from.
    cbn [RiskAnalyzer.clause_risk_breakdown map In]. tauto.
  - intros k. unfold RiskAnalyzer.loop. now rewrite loop_breakdown_from.
Qed.

End Breakdown.

Section Factors.

Lemma scan_terms_snd (label : string) (weight : Z) (text : string)
      (terms : list string) (acc : Z * list string) :
  snd (scan_terms label weight text terms acc)
  = (snd acc ++ map (factor_of label) (matched terms text))%list.
Proof.
  unfold scan_terms, matched. revert acc.
  induction terms as [|term terms IH]; intros acc; cbn [fold_left filter map].
  - now rewrite app_nil_r.
  - rewrite IH. destruct (Str.contains (Str.lower term) text); cbn [snd map].
    + now rewrite <- app_assoc.
    + reflexivity.
Qed.

Lemma check_additional_snd (clause_text : string) (current_score : Z) :
  snd (RiskAnalyzer._check_additional_risk_factors clause_text current_score)
  = additional_factors clause_text.
Proof.
  unfold RiskAnalyzer._check_additional_risk_factors, additional_factors.
  cbv zeta.
  destruct (2 <=? _); destruct (any_in RiskAnalyzer.one_sided_indicators _);
    destruct (3 <=? _); destruct (any_in RiskAnalyzer.time_pressure_terms _);
    reflexivity.
Qed.

Lemma Risk_raw_snd (clause_text clause_type : string) :
  snd (RiskAnalyzer.raw_risk clause_text clause_type)
  = (map (factor_of "High-risk term: '")
         (matched (RiskAnalyzer.all_terms RiskAnalyzer.high_risk_terms) clause_text)
     ++ map (factor_of "Medium-risk term: '")
            (matched (RiskAnalyzer.all_terms RiskAnalyzer.medium_risk_terms) clause_text)
     ++ map (factor_of "Protective term: '")
            (matched (RiskAnalyzer.all_terms RiskAnalyzer.low_risk_terms) clause_text)
     ++ additional_factors clause_text)%list.
Proof.
  unfold RiskAnalyzer.raw_risk. cbv zeta.
  match goal with
  | |- context [RiskAnalyzer._check_additional_risk_factors ?t ?s] =>
      pose proof (check_additional_snd t s) as H;
      destruct (RiskAnalyzer._check_additional_risk_factors t s) as [rs af]
  end.
  cbn [snd] in *. rewrite H, !scan_terms_snd. cbn [snd app].
  now rewrite <- !app_assoc.
Qed.

Lemma Risk_factors_eq (c : Clause.clause) :
  factors (RiskAnalyzer._analyze_clause_risk c)
  = snd (RiskAnalyzer.raw_risk (Str.lower (Clause.content c)) (Clause.clause_type c)).
Proof.
  unfold RiskAnalyzer._analyze_clause_risk.
  now destruct (RiskAnalyzer.raw_risk _ _).
Qed.

End Factors.

Section Mentions.

Lemma factor_mentions_eq (needle : string) (l : list string) :
  RiskAnalyzer.factor_mentions needle l = existsb (mentions needle) l.
Proof. reflexivity. Qed.

Lemma in_distinct (l : list string) (x : string) :
  In x (RiskAnalyzer.distinct l) <-> In x l.
Proof.
  induction l as [|y l IH]; cbn [RiskAnalyzer.distinct In]; [tauto|].
  rewrite filter_In, IH. split.
  - intros [H|[H _]]; auto.
  - intros [H|H]; [now left|].
    destruct (String.eqb_spec y x) as [E|E]; [now left | right; split; auto].
Qed.

Lemma existsb_distinct (g : string -> bool) (l : list string) :
  existsb g (RiskAnalyzer.distinct l) = existsb g l.
Proof.
  apply eq_true_iff_eq. rewrite !existsb_exists.
  split; intros [x [Hx Hg]]; exists x; split; auto; now apply in_distinct.
Qed.

Lemma existsb_flat_map {A : Type} (g : string -> bool) (f : A -> list string)
      (l : list A) :
  existsb g (flat_map f l) = existsb (fun x => existsb g (f x)) l.
Proof.
  induction l as [|x l IH]; cbn [flat_map existsb]; [reflexivity|].
  now rewrite existsb_app, IH.
Qed.

Lemma mention_scan_none (needle label text : string) (terms : list string) :
  forallb (fun t => negb (mentions needle (factor_of label t))) terms = true ->
  existsb (mentions needle) (map (factor_of label) (matched terms text)) = false.
Proof.
  intros H. rewrite forallb_forall in H.
  destruct (existsb _ _) eqn:E; [|reflexivity].
  apply existsb_exists in E as [f [Hf Hm]].
  apply in_map_iff in Hf as [t [<- Ht]]. apply filter_In in Ht as [Ht _].
  apply H in Ht. rewrite Hm in Ht. discriminate.
Qed.

Lemma mention_scan_target (needle label text target : string) (terms : list string) :
  forallb (fun t => negb (mentions needle (factor_of label t)) || String.eqb t target)
          terms = true ->
  In target terms ->
  mentions needle (factor_of label target) = true ->
  existsb (mentions needle) (map (factor_of label) (matched terms text))
  = Str.contains (Str.lower target) text.
Proof.
  intros H Hin Hm. rewrite forallb_forall in H. apply eq_true_iff_eq.
  rewrite existsb_exists. split.
  - intros [f [Hf Hmf]].
    apply in_map_iff in Hf as [t [<- Ht]]. apply filter_In in Ht as [Ht Hc].
    apply H in Ht. rewrite Hmf in Ht. cbn [negb orb] in Ht.
    apply String.eqb_eq in Ht. now subst.
  - intros Hc. exists (factor_of label target). split; [|exact Hm].
    apply in_map, filter_In. split; assumption.
Qed.

Lemma mention_factors (needle : string) (c : Clause.clause) :
  existsb (mentions needle) (factors (RiskAnalyzer._analyze_clause_risk c))
  = let text := Str.lower (Clause.content c) in
    existsb (mentions needle)
            (map (factor_of "High-risk term: '")
                 (matched (RiskAnalyzer.all_terms RiskAnalyzer.high_risk_terms) text))
    || existsb (mentions needle)
               (map (factor_of "Medium-risk term: '")
                    (matched (RiskAnalyzer.all_terms RiskAnalyzer.medium_risk_terms) text))
    || existsb (mentions needle)
               (map (factor_of "Protective term: '")
                    (matched (RiskAnalyzer.all_terms RiskAnalyzer.low_risk_terms) text))
    || existsb (mentions needle) (additional_factors text).
Proof.
  rewrite Risk_factors_eq, Risk_raw_snd, !existsb_app. cbv zeta.
  now rewrite !orb_assoc.
Qed.

Lemma mention_additional (text : string) :
  existsb (mentions "unlimited liability") (additional_factors text) = false
  /\ existsb (mentions "immediate termination") (additional_factors text) = false
  /\ existsb (mentions "one-sided") (additional_factors text)
     = any_in RiskAnalyzer.one_sided_indicators text
  /\ existsb (mentions "ambiguous") (additional_factors text)
     = (2 <=? RiskAnalyzer.count_in RiskAnalyzer.ambiguous_terms text).
Proof.
  unfold additional_factors.
  destruct (2 <=? _); destruct (any_in RiskAnalyzer.one_sided_indicators _);
    destruct (3 <=? _); destruct (any_in RiskAnalyzer.time_pressure_terms _);
    repeat split; vm_compute; reflexivity.
Qed.

Lemma clause_mentions (c : Clause.clause) :
  let text := Str.lower (Clause.content c) in
  let fs := factors (RiskAnalyzer._analyze_clause_risk c) in
  existsb (mentions "unlimited liability") fs = Str.contains "unlimited liability" text
  /\ existsb (mentions "immediate termination") fs
     = Str.contains "immediate termination" text
  /\ existsb (mentions "one-sided") fs = any_in RiskAnalyzer.one_sided_indicators text
  /\ existsb (mentions "ambiguous") fs
     = (2 <=? RiskAnalyzer.count_in RiskAnalyzer.ambiguous_terms text).
Proof.
  intros text fs. subst fs. rewrite !mention_factors. cbv zeta. fold text.
  destruct (mention_additional text) as [A1 [A2 [A3 A4]]].
  rewrite A1, A2, A3, A4.
  rewrite !(mention_scan_none _ "Medium-risk term: '") by (vm_compute; reflexivity).
  rewrite !(mention_scan_none _ "Protective term: '") by (vm_compute; reflexivity).
  rewrite (mention_scan_none "one-sided" "High-risk term: '") by (vm_compute; reflexivity).
  rewrite (mention_scan_none "ambiguous" "High-risk term: '") by (vm_compute; reflexivity).
  rewrite (mention_scan_target "unlimited liability" "High-risk term: '" text
                               "unlimited liability")
    by (vm_compute; tauto || reflexivity).
  rewrite (mention_scan_target "immediate termination" "High-risk term: '" text
                               "immediate termination")
    by (vm_compute; tauto || reflexivity).
  cbn [orb]. rewrite !orb_false_r.
  repeat split; reflexivity.
Qed.

End Mentions.

Section Triggers.

Context {F : FloatOps}.

Lemma type_recommendations_in (d : list (string * list Z)) (x : string) :
  In x (RiskAnalyzer.type_recommendations d) ->
  In x [ "Review payment terms carefully - consider negotiating penalties and fees.";
         "The liability clause is high-risk - consider insurance or indemnification.";
         "Termination terms are unfavorable - negotiate for more balanced conditions." ].
Proof.
  unfold RiskAnalyzer.type_recommendations. intros H.
  apply in_flat_map in H as [[k vs] [_ H]].
  destruct (RiskAnalyzer.max_at_least 8 vs); [|destruct H].
  destruct (String.eqb k "payment"); [destruct H as [<-|[]]; simpl; tauto|].
  destruct (String.eqb k "liability"); [destruct H as [<-|[]]; simpl; tauto|].
  destruct (String.eqb k "termination"); [destruct H as [<-|[]]; simpl; tauto|].
  destruct H.
Qed.

Lemma factor_recommendations_in (l : list string) :
  (In "Consider negotiating a liability cap to limit your financial exposure."
      (RiskAnalyzer.factor_recommendations l)
   <-> RiskAnalyzer.factor_mentions "unlimited liability" l = true)
  /\ (In "Request a cure period or notice requirement for termination clauses."
         (RiskAnalyzer.factor_recommendations l)
      <-> RiskAnalyzer.factor_mentions "immediate termination" l = true)
  /\ (In "Push for more balanced terms that don't heavily favor the other party."
         (RiskAnalyzer.factor_recommendations l)
      <-> RiskAnalyzer.factor_mentions "one-sided" l = true)
  /\ (In "Request clarification on vague or ambiguous language."
         (RiskAnalyzer.factor_recommendations l)
      <-> RiskAnalyzer.factor_mentions "ambiguous" l = true).
Proof.
  unfold RiskAnalyzer.factor_recommendations.
  destruct (RiskAnalyzer.factor_mentions "unlimited liability" l);
    destruct (RiskAnalyzer.factor_mentions "immediate termination" l);
    destruct (RiskAnalyzer.factor_mentions "one-sided" l);
    destruct (RiskAnalyzer.factor_mentions "ambiguous" l);
    cbn [app In];
    repeat split; intros H; try reflexivity; try discriminate H; auto;
      repeat (destruct H as [H|H]; try discriminate H); try contradiction.
Qed.

Lemma factor_message_in_recommendations (clauses : list Clause.clause) (x : string) :
  clauses <> [] -> In x factor_messages ->
  let a := RiskAnalyzer.assess_risk clauses in
  In x (RiskAnalyzer.recommendations a)
  <-> In x (RiskAnalyzer.factor_recommendations (RiskAnalyzer.risk_factors a)).
Proof.
  intros Hne Hx. destruct clauses as [|c0 rest]; [contradiction|].
  set (clauses := c0 :: rest). intros a.
  assert (Hlevel : In (RiskAnalyzer.overall_risk a) ["high"; "medium"; "low"])
    by apply overall_risk_cases.
  destruct (generate_recommendations_eq
              (RiskAnalyzer.overall_risk a)
              (RiskAnalyzer.collected_factors (RiskAnalyzer.loop clauses))
              (RiskAnalyzer.clause_breakdown a)
              Hlevel (loop_breakdown_nodup clauses)) as [Heq _].
  change (RiskAnalyzer._generate_recommendations _ _ _)
    with (RiskAnalyzer.recommendations a) in Heq.
  change (RiskAnalyzer.distinct _) with (RiskAnalyzer.risk_factors a) in Heq.
  rewrite Heq, !in_app_iff.
  assert (H1 : ~ In x (RiskAnalyzer.overall_recommendations (RiskAnalyzer.overall_risk a))).
  { intros H. destruct Hlevel as [E|[E|[E|[]]]]; rewrite <- E in H;
      cbn in Hx, H; repeat (destruct Hx as [Hx|Hx]; [subst x|]); try contradiction;
      repeat (destruct H as [H|H]; try discriminate H); contradiction. }
  assert (H2 : ~ In x (RiskAnalyzer.type_recommendations (RiskAnalyzer.clause_breakdown a))).
  { intros H. apply type_recommendations_in in H.
    cbn in Hx, H; repeat (destruct Hx as [Hx|Hx]; [subst x|]); try contradiction;
      repeat (destruct H as [H|H]; try discriminate H); contradiction. }
  assert (H3 : ~ In x (if String.eqb (RiskAnalyzer.overall_risk a) "low"
                          && is_nil (RiskAnalyzer.factor_recommendations
                                       (RiskAnalyzer.risk_factors a)
                                     ++ RiskAnalyzer.type_recommendations
                                          (RiskAnalyzer.clause_breakdown a))%list
                       then RiskAnalyzer.general_recommendations else [])).
  { intros H. destruct (_ && _); [|destruct H].
    cbn in Hx, H; repeat (destruct Hx as [Hx|Hx]; [subst x|]); try contradiction;
      repeat (destruct H as [H|H]; try discriminate H); contradiction. }
  tauto.
Qed.

End Triggers.

Section Triggers2.

Context {F : FloatOps}.

Lemma mentions_over_clauses (needle : string) (clauses : list Clause.clause)
      (p : Clause.clause -> bool) :
  (forall c, existsb (mentions needle) (factors (RiskAnalyzer._analyze_clause_risk c)) = p c) ->
  RiskAnalyzer.factor_mentions needle
    (RiskAnalyzer.distinct
       (flat_map (fun c => factors (RiskAnalyzer._analyze_clause_risk c)) clauses)) = true
  <-> exists c, In c clauses /\ p c = true.
Proof.
  intros Hp. rewrite factor_mentions_eq, existsb_distinct, existsb_flat_map.
  rewrite existsb_exists. split; intros [c [Hc H]]; exists c; split; auto;
    [now rewrite <- Hp | now rewrite Hp].
Qed.

Lemma trigger_iff (clauses : list Clause.clause) (x needle : string)
      (p : Clause.clause -> bool) :
  clauses <> [] ->
  In x factor_messages ->
  (forall l, In x (RiskAnalyzer.factor_recommendations l)
             <-> RiskAnalyzer.factor_mentions needle l = true) ->
  (forall c, existsb (mentions needle) (factors (RiskAnalyzer._analyze_clause_risk c)) = p c) ->
  In x (RiskAnalyzer.recommendations (RiskAnalyzer.assess_risk clauses))
  <-> exists c, In c clauses /\ p c = true.
Proof.
  intros Hne Hx Hrec Hp.
  rewrite (factor_message_in_recommendations clauses x Hne Hx), Hrec.
  assert (Hf : RiskAnalyzer.risk_factors (RiskAnalyzer.assess_risk clauses)
               = RiskAnalyzer.distinct
                   (flat_map (fun c => factors (RiskAnalyzer._analyze_clause_risk c))
                             clauses)).
  { destruct clauses as [|c0 rest]; [contradiction|]. apply (assess_fields c0 rest). }
  rewrite Hf. now apply mentions_over_clauses.
Qed.

(** X12. For a non-empty clause list, each of the four factor recommendations
    is among the (at most ten) recommendations exactly when some clause's
    lower-cased content meets its condition: it contains the phrase
    unlimited liability; it contains the phrase immediate termination; it
    contains one of the one-sided indicators; it contains at least two of the
    ambiguous terms. *)
Theorem recommendation_triggers (clauses : list Clause.clause) :
  clauses <> [] ->
  let a := RiskAnalyzer.assess_risk clauses in
  let text (c : Clause.clause) := Str.lower (Clause.content c) in
  (In "Consider negotiating a liability cap to limit your financial exposure."
      (RiskAnalyzer.recommendations a)
   <-> exists c, In c clauses /\ Str.contains "unlimited liability" (text c) = true)
  /\ (In "Request a cure period or notice requirement for termination clauses."
         (RiskAnalyzer.recommendations a)
      <-> exists c, In c clauses /\ Str.contains "immediate termination" (text c) = true)
  /\ (In "Push for more balanced terms that don't heavily favor the other party."
         (RiskAnalyzer.recommendations a)
      <-> exists c, In c clauses
                    /\ any_in RiskAnalyzer.one_sided_indicators (text c) = true)
  /\ (In "Request clarification on vague or ambiguous language."
         (RiskAnalyzer.recommendations a)
      <-> exists c, In c clauses
                    /\ (2 <=? RiskAnalyzer.count_in RiskAnalyzer.ambiguous_terms (text c))
                       = true).
Proof.
  intros Hne a text. subst a.
  split; [|split; [|split]].
  - apply (trigger_iff clauses _ "unlimited liability"
                       (fun c => Str.contains "unlimited liability" (text c)) Hne);
      [cbn; tauto | intros l; apply (factor_recommendations_in l)
       | intros c; apply (clause_mentions c)].
  - apply (trigger_iff clauses _ "immediate termination"
                       (fun c => Str.contains "immediate termination" (text c)) Hne);
      [cbn; tauto | intros l; apply (factor_recommendations_in l)
       | intros c; apply (clause_mentions c)].
  - apply (trigger_iff clauses _ "one-sided"
                       (fun c => any_in RiskAnalyzer.one_sided_indicators (text c)) Hne);
      [cbn; tauto | intros l; apply (factor_recommendations_in l)
       | intros c; apply (clause_mentions c)].
  - apply (trigger_iff clauses _ "ambiguous"
                       (fun c => 2 <=? RiskAnalyzer.count_in RiskAnalyzer.ambiguous_terms
                                                             (text c)) Hne);
      [cbn; tauto | intros l; apply (factor_recommendations_in l)
       | intros c; apply (clause_mentions c)].
Qed.

End Triggers2.

Section Sentinel.

Lemma hits_matched (terms : list string) (text : string) :
  hits terms text = Z.of_nat (List.length (matched terms text)).
Proof. reflexivity. Qed.

Lemma snoc_not_nil (A : Type) (l : list A) (x : A) : (l ++ [x])%list <> [].
Proof. destruct l; discriminate. Qed.

Lemma type_adjustment_nil (clause_type text_lower : string) (acc : Z * list string) :
  snd (AIAnalyzer.type_adjustment clause_type text_lower acc) = [] ->
  snd acc = [] /\ type_delta clause_type text_lower = 0.
Proof.
  unfold AIAnalyzer.type_adjustment, type_delta.
  repeat match goal with
         | |- context [if ?b then _ else _] => destruct b
         end; cbn [snd]; intros H;
    solve [ exfalso; exact (snoc_not_nil _ _ _ H) | split; [exact H | reflexivity] ].
Qed.

Lemma AI_raw_nil (clause_text clause_type : string) :
  snd (AIAnalyzer.raw_risk clause_text clause_type) = [] ->
  fst (AIAnalyzer.raw_risk clause_text clause_type) = 5.
Proof.
  intros H. rewrite AI_raw_fst. unfold AIAnalyzer.raw_risk in H. cbv zeta in H.
  apply type_adjustment_nil in H as [H Hd]. rewrite Hd.
  rewrite !scan_terms_snd in H. cbn [snd app] in H.
  apply app_eq_nil in H as [H1 H2].
  apply map_eq_nil in H1, H2. rewrite !hits_matched, H1, H2. reflexivity.
Qed.

Lemma type_adjustment_snd_in (clause_type text_lower : string) (acc : Z * list string)
      (f : string) :
  In f (snd (AIAnalyzer.type_adjustment clause_type text_lower acc)) ->
  In f (snd acc)
  \/ In f [ "Allows immediate termination"; "Unlimited liability exposure";
            "Liability is limited"; "Contains payment penalties" ].
Proof.
  unfold AIAnalyzer.type_adjustment.
  repeat match goal with
         | |- context [if ?b then _ else _] => destruct b
         end; cbn [snd]; intros H; try (now left);
    apply in_app_iff in H as [H|[<-|[]]]; try (now left); right; simpl; tauto.
Qed.

Lemma AI_raw_not_sentinel (clause_text clause_type : string) :
  ~ In "Standard clause with typical terms"
       (snd (AIAnalyzer.raw_risk clause_text clause_type)).
Proof.
  unfold AIAnalyzer.raw_risk. cbv zeta. intros H.
  apply type_adjustment_snd_in in H as [H|H].
  - rewrite !scan_terms_snd in H. cbn [snd app] in H.
    apply in_app_iff in H as [H|H]; apply in_map_iff in H as [t [E _]];
      unfold factor_of in E; discriminate E.
  - simpl in H. repeat (destruct H as [H|H]; [discriminate H|]). exact H.
Qed.

(** X13. A clause whose only risk factor is the placeholder that
    [_assess_clause_risk] puts in an empty factor list has the base score 5
    and the level medium. *)
Theorem standard_clause_has_default_score (clause_text clause_type : string) :
  let r := AIAnalyzer._assess_clause_risk clause_text clause_type in
  factors r = ["Standard clause with typical terms"] ->
  score r = 5 /\ level r = "medium".
Proof.
  intros r H. subst r.
  assert (Hs : score (AIAnalyzer._assess_clause_risk clause_text clause_type) = 5).
  { rewrite AI_score_eq. pose proof (AI_raw_nil clause_text clause_type) as Hnil.
    pose proof (AI_raw_not_sentinel clause_text clause_type) as Hnot.
    unfold AIAnalyzer._assess_clause_risk in H.
    destruct (AIAnalyzer.raw_risk clause_text clause_type) as [rs [|f fs]];
      cbn [factors snd fst] in *.
    - rewrite Hnil by reflexivity. reflexivity.
    - injection H as -> ->. exfalso. apply Hnot. now left. }
  split; [exact Hs|]. rewrite AI_level_eq, Hs. reflexivity.
Qed.

End Sentinel.

Section Pipeline.

Context {F : FloatOps}.

Lemma analyzed_clauses_length (now text filename : string) :
  let a := AIAnalyzer.analyze_document now text filename in
  List.length (AIAnalyzer.clauses a) = List.length (AIAnalyzer._split_into_clauses text)
  /\ (List.length (AIAnalyzer.clauses a) <= 20)%nat.
Proof.
  intros a.
  assert (L : List.length (AIAnalyzer.clauses a)
              = List.length (AIAnalyzer._split_into_clauses text)).
  { subst a. unfold AIAnalyzer.analyze_document. cbn [AIAnalyzer.clauses].
    rewrite analyze_sections_all.
    - rewrite length_map, length_combine, length_seq. lia.
    - eapply Forall_impl; [|apply split_into_clauses_sections].
      cbn beta. intros s [-> Hs]. lia. }
  split; [exact L|].
  rewrite L, split_into_clauses_eq. apply firstn_le_length.
Qed.

(** X14. The risk assessment of an uploaded document, computed from the
    clause records of [analyze_document]: its total is the number of
    sections of the text, at most 20; a text with no section gets the
    empty assessment (level unknown, the one recommendation to analyse the
    document); any other text gets the level high, medium or low. *)
Theorem upload_risk_assessment (now text filename : string) :
  let analysis_result := AIAnalyzer.analyze_document now text filename in
  let risk_assessment := RiskAnalyzer.assess_risk (AIAnalyzer.clauses analysis_result) in
  RiskAnalyzer.total_clauses risk_assessment
  = List.length (AIAnalyzer._split_into_clauses text)
  /\ (RiskAnalyzer.total_clauses risk_assessment <= 20)%nat
  /\ (AIAnalyzer._split_into_clauses text = [] ->
      RiskAnalyzer.overall_risk risk_assessment = "unknown"
      /\ RiskAnalyzer.recommendations risk_assessment = ["Document analysis required"])
  /\ (AIAnalyzer._split_into_clauses text <> [] ->
      In (RiskAnalyzer.overall_risk risk_assessment) ["high"; "medium"; "low"]).
Proof.
  intros a r.
  destruct (analyzed_clauses_length now text filename) as [Hlen H20].
  fold a in Hlen, H20.
  assert (Ht : RiskAnalyzer.total_clauses r = List.length (AIAnalyzer.clauses a)).
  { subst r. destruct (AIAnalyzer.clauses a) as [|c0 rest]; [reflexivity|].
    apply (assess_fields c0 rest). }
  split; [now rewrite Ht|]. split; [now rewrite Ht|]. split.
  - intros E. rewrite E in Hlen. cbn [List.length] in Hlen.
    subst r. destruct (AIAnalyzer.clauses a); [|discriminate Hlen].
    split; reflexivity.
  - intros E. subst r. destruct (AIAnalyzer.clauses a) as [|c0 rest].
    + destruct (AIAnalyzer._split_into_clauses text); [contradiction | discriminate Hlen].
    + destruct (assess_fields c0 rest) as [_ [_ [_ [Ho _]]]]. rewrite Ho.
      apply overall_risk_cases.
Qed.

End Pipeline.

Section ExtraWitnesses2.

Lemma assess_risk_statistics_witness :
  two_clauses <> []
  /\ RiskAnalyzer.total_clauses (@RiskAnalyzer.assess_risk binary64 two_clauses)
     = List.length two_clauses.
Proof.
  assert (H : two_clauses <> []) by discriminate.
  split; [exact H|].
  exact (proj1 (@assess_risk_statistics binary64 two_clauses H)).
Defined.

Lemma overall_risk_and_scores_witness :
  two_clauses <> []
  /\ RiskAnalyzer.overall_risk (@RiskAnalyzer.assess_risk binary64 two_clauses)
     <> "unknown".
Proof.
  assert (H : two_clauses <> []) by discriminate.
  split; [exact H|].
  exact (proj1 (@overall_risk_and_scores binary64 two_clauses H)).
Defined.

Lemma risk_distribution_counts_witness :
  two_clauses <> []
  /\ exists low_count medium_count high_count : nat,
       RiskAnalyzer.Distribution.counts
         (RiskAnalyzer.risk_distribution (@RiskAnalyzer.assess_risk binary64 two_clauses))
       = Some (low_count, medium_count, high_count)
       /\ (low_count + medium_count + high_count)%nat
          = RiskAnalyzer.total_clauses (@RiskAnalyzer.assess_risk binary64 two_clauses).
Proof.
  assert (H : two_clauses <> []) by discriminate.
  split; [exact H|].
  destruct (@risk_distribution_counts binary64 two_clauses H)
    as [l [m [h [Hc [Hsum _]]]]].
  exists l, m, h. split; [exact Hc | exact Hsum].
Defined.

Lemma clause_breakdown_groups_witness :
  two_clauses <> []
  /\ NoDup (map fst (RiskAnalyzer.clause_breakdown
                       (@RiskAnalyzer.assess_risk binary64 two_clauses))).
Proof.
  assert (H : two_clauses <> []) by discriminate.
  split; [exact H|].
  exact (proj1 (@clause_breakdown_groups binary64 two_clauses H)).
Defined.

Lemma recommendation_triggers_witness :
  two_clauses <> []
  /\ In "Consider negotiating a liability cap to limit your financial exposure."
        (RiskAnalyzer.recommendations (@RiskAnalyzer.assess_risk binary64 two_clauses)).
Proof.
  assert (H : two_clauses <> []) by discriminate.
  split; [exact H|].
  apply (proj1 (@recommendation_triggers binary64 two_clauses H)).
  exists unlimited_liability_clause. split; [now left | reflexivity].
Defined.

Lemma standard_clause_has_default_score_witness :
  factors (AIAnalyzer._assess_clause_risk "The parties met in Pune." "general")
  = ["Standard clause with typical terms"]
  /\ score (AIAnalyzer._assess_clause_risk "The parties met in Pune." "general") = 5
  /\ level (AIAnalyzer._assess_clause_risk "The parties met in Pune." "general")
     = "medium".
Proof.
  assert (H : factors (AIAnalyzer._assess_clause_risk "The parties met in Pune." "general")
              = ["Standard clause with typical terms"]) by reflexivity.
  split; [exact H|].
  exact (standard_clause_has_default_score "The parties met in Pune." "general" H).
Defined.

End ExtraWitnesses2.

(* ------------------------------------------------------------------ *)
(** ** Questions on an analysed document *)

Section Answers.

Lemma relevant_types_none (question_lower : string) :
  any_in question_synonyms question_lower = false ->
  AIQueries.relevant_types_of question_lower = [].
Proof.
  unfold any_in, question_synonyms. cbn [existsb]. intros H.
  repeat (apply orb_false_iff in H; destruct H as [?E H]).
  unfold AIQueries.relevant_types_of, AIQueries.question_keywords, any_in.
  cbn [flat_map snd existsb].
  repeat match goal with
         | E : Str.contains _ _ = false |- _ => rewrite E; clear E
         end.
  reflexivity.
Qed.

Lemma relevant_types_group (question_lower : string) (entry : string * list string)
      (synonym : string) :
  In entry AIQueries.question_keywords ->
  In synonym (snd entry) ->
  Str.contains synonym question_lower = true ->
  incl (snd entry) (AIQueries.relevant_types_of question_lower).
Proof.
  intros He Hs Hc r Hr. unfold AIQueries.relevant_types_of.
  apply in_flat_map. exists entry. split; [exact He|]. cbv zeta.
  assert (Ha : any_in (snd entry) question_lower = true).
  { unfold any_in. apply existsb_exists. now exists synonym. }
  now rewrite Ha.
Qed.

Lemma analyze_sections_in (sections : list string) (i : nat) (c : Clause.clause) :
  In c (AIAnalyzer.analyze_sections i sections) ->
  exists (s : string) (j : nat), c = AIAnalyzer._analyze_clause s j.
Proof.
  revert i; induction sections as [|s sections IH]; intros i H; [destruct H|].
  cbn [AIAnalyzer.analyze_sections] in H.
  destruct (50 <? Str.len (Str.strip s)).
  - destruct H as [<-|H]; [now exists s, i | now apply (IH (S i))].
  - now apply (IH (S i)).
Qed.

Lemma analyzed_clause_in (now text filename : string) (c : Clause.clause) :
  In c (AIAnalyzer.clauses (AIAnalyzer.analyze_document now text filename)) ->
  exists (s : string) (j : nat), c = AIAnalyzer._analyze_clause s j.
Proof.
  unfold AIAnalyzer.analyze_document. cbn [AIAnalyzer.clauses].
  apply analyze_sections_in.
Qed.

Lemma append_not_empty (a b : string) :
  Str.is_empty a = false -> Str.is_empty (a ++ b) = false.
Proof. now destruct a. Qed.

Lemma template_not_empty (clause_type : string) :
  Str.is_empty
    (get AIAnalyzer.simplification_templates clause_type
         "This is a standard contract provision.") = false.
Proof.
  unfold AIAnalyzer.simplification_templates. cbn [get].
  repeat match goal with
         | |- context [if String.eqb ?a ?b then _ else _] => destruct (String.eqb a b)
         end; reflexivity.
Qed.

Lemma simplify_not_empty (clause_text clause_type : string) :
  Str.is_empty (AIAnalyzer._simplify_clause clause_text clause_type) = false.
Proof.
  unfold AIAnalyzer._simplify_clause. cbv zeta.
  pose proof (template_not_empty clause_type) as Ht.
  set (base := get _ _ _) in *.
  repeat match goal with
         | |- context [match ?x with _ => _ end] =>
             match x with
             | base => fail 1
             | _ => destruct x
             end
         end;
    rewrite ?append_assoc; try apply append_not_empty; exact Ht.
Qed.

Lemma analyzed_simplified (s : string) (j : nat) :
  Clause.simplified (AIAnalyzer._analyze_clause s j)
  = AIAnalyzer._simplify_clause s (AIAnalyzer._identify_clause_type s).
Proof. reflexivity. Qed.

Lemma analyzed_clause_type (s : string) (j : nat) :
  Clause.clause_type (AIAnalyzer._analyze_clause s j) = AIAnalyzer._identify_clause_type s.
Proof. reflexivity. Qed.

(** X15.  A question gets the not-found answer, whatever the clauses are,
    unless its lower case contains one of the twenty synonyms of the
    question table; the keys of the table (terminate, pay, liability, ...)
    are not among the words tested. *)
Theorem answer_needs_synonym (document_text : string) (clauses : list Clause.clause)
        (question : string) :
  any_in question_synonyms (Str.lower question) = false ->
  AIQueries.answer_question document_text clauses question
  = "I couldn't find specific information about your question in this document. You might want to consult with a legal professional for clarification.".
Proof.
  intros H. unfold AIQueries.answer_question. cbv zeta.
  rewrite (relevant_types_none _ H).
  assert (E : filter (AIQueries.clause_matches []) clauses = []).
  { induction clauses as [|c l IH]; [reflexivity|]. cbn [filter]. exact IH. }
  now rewrite E.
Qed.

(** X16.  Retrieval goes by synonym group and by substring: when the
    lower-cased question contains a synonym of a group, a clause whose
    lower-cased content or whose type contains any synonym of the same group
    is relevant, and the answer is not the not-found answer. *)
Theorem answer_by_synonym_group (document_text : string) (clauses : list Clause.clause)
        (question : string) (entry : string * list string) (asked found : string)
        (c : Clause.clause) :
  In entry AIQueries.question_keywords ->
  In asked (snd entry) ->
  In found (snd entry) ->
  Str.contains asked (Str.lower question) = true ->
  In c clauses ->
  Str.contains found (Str.lower (Clause.content c)) = true
  \/ Str.contains found (Clause.clause_type c) = true ->
  AIQueries.answer_question document_text clauses question
  <> "I couldn't find specific information about your question in this document. You might want to consult with a legal professional for clarification.".
Proof.
  intros He Ha Hf Hq Hc Hm. unfold AIQueries.answer_question. cbv zeta.
  set (types := AIQueries.relevant_types_of (Str.lower question)).
  assert (Hin : In c (filter (AIQueries.clause_matches types) clauses)).
  { apply filter_In. split; [exact Hc|]. unfold AIQueries.clause_matches. cbv zeta.
    apply existsb_exists. exists found. split.
    - now apply (relevant_types_group _ entry asked).
    - apply orb_true_iff. exact Hm. }
  destruct (filter (AIQueries.clause_matches types) clauses) as [|c0 rest];
    [destruct Hin|].
  destruct (filter _ (map Clause.simplified (firstn 3 (c0 :: rest)))); [discriminate|].
  destruct (filter _ (c0 :: rest)); discriminate.
Qed.

(** X17.  On the clauses that [analyze_document] produced, every clause has
    a simplification, so the answer is either the not-found answer or the
    simplifications of the first relevant clauses after the fixed
    introduction; the request for more context is never returned. *)
Theorem answer_on_analyzed_document (now text filename question : string) :
  let doc := AIAnalyzer.analyze_document now text filename in
  let answer := AIQueries.answer_question text (AIAnalyzer.clauses doc) question in
  answer
  <> "The document contains relevant clauses, but I need more context to provide a specific answer. Please consider consulting with a legal professional."
  /\ (answer
      = "I couldn't find specific information about your question in this document. You might want to consult with a legal professional for clarification."
      \/ exists (c : Clause.clause) (rest : string),
           In c (AIAnalyzer.clauses doc)
           /\ answer
              = "Based on the document analysis: " ++ Clause.simplified c ++ rest).
Proof.
  intros doc answer. subst answer. unfold AIQueries.answer_question. cbv zeta.
  set (types := AIQueries.relevant_types_of (Str.lower question)).
  pose proof (fun c => proj1 (filter_In (AIQueries.clause_matches types) c
                                        (AIAnalyzer.clauses doc))) as Hsub.
  destruct (filter (AIQueries.clause_matches types) (AIAnalyzer.clauses doc))
    as [|c0 rest]; [split; [discriminate | now left]|].
  destruct (Hsub c0 (or_introl eq_refl)) as [Hc0 _].
  destruct (analyzed_clause_in _ _ _ _ Hc0) as [s [j Hs]].
  assert (Hne : Str.is_empty (Clause.simplified c0) = false).
  { rewrite Hs, analyzed_simplified. apply simplify_not_empty. }
  set (high := filter (fun c => String.eqb (Clause.risk_level c) "high") (c0 :: rest)).
  change (firstn 3 (c0 :: rest)) with (c0 :: firstn 2 rest).
  cbn [map filter]. rewrite Hne. cbn [negb].
  set (parts := filter (fun simplified => negb (Str.is_empty simplified))
                       (map Clause.simplified (firstn 2 rest))).
  assert (Hj : exists tail, Str.join " " (Clause.simplified c0 :: parts)
                            = Clause.simplified c0 ++ tail).
  { destruct parts as [|p ps]; [exists ""; cbn [Str.join]; now rewrite append_empty_r|].
    now exists (" " ++ Str.join " " (p :: ps)). }
  destruct Hj as [tail Hj]. rewrite Hj.
  destruct high.
  - split; [discriminate|]. right. exists c0, tail. split; [exact Hc0 | reflexivity].
  - split; [discriminate|]. right.
    exists c0, (tail ++ " ⚠️ Please note that some related clauses have been flagged as high-risk.").
    split; [exact Hc0|]. now rewrite !append_assoc.
Qed.

End Answers.

(* ------------------------------------------------------------------ *)
(** ** Jurisdiction compliance *)

Section Compliance.

Lemma rules_cases (jurisdiction : string) :
  let rules := get AIQueries.jurisdiction_rules (Str.lower jurisdiction)
                   AIQueries.indian_rules in
  rules = AIQueries.indian_rules
  \/ rules = get AIQueries.jurisdiction_rules "us" AIQueries.indian_rules
  \/ rules = get AIQueries.jurisdiction_rules "eu" AIQueries.indian_rules.
Proof.
  unfold AIQueries.jurisdiction_rules. cbn [get].
  destruct (String.eqb "indian" _); [now left|].
  destruct (String.eqb "us" _); [right; now left|].
  destruct (String.eqb "eu" _); [right; now right | now left].
Qed.

(** X18.  The compliance check makes four checks in every jurisdiction, so
    the score is 100 less 25 for each issue, and the level depends on the
    number of issues alone: High with none, Medium with exactly one, Low
    with two or more.  Each issue comes with one recommendation. *)
Theorem compliance_by_issue_count (clauses : list Clause.clause) (jurisdiction : string) :
  let r := AIQueries.check_jurisdiction_compliance clauses jurisdiction in
  let n := List.length (AIQueries.issues r) in
  (n <= 4)%nat
  /\ List.length (AIQueries.recommendations r) = n
  /\ AIQueries.compliance_score r = inject_Z (100 - 25 * Z.of_nat n)
  /\ (AIQueries.compliance_level r = "High" <-> n = 0%nat)
  /\ (AIQueries.compliance_level r = "Medium" <-> n = 1%nat)
  /\ (AIQueries.compliance_level r = "Low" <-> (2 <= n)%nat).
Proof.
  intros r n. subst n r. unfold AIQueries.check_jurisdiction_compliance. cbv zeta.
  set (ct := map Clause.clause_type clauses).
  set (dt := Str.lower (Str.join " " (map Clause.content clauses))).
  destruct (rules_cases jurisdiction) as [E|[E|E]]; cbv zeta in E; rewrite E; clear E;
    cbn [get AIQueries.jurisdiction_rules AIQueries.indian_rules String.eqb Ascii.eqb
         Bool.eqb AIQueries.required_clauses AIQueries.restricted_terms filter];
    repeat match goal with
           | |- context [AIQueries.missing ct ?x] => destruct (AIQueries.missing ct x)
           | |- context [AIQueries.present dt ?x] => destruct (AIQueries.present dt x)
           end;
    vm_compute; repeat split; intros; try reflexivity; try discriminate; try lia.
Qed.

Lemma identify_clause_type_values (text : string) :
  In (AIAnalyzer._identify_clause_type text) clause_type_names.
Proof.
  unfold AIAnalyzer._identify_clause_type. cbv zeta. rewrite first_matching_type_eq.
  repeat match goal with
         | |- context [if ?b then _ else _] => destruct b
         end; cbn; tauto.
Qed.

Lemma missing_outside (clause_types : list string) (required : string) :
  Forall (fun t => In t clause_type_names) clause_types ->
  ~ In required clause_type_names ->
  AIQueries.missing clause_types required = true.
Proof.
  intros Hall Hnot. unfold AIQueries.missing. apply negb_true_iff.
  apply not_true_iff_false. intros H. apply existsb_exists in H as [t [Ht E]].
  apply String.eqb_eq in E. subst t. rewrite Forall_forall in Hall.
  apply Hnot, Hall, Ht.
Qed.

Lemma analyzed_clause_types (now text filename : string) :
  Forall (fun t => In t clause_type_names)
         (map Clause.clause_type
              (AIAnalyzer.clauses (AIAnalyzer.analyze_document now text filename))).
Proof.
  apply Forall_forall. intros t Ht. apply in_map_iff in Ht as [c [<- Hc]].
  destruct (analyzed_clause_in _ _ _ _ Hc) as [s [j ->]].
  rewrite analyzed_clause_type. apply identify_clause_type_values.
Qed.

(** X19.  Under the rules of the EU every analysed document is rated Low,
    with a score of at most 50: the two required clause types, data
    protection and consumer rights, are types that the classifier never
    assigns, so both are always reported missing. *)
Theorem eu_compliance_is_low (now text filename jurisdiction : string) :
  Str.lower jurisdiction = "eu" ->
  let doc := AIAnalyzer.analyze_document now text filename in
  let r := AIQueries.check_jurisdiction_compliance (AIAnalyzer.clauses doc) jurisdiction in
  AIQueries.compliance_level r = "Low"
  /\ Qle (AIQueries.compliance_score r) (inject_Z 50)
  /\ exists rest : list string,
       AIQueries.issues r
       = ("Missing required data protection clause"
          :: "Missing required consumer rights clause" :: rest)%list.
Proof.
  intros Hj doc r. subst r. unfold AIQueries.check_jurisdiction_compliance. cbv zeta.
  rewrite Hj.
  pose proof (analyzed_clause_types now text filename) as Hall. fold doc in Hall.
  set (ct := map Clause.clause_type (AIAnalyzer.clauses doc)) in *.
  set (dt := Str.lower (Str.join " " (map Clause.content (AIAnalyzer.clauses doc)))).
  cbn [get AIQueries.jurisdiction_rules String.eqb Ascii.eqb Bool.eqb
       AIQueries.required_clauses AIQueries.restricted_terms filter].
  rewrite !(missing_outside ct) by
      (try exact Hall; unfold clause_type_names; cbn [In]; intros H;
       repeat (destruct H as [H|H]; [discriminate H|]); exact H).
  repeat match goal with
         | |- context [AIQueries.present dt ?x] => destruct (AIQueries.present dt x)
         end;
    (split; [vm_compute; reflexivity|]; split; [vm_compute; discriminate|]);
    eexists; cbn [map app]; reflexivity.
Qed.

End Compliance.

Section QueryWitnesses.

Lemma answer_needs_synonym_witness :
  any_in question_synonyms (Str.lower "What is my liability if I terminate?") = false
  /\ AIQueries.answer_question "" [unlimited_liability_clause]
                               "What is my liability if I terminate?"
     = "I couldn't find specific information about your question in this document. You might want to consult with a legal professional for clarification.".
Proof.
  split; [reflexivity|].
  apply (answer_needs_synonym "" [unlimited_liability_clause]). reflexivity.
Defined.

Lemma answer_by_synonym_group_witness :
  Str.contains "responsible" (Str.lower "Who is responsible?") = true
  /\ AIQueries.answer_question
       "" [AIAnalyzer._analyze_clause terminate_and_damages_clause 0] "Who is responsible?"
     <> "I couldn't find specific information about your question in this document. You might want to consult with a legal professional for clarification.".
Proof.
  split; [reflexivity|].
  apply (answer_by_synonym_group
           "" [AIAnalyzer._analyze_clause terminate_and_damages_clause 0]
           "Who is responsible?"
           ("liability", ["liable"; "responsible"; "damages"])
           "responsible" "damages"
           (AIAnalyzer._analyze_clause terminate_and_damages_clause 0)).
  - cbn; tauto.
  - cbn; tauto.
  - cbn; tauto.
  - reflexivity.
  - now left.
  - left. reflexivity.
Defined.

Lemma eu_compliance_is_low_witness :
  Str.lower "EU" = "eu"
  /\ AIQueries.compliance_level
       (AIQueries.check_jurisdiction_compliance
          (AIAnalyzer.clauses (AIAnalyzer.analyze_document "" forfeiture_clause "a.pdf"))
          "EU")
     = "Low".
Proof.
  split; [reflexivity|].
  apply (eu_compliance_is_low "" forfeiture_clause "a.pdf" "EU"). reflexivity.
Defined.

End QueryWitnesses.

(* ------------------------------------------------------------------ *)
(** ** Cleaning the extracted entities *)

Section Cleaning.

Import EntityExtractor.

Lemma sub_spaces_idempotent (s : string) :
  forall in_run : bool, sub_spaces in_run (sub_spaces in_run s) = sub_spaces in_run s.
Proof.
  induction s as [|c r IH]; intros in_run; [reflexivity|].
  cbn [sub_spaces]. destruct (Str.isspace c) eqn:E.
  - destruct in_run; [apply IH|].
    cbn [sub_spaces]. change (Str.isspace " ") with true. cbn iota.
    now rewrite IH.
  - cbn [sub_spaces]. rewrite E. now rewrite IH.
Qed.

Lemma rstrip_cons (c : ascii) (r : string) :
  Str.rstrip (String c r) = String c r ->
  Str.rstrip r = r /\ (Str.isspace c = true -> r <> "").
Proof.
  cbn [Str.rstrip]. cbv zeta.
  destruct (Str.isspace c && Str.is_empty (Str.rstrip r)) eqn:E; [discriminate|].
  intros H; injection H as H. split; [exact H|].
  intros Hc Hr. subst r. rewrite Hc in E. discriminate E.
Qed.

Lemma sub_spaces_not_empty (s : string) :
  Str.rstrip s = s -> s <> "" -> forall in_run : bool, sub_spaces in_run s <> "".
Proof.
  induction s as [|c r IH]; intros Hs Hne in_run; [contradiction|].
  apply rstrip_cons in Hs as [Hr Hc]. cbn [sub_spaces].
  destruct (Str.isspace c); [|discriminate].
  destruct in_run; [|discriminate]. apply IH; auto.
Qed.

Lemma rstrip_sub_spaces (s : string) :
  Str.rstrip s = s ->
  forall in_run : bool, Str.rstrip (sub_spaces in_run s) = sub_spaces in_run s.
Proof.
  induction s as [|c r IH]; intros Hs in_run; [reflexivity|].
  apply rstrip_cons in Hs as [Hr Hc]. cbn [sub_spaces].
  destruct (Str.isspace c) eqn:E.
  - destruct in_run; [now apply IH|].
    cbn [Str.rstrip]. cbv zeta. rewrite (IH Hr).
    pose proof (sub_spaces_not_empty r Hr (Hc eq_refl) true) as Hne.
    destruct (sub_spaces true r); [contradiction|].
    cbn [Str.is_empty]. now rewrite andb_false_r.
  - cbn [Str.rstrip]. cbv zeta. rewrite E. cbn [andb]. now rewrite (IH Hr).
Qed.

Lemma strip_fixed (s : string) :
  Str.strip s = s ->
  Str.rstrip s = s /\ (forall c r, s = String c r -> Str.isspace c = false).
Proof.
  intros H. unfold Str.strip in H.
  assert (Hl : forall c r, s = String c r -> Str.isspace c = false).
  { intros c r ->. destruct (Str.isspace c) eqn:E; [|reflexivity]. exfalso.
    cbn [Str.lstrip] in H. rewrite E in H.
    assert (Hlen : (String.length (Str.rstrip (Str.lstrip r)) <= String.length r)%nat).
    { pose proof (strip_part r) as [a [b Hab]]. unfold Str.strip in Hab.
      rewrite Hab at 2. rewrite !append_length. lia. }
    rewrite H in Hlen. cbn [String.length] in Hlen. lia. }
  split; [|exact Hl].
  destruct s as [|c r]; [reflexivity|].
  cbn [Str.lstrip] in H. now rewrite (Hl c r eq_refl) in H.
Qed.

Lemma strip_sub_spaces (s : string) :
  Str.strip s = s -> Str.strip (sub_spaces false s) = sub_spaces false s.
Proof.
  intros H. apply strip_fixed in H as [Hr Hl]. unfold Str.strip.
  destruct s as [|c r]; [reflexivity|].
  pose proof (rstrip_sub_spaces _ Hr false) as Hs.
  cbn [sub_spaces] in *. rewrite (Hl c r eq_refl) in *.
  cbn [Str.lstrip]. rewrite (Hl c r eq_refl). exact Hs.
Qed.

Lemma clean_item_idempotent (item : string) :
  clean_item (clean_item item) = clean_item item.
Proof.
  unfold clean_item.
  rewrite (strip_sub_spaces _ (strip_idempotent item)).
  apply sub_spaces_idempotent.
Qed.

(** **** The order of strings *)

Lemma ascii_compare_lt_trans (a b c : ascii) :
  Ascii.compare a b = Lt -> Ascii.compare b c = Lt -> Ascii.compare a c = Lt.
Proof.
  unfold Ascii.compare. rewrite !N.compare_lt_iff. lia.
Qed.

Lemma compare_lt_trans (s1 : string) :
  forall s2 s3, String.compare s1 s2 = Lt -> String.compare s2 s3 = Lt ->
                String.compare s1 s3 = Lt.
Proof.
  induction s1 as [|a s1 IH]; intros [|b s2] [|c s3]; cbn [String.compare];
    try discriminate; try reflexivity.
  destruct (Ascii.compare a b) eqn:Eab; try discriminate;
    destruct (Ascii.compare b c) eqn:Ebc; try discriminate; intros H1 H2.
  - apply Ascii.compare_eq_iff in Eab, Ebc. subst b c.
    assert (E : Ascii.compare a a = Eq).
    { unfold Ascii.compare. apply N.compare_refl. }
    rewrite E. now apply (IH s2).
  - apply Ascii.compare_eq_iff in Eab. subst b. now rewrite Ebc.
  - apply Ascii.compare_eq_iff in Ebc. subst c. now rewrite Eab.
  - now rewrite (ascii_compare_lt_trans a b c).
Qed.

Lemma compare_refl (s : string) : String.compare s s = Eq.
Proof.
  induction s as [|a s IH]; [reflexivity|]. cbn [String.compare].
  assert (E : Ascii.compare a a = Eq) by (unfold Ascii.compare; apply N.compare_refl).
  now rewrite E.
Qed.

Lemma leb_cases (x y : string) :
  String.leb x y = true <-> String.ltb x y = true \/ x = y.
Proof.
  unfold String.leb, String.ltb. destruct (String.compare x y) eqn:E.
  - apply String.compare_eq_iff in E. split; [now right | reflexivity].
  - split; [now left | reflexivity].
  - split; [discriminate|]. intros [H|H]; [discriminate|].
    subst y. now rewrite compare_refl in E.
Qed.

Lemma ltb_trans (x y z : string) :
  String.ltb x y = true -> String.ltb y z = true -> String.ltb x z = true.
Proof.
  unfold String.ltb.
  destruct (String.compare x y) eqn:E1; try discriminate.
  destruct (String.compare y z) eqn:E2; try discriminate.
  now rewrite (compare_lt_trans x y z E1 E2).
Qed.

Lemma leb_trans (x y z : string) :
  String.leb x y = true -> String.leb y z = true -> String.leb x z = true.
Proof.
  rewrite !leb_cases. intros [H1 | ->] [H2 | ->]; auto.
  left. now apply (ltb_trans x y z).
Qed.

Lemma leb_false_ltb (x y : string) : String.leb x y = false -> String.leb y x = true.
Proof.
  intros H. destruct (String.leb_total x y) as [E|E]; [congruence | exact E].
Qed.

(** **** Sorting *)

Lemma insert_perm (x : string) (l : list string) : Permutation (x :: l) (insert x l).
Proof.
  induction l as [|y r IH]; [apply Permutation_refl|]. cbn [insert].
  destruct (String.leb x y); [apply Permutation_refl|].
  eapply perm_trans; [apply perm_swap|]. now apply perm_skip.
Qed.

Lemma sort_perm (l : list string) : Permutation l (sort l).
Proof.
  induction l as [|x r IH]; [apply perm_nil|]. cbn [sort].
  eapply perm_trans; [|apply insert_perm]. now apply perm_skip.
Qed.

Lemma insert_sorted (x : string) (l : list string) :
  StronglySorted (fun a b => String.leb a b = true) l ->
  StronglySorted (fun a b => String.leb a b = true) (insert x l).
Proof.
  induction 1 as [|y r Hs IH Hy]; cbn [insert].
  - constructor; constructor.
  - destruct (String.leb x y) eqn:E.
    + constructor; [now constructor|]. constructor; [exact E|].
      eapply Forall_impl; [|exact Hy]. intros z Hz. now apply (leb_trans x y z).
    + constructor; [exact IH|].
      apply (Permutation_Forall (insert_perm x r)). constructor; [|exact Hy].
      now apply leb_false_ltb.
Qed.

Lemma sort_sorted (l : list string) :
  StronglySorted (fun a b => String.leb a b = true) (sort l).
Proof.
  induction l as [|x r IH]; [constructor|]. cbn [sort]. now apply insert_sorted.
Qed.

Lemma insert_least (x : string) (l : list string) :
  Forall (fun y => String.leb x y = true) l -> insert x l = x :: l.
Proof.
  intros H. destruct l as [|y r]; [reflexivity|]. cbn [insert].
  now rewrite (Forall_inv H).
Qed.

Lemma sort_of_sorted (l : list string) :
  StronglySorted (fun a b => String.leb a b = true) l -> sort l = l.
Proof.
  induction 1 as [|x r Hs IH Hx]; [reflexivity|]. cbn [sort]. rewrite IH.
  now apply insert_least.
Qed.

Lemma strictly_sorted (l : list string) :
  StronglySorted (fun a b => String.leb a b = true) l -> NoDup l ->
  StronglySorted (fun a b => String.ltb a b = true) l.
Proof.
  induction 1 as [|x r Hs IH Hx]; intros Hnd; [constructor|].
  inversion Hnd as [|? ? Hnotin Hnd']; subst. constructor; [now apply IH|].
  apply Forall_forall. intros y Hy. rewrite Forall_forall in Hx.
  destruct (proj1 (leb_cases x y) (Hx y Hy)) as [H|H]; [exact H|].
  subst y. contradiction.
Qed.

Lemma weakly_sorted (l : list string) :
  StronglySorted (fun a b => String.ltb a b = true) l ->
  StronglySorted (fun a b => String.leb a b = true) l.
Proof.
  induction 1 as [|x r Hs IH Hx]; constructor; [exact IH|].
  eapply Forall_impl; [|exact Hx]. intros y Hy. apply leb_cases. now left.
Qed.

Lemma sorted_firstn {R : string -> string -> Prop} (n : nat) (l : list string) :
  StronglySorted R l -> StronglySorted R (firstn n l).
Proof.
  intros H. revert n. induction H as [|x r Hs IH Hx]; intros [|n]; cbn [firstn];
    try constructor; [apply IH|].
  now apply Forall_firstn.
Qed.

Lemma nodup_firstn {A : Type} (n : nat) (l : list A) : NoDup l -> NoDup (firstn n l).
Proof.
  intros H. revert n. induction H as [|x r Hx Hs IH]; intros [|n]; cbn [firstn];
    try constructor; [|apply IH].
  intros Hin. apply Hx. rewrite <- (firstn_skipn n r). apply in_or_app. now left.
Qed.

(** **** Deduplication *)

Lemma seen_spec (seen : list string) (x : string) :
  existsb (String.eqb x) seen = true <-> In x seen.
Proof.
  rewrite existsb_exists. split.
  - intros [y [Hy E]]. apply String.eqb_eq in E. now subst y.
  - intros H. exists x. split; [exact H | apply String.eqb_refl].
Qed.

Lemma deduplicate_in (cleaned : list string) :
  forall (seen : list string) (x : string),
    In x (deduplicate seen cleaned) -> In x cleaned /\ ~ In (Str.lower x) seen.
Proof.
  induction cleaned as [|item rest IH]; intros seen x H; [destruct H|].
  cbn [deduplicate] in H.
  destruct (existsb (String.eqb (Str.lower item)) seen) eqn:E.
  - destruct (IH _ _ H) as [H1 H2]. split; [now right | exact H2].
  - destruct H as [<-|H].
    + split; [now left|]. intros Hin. apply seen_spec in Hin. congruence.
    + destruct (IH _ _ H) as [H1 H2]. split; [now right|].
      intros Hin. apply H2. now right.
Qed.

Lemma deduplicate_nodup (cleaned : list string) :
  forall seen : list string, NoDup (map Str.lower (deduplicate seen cleaned)).
Proof.
  induction cleaned as [|item rest IH]; intros seen; [constructor|].
  cbn [deduplicate].
  destruct (existsb (String.eqb (Str.lower item)) seen); [apply IH|].
  cbn [map]. constructor; [|apply IH].
  intros Hin. apply in_map_iff in Hin as [y [Ey Hy]].
  apply deduplicate_in in Hy as [_ Hy]. apply Hy. rewrite Ey. now left.
Qed.

Lemma deduplicate_fixed (l : list string) :
  forall seen : list string,
    NoDup (map Str.lower l) ->
    (forall x, In x l -> ~ In (Str.lower x) seen) ->
    deduplicate seen l = l.
Proof.
  induction l as [|item rest IH]; intros seen Hnd Hseen; [reflexivity|].
  cbn [deduplicate]. cbn [map] in Hnd. inversion Hnd as [|? ? Hnotin Hnd']; subst.
  destruct (existsb (String.eqb (Str.lower item)) seen) eqn:E.
  - apply seen_spec in E. exfalso. apply (Hseen item); [now left | exact E].
  - f_equal. apply IH; [exact Hnd'|].
    intros x Hx [Hin|Hin].
    + apply Hnotin. rewrite Hin. now apply in_map.
    + apply (Hseen x); [now right | exact Hin].
Qed.


Lemma nodup_of_lower (l : list string) : NoDup (map Str.lower l) -> NoDup l.
Proof. apply NoDup_map_inv. Qed.

(** **** The whole function *)

Lemma clean_and_deduplicate_eq (items : list string) :
  _clean_and_deduplicate items
  = firstn 10 (sort (deduplicate [] (filter kept (map clean_item items)))).
Proof. now destruct items. Qed.

Lemma kept_range (x : string) : kept x = true <-> 3 <= Str.len x <= 200.
Proof. unfold kept. rewrite andb_true_iff, !Z.leb_le. tauto. Qed.

(** X20.  Whatever the extractors found, a cleaned list of entities has at
    most 10 items, in strictly increasing order of code points, no two equal
    up to letter case; each item has 3 to 200 characters and is the cleaned
    form of an input item, which cleaning again leaves as it is. *)
Theorem clean_and_deduplicate_invariants (items : list string) :
  let result := EntityExtractor._clean_and_deduplicate items in
  (List.length result <= 10)%nat
  /\ StronglySorted (fun a b => String.ltb a b = true) result
  /\ NoDup (map Str.lower result)
  /\ Forall (fun x => 3 <= Str.len x <= 200
                      /\ EntityExtractor.clean_item x = x
                      /\ exists item, In item items /\ x = EntityExtractor.clean_item item)
            result.
Proof.
  intros result. subst result. rewrite clean_and_deduplicate_eq.
  set (cleaned := filter kept (map clean_item items)).
  set (d := deduplicate [] cleaned).
  assert (Hnd : NoDup (map Str.lower (sort d))).
  { apply (Permutation_NoDup (Permutation_map Str.lower (sort_perm d))).
    apply deduplicate_nodup. }
  split; [apply firstn_le_length|]. split; [|split].
  - apply sorted_firstn, strictly_sorted; [apply sort_sorted|].
    now apply nodup_of_lower.
  - rewrite <- firstn_map. now apply nodup_firstn.
  - apply Forall_firstn, Forall_forall. intros x Hx.
    apply (Permutation_in x (Permutation_sym (sort_perm d))) in Hx.
    apply deduplicate_in in Hx as [Hx _]. apply filter_In in Hx as [Hx Hk].
    apply in_map_iff in Hx as [item [<- Hitem]].
    split; [now apply kept_range|]. split; [apply clean_item_idempotent|].
    now exists item.
Qed.

(** X21.  Cleaning is idempotent: a list of entities that has been cleaned
    and deduplicated is returned unchanged when it is cleaned again. *)
Theorem clean_and_deduplicate_idempotent (items : list string) :
  EntityExtractor._clean_and_deduplicate (EntityExtractor._clean_and_deduplicate items)
  = EntityExtractor._clean_and_deduplicate items.
Proof.
  destruct (clean_and_deduplicate_invariants items) as [Hlen [Hs [Hnd Hall]]].
  cbv zeta in *.
  set (r := _clean_and_deduplicate items) in *.
  rewrite (clean_and_deduplicate_eq r).
  assert (E1 : map clean_item r = r).
  { clear - Hall. induction Hall as [|x l [_ [Hx _]] _ IH]; [reflexivity|].
    cbn [map]. now rewrite Hx, IH. }
  assert (E2 : filter kept r = r).
  { clear - Hall. induction Hall as [|x l [Hx _] _ IH]; [reflexivity|].
    cbn [filter]. rewrite (proj2 (kept_range x) Hx). now rewrite IH. }
  rewrite E1, E2.
  rewrite (deduplicate_fixed r [] Hnd) by (intros x _ []).
  rewrite (sort_of_sorted r (weakly_sorted r Hs)).
  now apply firstn_all2.
Qed.


End Cleaning.

(* ------------------------------------------------------------------ *)
(** ** Comparing two documents *)

Section Comparison.

Lemma types_fold (clauses : list Clause.clause) :
  forall acc : set string,
    NoDup acc ->
    let types := fold_left (fun types c => set_add string_dec (Clause.clause_type c) types)
                           clauses acc in
    NoDup types
    /\ forall t, In t types <-> In t acc \/ exists c, In c clauses /\ Clause.clause_type c = t.
Proof.
  induction clauses as [|c l IH]; intros acc Hacc; cbn [fold_left].
  - split; [exact Hacc|]. intros t. split; [now left|].
    intros [H|[c [[] _]]]. exact H.
  - destruct (IH (set_add string_dec (Clause.clause_type c) acc)
                 (set_add_nodup string_dec _ Hacc)) as [Hnd Hin].
    split; [exact Hnd|]. intros t. rewrite Hin, set_add_iff. split.
    + intros [[->|H]|[c' [Hc' Ht]]].
      * right. exists c. split; [now left | reflexivity].
      * now left.
      * right. exists c'. split; [now right | exact Ht].
    + intros [H|[c' [[<-|Hc'] Ht]]].
      * left. now right.
      * left. left. now symmetry.
      * right. now exists c'.
Qed.

Lemma types_of_spec (doc : AIQueries.document) :
  NoDup (AIQueries.types_of doc)
  /\ forall t, In t (AIQueries.types_of doc)
               <-> exists c, In c (AIQueries.doc_clauses doc) /\ Clause.clause_type c = t.
Proof.
  destruct (types_fold (AIQueries.doc_clauses doc) (empty_set string) (NoDup_nil _))
    as [Hnd Hin].
  split; [exact Hnd|]. intros t. unfold AIQueries.types_of. rewrite Hin.
  split; [intros [[]|H]; exact H | now right].
Qed.

(** X23.  The three lists of clause types in a comparison: a type is listed
    as similar when both documents have a clause of that type, as unique to
    a document when that document has one and the other has none; no list
    repeats a type. *)
Theorem compare_documents_types (doc1 doc2 : AIQueries.document) :
  let r := AIQueries.compare_documents doc1 doc2 in
  let has (doc : AIQueries.document) (t : string) :=
    exists c, In c (AIQueries.doc_clauses doc) /\ Clause.clause_type c = t in
  (forall t, In t (AIQueries.similar_clauses r) <-> has doc1 t /\ has doc2 t)
  /\ (forall t, In t (AIQueries.unique_to_doc1 r) <-> has doc1 t /\ ~ has doc2 t)
  /\ (forall t, In t (AIQueries.unique_to_doc2 r) <-> has doc2 t /\ ~ has doc1 t)
  /\ NoDup (AIQueries.similar_clauses r)
  /\ NoDup (AIQueries.unique_to_doc1 r)
  /\ NoDup (AIQueries.unique_to_doc2 r).
Proof.
  intros r has. subst r has. unfold AIQueries.compare_documents. cbv zeta.
  cbn [AIQueries.similar_clauses AIQueries.unique_to_doc1 AIQueries.unique_to_doc2].
  destruct (types_of_spec doc1) as [Hnd1 Hin1].
  destruct (types_of_spec doc2) as [Hnd2 Hin2].
  split; [intros t; rewrite set_inter_iff, Hin1, Hin2; tauto|].
  split; [intros t; rewrite set_diff_iff, Hin1, Hin2; tauto|].
  split; [intros t; rewrite set_diff_iff, Hin1, Hin2; tauto|].
  split; [now apply set_inter_nodup|].
  split; now apply set_diff_nodup.
Qed.

Lemma flt_asym (x y : Q) : @flt binary64 x y = true -> @flt binary64 y x = false.
Proof.
  cbn [flt binary64]. rewrite negb_true_iff, negb_false_iff.
  intros H. apply Qle_bool_iff. apply Qnot_lt_le. intros Hlt.
  apply Qlt_le_weak in Hlt. apply Qle_bool_iff in Hlt. congruence.
Qed.

(** X24.  Comparing the documents in the other order exchanges the two
    lists of unique types and the two verdicts on which document is
    riskier; the similar types and the number of key differences stay the
    same. *)
Theorem compare_documents_swap (doc1 doc2 : AIQueries.document) :
  let a := AIQueries.compare_documents doc1 doc2 in
  let b := AIQueries.compare_documents doc2 doc1 in
  (forall t, In t (AIQueries.unique_to_doc1 a) <-> In t (AIQueries.unique_to_doc2 b))
  /\ (forall t, In t (AIQueries.unique_to_doc2 a) <-> In t (AIQueries.unique_to_doc1 b))
  /\ (forall t, In t (AIQueries.similar_clauses a) <-> In t (AIQueries.similar_clauses b))
  /\ List.length (AIQueries.key_differences a) = List.length (AIQueries.key_differences b)
  /\ (AIQueries.recommendation (AIQueries.compared_risks a) = "Document 1 is riskier"
      <-> AIQueries.recommendation (AIQueries.compared_risks b) = "Document 2 is riskier")
  /\ (AIQueries.recommendation (AIQueries.compared_risks a)
      = "Both documents have similar risk levels"
      <-> AIQueries.recommendation (AIQueries.compared_risks b)
          = "Both documents have similar risk levels").
Proof.
  intros a b. subst a b. unfold AIQueries.compare_documents. cbv zeta.
  cbn [AIQueries.similar_clauses AIQueries.unique_to_doc1 AIQueries.unique_to_doc2
       AIQueries.key_differences AIQueries.compared_risks].
  split; [tauto|]. split; [tauto|].
  split; [intros t; rewrite !set_inter_iff; tauto|]. split.
  - rewrite (String.eqb_sym (AIQueries.doc_overall_risk doc2)).
    replace (Z.abs (Z.of_nat (List.length (AIQueries.doc_clauses doc2))
                    - Z.of_nat (List.length (AIQueries.doc_clauses doc1))))
      with (Z.abs (Z.of_nat (List.length (AIQueries.doc_clauses doc1))
                   - Z.of_nat (List.length (AIQueries.doc_clauses doc2)))) by lia.
    destruct (negb _); destruct (2 <? _); reflexivity.
  - unfold AIQueries._compare_risks. cbv zeta. cbn [AIQueries.recommendation].
    set (x := AIQueries.average_or_5 (map Clause.risk_score (AIQueries.doc_clauses doc1))).
    set (y := AIQueries.average_or_5 (map Clause.risk_score (AIQueries.doc_clauses doc2))).
    pose proof (flt_asym x y) as Hxy. pose proof (flt_asym y x) as Hyx.
    destruct (@flt binary64 y x); destruct (@flt binary64 x y);
      try (specialize (Hxy eq_refl)); try (specialize (Hyx eq_refl));
      try discriminate; split; split; intros H; try reflexivity; discriminate H.
Qed.

End Comparison.

Section CleaningWitnesses.


End CleaningWitnesses.

(* ------------------------------------------------------------------ *)
(** ** The summary and the top risk areas *)

Section SummaryAndAreas.

Context {F : FloatOps}.

Lemma assess_summary_fields (c0 : Clause.clause) (rest : list Clause.clause) :
  let clauses := c0 :: rest in
  let a := RiskAnalyzer.assess_risk clauses in
  let scores := map doc_score clauses in
  RiskAnalyzer.risk_summary a
  = RiskAnalyzer._generate_risk_summary
      (truediv (RiskAnalyzer.sum scores) (Z.of_nat (List.length scores)))
      (RiskAnalyzer.count (fun score => 7 <=? score) scores)
      (List.length clauses)
      (RiskAnalyzer.clause_risk_breakdown (RiskAnalyzer.loop clauses))
  /\ RiskAnalyzer.top_risk_areas a
     = RiskAnalyzer._identify_top_risks
         (RiskAnalyzer.clause_risk_breakdown (RiskAnalyzer.loop clauses)) clauses.
Proof.
  intros clauses a scores. subst scores.
  rewrite <- (loop_scores clauses). split; reflexivity.
Qed.

Lemma summary_headline (avg_score : float) (high_risk_count total_clauses : nat)
      (clause_breakdown : list (string * list Z)) :
  exists tail : string,
    RiskAnalyzer._generate_risk_summary avg_score high_risk_count total_clauses
                                        clause_breakdown
    = ((if ge_int avg_score 7 then "This document presents HIGH risk"
        else if ge_int avg_score 5 then "This document presents MEDIUM risk"
        else "This document presents LOW risk") ++ "." ++ tail)%string.
Proof.
  unfold RiskAnalyzer._generate_risk_summary. cbv zeta.
  set (headline := if ge_int avg_score 7 then _ else _).
  set (types := flat_map _ clause_breakdown).
  assert (H : forall l : list string,
             exists tail, (Str.join ". " (headline :: l) ++ ".")%string
                          = (headline ++ "." ++ tail)%string).
  { intros [|y l]; cbn [Str.join].
    - now exists "".
    - exists (" " ++ Str.join ". " (y :: l) ++ ".")%string.
      rewrite !append_assoc. reflexivity. }
  destruct (0 <? high_risk_count)%nat; destruct types; cbn [app]; apply H.
Qed.

(** X25.  The headline of the risk summary is decided by the average score
    alone, the overall level also by the maximum and by the number of
    high-risk clauses; so the headline never states a higher level than the
    overall level, and a document of low overall risk has the LOW headline. *)
Theorem summary_headline_never_overstates (clauses : list Clause.clause) :
  clauses <> [] ->
  let a := RiskAnalyzer.assess_risk clauses in
  exists headline tail : string,
    RiskAnalyzer.risk_summary a = (headline ++ "." ++ tail)%string
    /\ In headline [ "This document presents HIGH risk";
                     "This document presents MEDIUM risk";
                     "This document presents LOW risk" ]
    /\ (headline = "This document presents HIGH risk" ->
        RiskAnalyzer.overall_risk a = "high")
    /\ (headline = "This document presents MEDIUM risk" ->
        RiskAnalyzer.overall_risk a = "high" \/ RiskAnalyzer.overall_risk a = "medium")
    /\ (RiskAnalyzer.overall_risk a = "low" ->
        headline = "This document presents LOW risk").
Proof.
  intros Hne. destruct clauses as [|c0 rest]; [contradiction|].
  set (clauses := c0 :: rest). intros a.
  destruct (assess_summary_fields c0 rest) as [Hs _].
  destruct (assess_fields c0 rest) as [_ [_ [_ [Ho _]]]].
  fold clauses a in Hs, Ho. rewrite Hs, Ho.
  set (avg := truediv _ _).
  destruct (summary_headline avg
              (RiskAnalyzer.count (fun score => 7 <=? score) (map doc_score clauses))
              (List.length clauses)
              (RiskAnalyzer.clause_risk_breakdown (RiskAnalyzer.loop clauses)))
    as [tail Ht].
  set (m := RiskAnalyzer.max_of (map doc_score clauses)).
  set (n := RiskAnalyzer.count (fun score => 7 <=? score) (map doc_score clauses)) in *.
  clearbody m n avg.
  eexists. exists tail. split; [exact Ht|]. clear Ht Hs Ho.
  unfold RiskAnalyzer._determine_overall_risk.
  destruct (ge_int avg 7); [|destruct (ge_int avg 5)]; cbn [orb].
  - split; [left; reflexivity|]. split; [reflexivity|].
    split; [discriminate | discriminate].
  - split; [right; left; reflexivity|]. split; [discriminate|]. split.
    + intros _. destruct ((9 <=? m) || (3 <=? n)%nat); [now left | now right].
    + destruct ((9 <=? m) || (3 <=? n)%nat); discriminate.
  - split; [right; right; left; reflexivity|]. split; [discriminate|].
    split; [discriminate | reflexivity].
Qed.







End SummaryAndAreas.

Section AreaWitnesses.

Lemma summary_headline_never_overstates_witness :
  two_clauses <> []
  /\ exists headline tail : string,
       RiskAnalyzer.risk_summary (@RiskAnalyzer.assess_risk binary64 two_clauses)
       = (headline ++ "." ++ tail)%string
       /\ In headline [ "This document presents HIGH risk";
                        "This document presents MEDIUM risk";
                        "This document presents LOW risk" ].
Proof.
  assert (H : two_clauses <> []) by discriminate.
  split; [exact H|].
  destruct (@summary_headline_never_overstates binary64 two_clauses H)
    as [headline [tail [Hs [Hin _]]]].
  exists headline, tail. split; [exact Hs | exact Hin].
Defined.


End AreaWitnesses.
